(** * Batch orchestration of gretel-synthetics: a shallow embedding

    The development follows [src/gretel_synthetics/batch.py]: the [Batch]
    dataclass with its generation accumulators, and the [DataFrameBatch]
    coordinator (column partitioning, training, generation, re-assembly).

    Python values are embedded as follows: [int] is [Z], [str] is
    [String.string], a [list] is a [list], a [dict] read by key only is a
    [gmap], the insertion-ordered [batches] dict is an association list,
    and a call that may raise returns a [result]. *)

From Stdlib Require Import ZArith List Ascii String Bool Lia.
From stdpp Require Import base gmap strings list fin_maps pretty.
Import ListNotations.

Local Open Scope string_scope.
Local Open Scope list_scope.

(** ** Python primitives *)

Module Py.

(** Exceptions, by class. [OtherError] stands for any class that is not
    one of the others nor a subclass of them. *)
Inductive exn : Type :=
| ValueError (msg : string)
| KeyError (msg : string)
| ZeroDivisionError (msg : string)
| StopIteration
| OtherError (cls msg : string).

Inductive result (A : Type) : Type :=
| Ok (a : A)
| Raise (e : exn).
Arguments Ok {A} a.
Arguments Raise {A} e.

Definition bind {A B} (r : result A) (k : A -> result B) : result B :=
  match r with
  | Ok a => k a
  | Raise e => Raise e
  end.

Definition is_KeyError (e : exn) : bool :=
  match e with KeyError _ => true | _ => false end.

(** ["\n"] *)
Definition LF : ascii := "010"%char.
Definition newline : string := String LF EmptyString.

(** [sep.join(parts)] *)
Definition str_join (sep : string) (parts : list string) : string :=
  String.concat sep parts.

(** Scan of [str.split(sep)] for a non-empty [sep]: [cur] is the field
    being read, [skip] the number of characters of a separator that was
    just matched and is still to be passed over. *)
Fixpoint split_from (sep : string) (skip : nat) (cur : string) (s : string)
  : list string :=
  match s with
  | EmptyString => [cur]
  | String c rest =>
      match skip with
      | S k => split_from sep k cur rest
      | O =>
          if String.prefix sep s
          then cur :: split_from sep (String.length sep - 1) EmptyString rest
          else split_from sep 0 (cur ++ String c EmptyString) rest
      end
  end.

(** [s.split(sep)]: an empty separator is a [ValueError]. *)
Definition str_split (s sep : string) : result (list string) :=
  match sep with
  | EmptyString => Raise (ValueError "empty separator")
  | _ => Ok (split_from sep 0 EmptyString s)
  end.

(** Number of occurrences of a character. *)
Fixpoint count_char (c : ascii) (s : string) : nat :=
  match s with
  | EmptyString => 0
  | String d rest => (if Ascii.eqb c d then 1 else 0) + count_char c rest
  end.

(** [a // b] on Python integers. *)
Definition floordiv (a b : Z) : result Z :=
  if (b =? 0)%Z
  then Raise (ZeroDivisionError "integer division or modulo by zero")
  else Ok (a / b)%Z.

(** [l[st:stop]] for [0 <= st], [0 <= stop]. *)
Definition slice {A} (st stop : nat) (l : list A) : list A :=
  firstn (stop - st) (skipn st l).

(** An object handed over as a validator: [None], a callable taking the
    raw line (its answer is [True], [False] or [None], unless it raises),
    or any other, non-callable, object. *)
Inductive obj : Type :=
| PyNone
| PyCallable (f : string -> result (option bool))
| PyData (repr : string).

Definition callable (o : obj) : bool :=
  match o with PyCallable _ => true | _ => false end.

End Py.

Import Py.

(** ** Collaborators that are not part of [batch.py] *)

(** Modelled from the spec: [LocalConfig], the batch-specific generation
    configuration, whose class is defined in [gretel_synthetics/config.py]
    and is not among these sources. Only the attributes [batch.py] reads
    (field delimiter, number of lines to generate) or overrides
    (checkpoint and input paths) are kept. *)
Record LocalConfig : Type := {
  field_delimiter : string;
  gen_lines : Z;
  cfg_checkpoint_dir : string;
  cfg_input_data_path : string
}.

(** Modelled from the spec: [gen_text], a line produced by the generation
    capability, [{text: string, valid: bool | none}]; its class is defined
    in [gretel_synthetics/generate.py] and is not among these sources. *)
Record gen_text : Type := {
  text : string;
  valid : option bool
}.

(** ** [Batch] *)

(** [gen_data_stream] is the content of the [io.StringIO]: it is only ever
    written at its end (the one [seek(0)] of the source, in
    [synthetic_df], is followed by a read of the whole stream).
    [training_df] is left out: nothing below reads it. *)
Record Batch : Type := {
  checkpoint_dir : string;
  input_data_path : string;
  headers : list string;
  config : LocalConfig;
  gen_data_count : Z;
  gen_data_stream : string;
  gen_data_invalid : list gen_text;
  validator : obj
}.

Definition header_line (b : Batch) : string :=
  str_join (field_delimiter (config b)) (headers b) ++ newline.

Definition reset_gen_data (b : Batch) : Batch :=
  {| checkpoint_dir := checkpoint_dir b;
     input_data_path := input_data_path b;
     headers := headers b;
     config := config b;
     gen_data_count := 0;
     gen_data_stream := header_line b;
     gen_data_invalid := [];
     validator := validator b |}.

Definition add_valid_data (data : gen_text) (b : Batch) : Batch :=
  {| checkpoint_dir := checkpoint_dir b;
     input_data_path := input_data_path b;
     headers := headers b;
     config := config b;
     gen_data_count := gen_data_count b + 1;
     gen_data_stream := gen_data_stream b ++ (text data ++ newline);
     gen_data_invalid := gen_data_invalid b;
     validator := validator b |}.

(** [gen_data_invalid.append(line)] *)
Definition add_invalid_data (data : gen_text) (b : Batch) : Batch :=
  {| checkpoint_dir := checkpoint_dir b;
     input_data_path := input_data_path b;
     headers := headers b;
     config := config b;
     gen_data_count := gen_data_count b;
     gen_data_stream := gen_data_stream b;
     gen_data_invalid := gen_data_invalid b ++ [data];
     validator := validator b |}.

(** The dataclass constructor: the fields with [init=False] take their
    defaults, then [__post_init__] resets the accumulators. *)
Definition Batch_new (ckpt input : string) (hs : list string)
    (cfg : LocalConfig) (count : Z) : Batch :=
  reset_gen_data
    {| checkpoint_dir := ckpt;
       input_data_path := input;
       headers := hs;
       config := cfg;
       gen_data_count := count;
       gen_data_stream := EmptyString;
       gen_data_invalid := [];
       validator := PyNone |}.

Definition _basic_validator (b : Batch) (raw_line : string)
  : result (option bool) :=
  bind (str_split raw_line (field_delimiter (config b)))
       (fun fields => Ok (Some (length fields =? length (headers b))%nat)).

Definition get_validator (b : Batch) : obj :=
  match validator b with
  | PyNone => PyCallable (_basic_validator b)
  | v => v
  end.

(** Operations on the accumulators, and runs of them. *)
Inductive gen_op : Type :=
| ResetGenData
| AddValidData (data : gen_text).

Definition apply_op (b : Batch) (op : gen_op) : Batch :=
  match op with
  | ResetGenData => reset_gen_data b
  | AddValidData data => add_valid_data data b
  end.

Definition run_ops (ops : list gen_op) (b : Batch) : Batch :=
  fold_left apply_op ops b.

(** Lines held in the stream: every write ends in one ["\n"]. *)
Definition stream_lines (b : Batch) : nat :=
  count_char LF (gen_data_stream b).

Definition no_newline (s : string) : Prop := count_char LF s = 0.

Definition count_invariant (b : Batch) : Prop :=
  gen_data_count b = (Z.of_nat (stream_lines b) - 1)%Z.

Definition added_text_ok (op : gen_op) : Prop :=
  match op with
  | ResetGenData => True
  | AddValidData data => no_newline (text data)
  end.

(** ** numpy *)

Module Numpy.

(** [[0] + extras * [Neach_section + 1] + (Nsections - extras) * [Neach_section]] *)
Definition section_sizes (Ntotal Nsections : nat) : list nat :=
  let Neach_section := Ntotal / Nsections in
  let extras := Ntotal mod Nsections in
  0 :: replicate extras (Neach_section + 1)
       ++ replicate (Nsections - extras) Neach_section.

Fixpoint cumsum_from (acc : nat) (l : list nat) : list nat :=
  match l with
  | [] => []
  | x :: rest => (acc + x) :: cumsum_from (acc + x) rest
  end.

Definition cumsum (l : list nat) : list nat := cumsum_from 0 l.

(** ["\x00"] *)
Definition NUL : ascii := "000"%char.

(** An element read back from a fixed-width string array (dtype [<U]):
    the trailing NUL characters of the text are padding and are dropped. *)
Fixpoint rstrip_nul (s : string) : string :=
  match s with
  | EmptyString => EmptyString
  | String c rest =>
      match rstrip_nul rest with
      | EmptyString =>
          if Ascii.eqb c NUL then EmptyString else String c EmptyString
      | kept => String c kept
      end
  end.

(** Whether the last character of a text is NUL. *)
Fixpoint ends_in_nul (s : string) : bool :=
  match s with
  | EmptyString => false
  | String c rest =>
      match rest with
      | EmptyString => Ascii.eqb c NUL
      | _ => ends_in_nul rest
      end
  end.

(** [np.asarray(ary)] for a list of [str], read element by element. *)
Definition asarray (ary : list string) : list string := map rstrip_nul ary.

(** [sary[st:end]] for each pair of consecutive division points. *)
Definition sub_arys {A} (sary : list A) (div_points : list nat) (Nsections : nat)
  : list (list A) :=
  map (fun i => slice (nth i div_points 0) (nth (S i) div_points 0) sary)
      (seq 0 Nsections).

(** [np.array_split(ary, indices_or_sections)] along axis 0, for a list of
    [str] and an integer number of sections. The list becomes a string
    array before it is cut, so the groups hold the names as the array
    gives them back. *)
Definition array_split (ary : list string) (indices_or_sections : Z)
  : result (list (list string)) :=
  let Ntotal := length ary in
  if (indices_or_sections <=? 0)%Z
  then Raise (ValueError "number sections must be larger than 0.")
  else
    let Nsections := Z.to_nat indices_or_sections in
    let div_points := cumsum (section_sizes Ntotal Nsections) in
    let sary := asarray ary in
    Ok (sub_arys sary div_points Nsections).

End Numpy.

(** ** pandas *)

Module Pandas.

(** A cell: a missing value, a string or an integer. *)
Inductive cell : Type :=
| NaN
| Str (s : string)
| Int (z : Z).

(** A frame over the default [RangeIndex]: its number of rows and its
    columns, in order, each a label with its cells. *)
Record DataFrame : Type := {
  nrows : nat;
  columns : list (string * list cell)
}.

(** [pd.DataFrame()] *)
Definition empty_frame : DataFrame := {| nrows := 0; columns := [] |}.

(** [list(df.columns)] *)
Definition labels (df : DataFrame) : list string := map fst (columns df).

Definition well_formed (df : DataFrame) : Prop :=
  Forall (fun col => length (snd col) = nrows df) (columns df).

Definition fill_cell (v : cell) (c : cell) : cell :=
  match c with NaN => v | _ => c end.

(** [df.fillna(v)] *)
Definition fillna (v : cell) (df : DataFrame) : DataFrame :=
  {| nrows := nrows df;
     columns := map (fun col => (fst col, map (fill_cell v) (snd col)))
                    (columns df) |}.

(** A column brought to [n] rows: the rows it lacks are missing values. *)
Definition reindex (n : nat) (col : string * list cell) : string * list cell :=
  (fst col, snd col ++ repeat NaN (n - length (snd col))).

(** [pd.concat([a, b], axis=1)]: outer join of the two row ranges. *)
Definition concat_axis1 (a b : DataFrame) : DataFrame :=
  let n := Nat.max (nrows a) (nrows b) in
  {| nrows := n;
     columns := map (reindex n) (columns a) ++ map (reindex n) (columns b) |}.

Definition select (label : string) (df : DataFrame)
  : list (string * list cell) :=
  List.filter (fun col => String.eqb (fst col) label) (columns df).

(** The labels of [ls] that no column bears. *)
Definition missing_labels (ls : list string) (df : DataFrame) : list string :=
  List.filter (fun l => match select l df with [] => true | _ => false end) ls.

(** For each label, in turn, the columns that bear it. *)
Definition getitem_columns (ls : list string) (df : DataFrame)
  : list (string * list cell) :=
  flat_map (fun l => select l df) ls.

(** The text of the [KeyError] that [df[labels]] raises when some label
    is not a column. pandas composes it from the requested labels and the
    labels of the frame, in a wording that depends on its version; it is
    taken as a parameter. *)
Class KeyErrorText : Type := {
  not_in_index : list string -> list string -> string
}.

(** [df[labels]]: the columns that bear the labels, label by label; when
    some label is borne by no column, a [KeyError]. *)
Definition getitem `{KeyErrorText} (ls : list string) (df : DataFrame)
  : result DataFrame :=
  match missing_labels ls df with
  | [] => Ok {| nrows := nrows df; columns := getitem_columns ls df |}
  | _ => Raise (KeyError (not_in_index ls (labels df)))
  end.

End Pandas.

Import Pandas.

(** ** State and exceptions *)

(** A computation over a mutable state [S] that returns or raises; what it
    did to the state before raising stays done. *)
Definition M (S A : Type) : Type := S -> S * result A.

Definition ret {S A} (a : A) : M S A := fun s => (s, Ok a).

Definition raise {S A} (e : exn) : M S A := fun s => (s, Raise e).

Definition mbind_M {S A B} (m : M S A) (k : A -> M S B) : M S B :=
  fun s =>
    match m s with
    | (s', Ok a) => k a s'
    | (s', Raise e) => (s', Raise e)
    end.

Notation "'do' x <- m ; k" := (mbind_M m (fun x => k))
  (at level 10, x pattern, m at level 100, k at level 200).

(** [try: body except <class>: handler] *)
Definition try_except {S A} (body : M S A) (caught : exn -> bool)
    (handler : M S A) : M S A :=
  fun s =>
    match body s with
    | (s', Raise e) => if caught e then handler s' else (s', Raise e)
    | r => r
    end.

Definition lift_result {S A} (r : result A) : M S A := fun s => (s, r).

(** ** The insertion-ordered [batches] dict *)

Definition dict (V : Type) : Type := list (Z * V).

Fixpoint dict_get {V} (k : Z) (d : dict V) : option V :=
  match d with
  | [] => None
  | (k', v) :: rest => if (k' =? k)%Z then Some v else dict_get k rest
  end.

(** [d[k]] *)
Definition dict_getitem {V} (k : Z) (d : dict V) : result V :=
  match dict_get k d with
  | Some v => Ok v
  | None => Raise (KeyError (pretty k))
  end.

(** [d[k] = v]: a known key keeps its place, a new one goes last. *)
Fixpoint dict_set {V} (k : Z) (v : V) (d : dict V) : dict V :=
  match d with
  | [] => [(k, v)]
  | (k', v') :: rest =>
      if (k' =? k)%Z then (k, v) :: rest else (k', v') :: dict_set k v rest
  end.

Definition dict_keys {V} (d : dict V) : list Z := map fst d.
Definition dict_values {V} (d : dict V) : list V := map snd d.

(** ** The caller's objects *)

(** Values of the template config. *)
Inductive pyval : Type :=
| VNone
| VBool (b : bool)
| VInt (z : Z)
| VStr (s : string)
| VOther (repr : string).

(** The objects the caller hands to the constructor live in a store and
    are passed by reference: what the constructor does to them is seen by
    every holder of the reference. *)
Inductive heap_obj : Type :=
| HDataFrame (df : DataFrame)
| HDict (d : gmap string pyval)
| HList (items : list pyval).

Abbreviation heap := (gmap nat heap_obj).

Definition FIELD_DELIM : string := "field_delimiter".
Definition GEN_LINES : string := "gen_lines".
Definition MAX_INVALID : Z := 1000.

(** [pathlib] on a POSIX system. A path is held as its root (nothing, one
    slash, or exactly two slashes, which are kept as two) and its parts:
    the segments between slashes, without the empty ones and the ["."]
    ones. *)
Fixpoint lstrip_slash (s : string) : string :=
  match s with
  | String "/" rest => lstrip_slash rest
  | _ => s
  end.

Definition path_root (s : string) : string :=
  match String.length s - String.length (lstrip_slash s) with
  | 0 => ""
  | 2 => "//"
  | _ => "/"
  end.

Definition path_parts (s : string) : list string :=
  List.filter (fun x => negb (String.eqb x "") && negb (String.eqb x "."))
              (split_from "/" 0 "" (lstrip_slash s)).

(** [str(p)] for a path of the given root and parts. *)
Definition path_render (root : string) (parts : list string) : string :=
  match root ++ str_join "/" parts with
  | EmptyString => "."
  | s => s
  end.

(** [str(Path(a))] *)
Definition path_str (a : string) : string :=
  path_render (path_root a) (path_parts a).

(** [str(Path(a) / b)]: a rooted [b] replaces [a]. *)
Definition path_join (a b : string) : string :=
  match path_root b with
  | EmptyString => path_render (path_root a) (path_parts a ++ path_parts b)
  | _ => path_str b
  end.

(** [Path(v)] accepts strings only. *)
Definition as_path (v : pyval) : result string :=
  match v with
  | VStr s => Ok s
  | _ => Raise (OtherError "TypeError" "expected str, bytes or os.PathLike object")
  end.

(** ** The environment *)

(** Modelled from the spec: the collaborators [batch.py] calls and does
    not define, taken as parameters: the file system, pickling, the
    [LocalConfig] constructor, training ([train_rnn]), generation
    ([generate_text]) and the CSV reader, over a world [W] they may
    change. [generate_text] gives the lines it yields, in order, and the
    exception that ends the iteration when there is one; the loop that
    consumes it does nothing the generator can observe. *)
Class Env (W : Type) : Type := {
  is_dir : string -> W -> bool;
  mkdir : string -> M W unit;
  path_exists : string -> W -> bool;
  read_pickle_gz : string -> M W obj;
  write_pickle_gz : string -> obj -> M W unit;
  LocalConfig_new : gmap string pyval -> M W LocalConfig;
  train_rnn : LocalConfig -> M W unit;
  generate_text : LocalConfig -> obj -> Z -> W -> W * (list gen_text * option exn);
  read_csv : string -> string -> result DataFrame
}.

Definition with_validator (fn : obj) (b : Batch) : Batch :=
  {| checkpoint_dir := checkpoint_dir b;
     input_data_path := input_data_path b;
     headers := headers b;
     config := config b;
     gen_data_count := gen_data_count b;
     gen_data_stream := gen_data_stream b;
     gen_data_invalid := gen_data_invalid b;
     validator := fn |}.

(** The body of the generation loop. *)
Definition accepted (line : gen_text) : bool :=
  match valid line with
  | None | Some true => true
  | Some false => false
  end.

Definition collect_line (b : Batch) (line : gen_text) : Batch :=
  if accepted line then add_valid_data line b else add_invalid_data line b.

(** What [add_valid_data] writes for a sequence of lines. *)
Definition lines_text (lines : list gen_text) : string :=
  fold_right (fun line acc => (text line ++ newline ++ acc)%string) EmptyString lines.

Definition rejected (line : gen_text) : bool := negb (accepted line).

Definition _create_header_batches (columns : list string) (batch_size : Z)
  : result (list (list string)) :=
  bind (floordiv (Z.of_nat (length columns)) batch_size) (fun num_batches =>
  bind (Numpy.array_split columns num_batches) (fun tmp =>
  Ok tmp)).

(** [_source_df] and [self_config] (the attribute [config]) are references
    into the caller's store. *)
Record DataFrameBatch : Type := {
  _source_df : nat;
  batch_size : Z;
  self_config : nat;
  master_header_list : list string;
  batch_headers : list (list string);
  batches : dict Batch
}.

Definition with_batches (bs : dict Batch) (self : DataFrameBatch) : DataFrameBatch :=
  {| _source_df := _source_df self;
     batch_size := batch_size self;
     self_config := self_config self;
     master_header_list := master_header_list self;
     batch_headers := batch_headers self;
     batches := bs |}.

(** [key in items] for a [str] key and a list: the items are compared
    with the key by [==], and only an equal [str] compares equal. *)
Definition str_in (key : string) (items : list pyval) : bool :=
  existsb (fun v => match v with VStr s => String.eqb key s | _ => false end)
          items.

Section Coordinator.

Context {W : Type} `{Env W} `{KeyErrorText}.

(** *** Methods of [Batch] that reach the environment *)

Definition synthetic_df (b : Batch) : result DataFrame :=
  match gen_data_stream b with
  | EmptyString => Ok empty_frame
  | content => read_csv content (field_delimiter (config b))
  end.

Definition set_validator (fn : obj) (save : bool) : M (W * Batch) unit :=
  fun '(w, b) =>
    let b' := with_validator fn b in
    if save
    then
      let p := path_join (checkpoint_dir b') "validator.p.gz" in
      match write_pickle_gz p fn w with
      | (w', r) => ((w', b'), r)
      end
    else ((w, b'), Ok tt).

Definition load_validator_from_file (b : Batch) : M W Batch :=
  fun w =>
    let p := path_join (checkpoint_dir b) "validator.p.gz" in
    if path_exists p w
    then (do v <- read_pickle_gz p; ret (with_validator v b)) w
    else (w, Ok b).

(** *** [_build_batch_dirs] *)

Definition ensure_dir (p : string) : M W unit :=
  fun w => if is_dir p w then (w, Ok tt) else mkdir p w.

Definition config_getitem (k : string) (config : gmap string pyval)
  : result pyval :=
  match config !! k with
  | Some v => Ok v
  | None => Raise (KeyError k)
  end.

Fixpoint build_loop (base_ckpoint : pyval) (config : gmap string pyval)
    (i : nat) (groups : list (list string)) (out : dict Batch)
  : M W (dict Batch) :=
  match groups with
  | [] => ret out
  | hs :: rest =>
      do base <- lift_result (as_path base_ckpoint);
      let ckpoint := path_join base ("batch_" ++ pretty i) in
      do _ <- ensure_dir ckpoint;
      let input := path_join ckpoint "train.csv" in
      let new_config :=
        <["input_data_path" := VStr input]>
          (<["checkpoint_dir" := VStr ckpoint]> config) in
      do cfg <- LocalConfig_new new_config;
      do b <- load_validator_from_file (Batch_new ckpoint input hs cfg 0);
      build_loop base_ckpoint config (S i) rest (dict_set (Z.of_nat i) b out)
  end.

Definition _build_batch_dirs (base_ckpoint : pyval)
    (groups : list (list string)) (config : gmap string pyval)
  : M W (dict Batch) :=
  do dir <- lift_result (config_getitem "checkpoint_dir" config);
  do base_path <- lift_result (as_path dir);
  do _ <- ensure_dir (path_str base_path);
  build_loop base_ckpoint config 0 groups [].

(** *** [DataFrameBatch.__init__]

    [df] and [config] are references into the caller's store; an absent
    [config] is [None], and so is what a reference that the store does not
    hold stands for. The checks of the constructor are those of Python on
    the object it is given: [not config] is true of an empty dict and of
    an empty list and raises on a frame, [in] is key membership on a dict
    and item membership on a list, and a list cannot be indexed by a
    [str]. *)

Definition in_world {S A} (m : M W A) : M (W * S) A :=
  fun '(w, s) => match m w with (w', r) => ((w', s), r) end.

Definition heap_store (l : nat) (o : heap_obj) : M (W * heap) unit :=
  fun '(w, h) => ((w, <[l := o]> h), Ok tt).

Definition __init__ (df : nat) (batch_size : Z)
    (batch_headers : option (list (list string))) (config : option nat)
  : M (W * heap) DataFrameBatch :=
  fun '(w, h) =>
    match config with
    | None => ((w, h), Raise (ValueError "config is required!"))
    | Some cfg =>
        match h !! cfg with
        | Some (HDict d) =>
            if bool_decide (d = ∅)
            then ((w, h), Raise (ValueError "config is required!"))
            else
              match h !! df with
              | Some (HDataFrame frame) =>
                  match d !! FIELD_DELIM with
                  | None =>
                      ((w, h), Raise (ValueError "field_delimiter must be in config"))
                  | Some _ =>
                      let d1 :=
                        match d !! GEN_LINES with
                        | None => <[GEN_LINES := VInt (Z.of_nat (nrows frame))]> d
                        | Some _ => d
                        end in
                      let frame1 := fillna (Str "") frame in
                      (do _ <- heap_store cfg (HDict d1);
                       do _ <- heap_store df (HDataFrame frame1);
                       let master := labels frame1 in
                       do groups <-
                         match batch_headers with
                         | None | Some [] =>
                             lift_result (_create_header_batches (labels frame1) batch_size)
                         | Some given => ret given
                         end;
                       do base <- lift_result (config_getitem "checkpoint_dir" d1);
                       do bs <- in_world (_build_batch_dirs base groups d1);
                       ret {| _source_df := df;
                              batch_size := batch_size;
                              self_config := cfg;
                              master_header_list := master;
                              batch_headers := groups;
                              batches := bs |}) (w, h)
                  end
              | _ => ((w, h), Raise (ValueError "df must be a Data Frame"))
              end
        | Some (HList items) =>
            match items with
            | [] => ((w, h), Raise (ValueError "config is required!"))
            | _ =>
                match h !! df with
                | Some (HDataFrame frame) =>
                    if negb (str_in FIELD_DELIM items)
                    then
                      ((w, h), Raise (ValueError "field_delimiter must be in config"))
                    else if negb (str_in GEN_LINES items)
                    then
                      ((w, h),
                       Raise (OtherError "TypeError"
                                "list indices must be integers or slices, not str"))
                    else
                      let frame1 := fillna (Str "") frame in
                      (do _ <- heap_store df (HDataFrame frame1);
                       do groups <-
                         match batch_headers with
                         | None | Some [] =>
                             lift_result (_create_header_batches (labels frame1) batch_size)
                         | Some given => ret given
                         end;
                       raise (OtherError "TypeError"
                                "list indices must be integers or slices, not str"))
                        (w, h)
                | _ => ((w, h), Raise (ValueError "df must be a Data Frame"))
                end
            end
        | Some (HDataFrame _) =>
            ((w, h),
             Raise (ValueError "The truth value of a DataFrame is ambiguous. Use a.empty, a.bool(), a.item(), a.any() or a.all()."))
        | None => ((w, h), Raise (ValueError "config is required!"))
        end
    end.

(** *** Methods of [DataFrameBatch]; the state is the world and [self] *)

Definition batches_getitem (batch_idx : Z) : M (W * DataFrameBatch) Batch :=
  fun s => (s, dict_getitem batch_idx (batches (snd s))).

(** [self.batches[batch_idx].<method>(...)]: the method works on the
    batch object held by the dict. *)
Definition on_batch {A} (batch_idx : Z) (method : M (W * Batch) A)
  : M (W * DataFrameBatch) A :=
  fun '(w, self) =>
    match dict_getitem batch_idx (batches self) with
    | Raise e => ((w, self), Raise e)
    | Ok b =>
        match method (w, b) with
        | ((w', b'), r) =>
            ((w', with_batches (dict_set batch_idx b' (batches self)) self), r)
        end
    end.

Definition train_batch (batch_idx : Z) : M (W * DataFrameBatch) unit :=
  try_except
    (do b <- batches_getitem batch_idx; in_world (train_rnn (config b)))
    is_KeyError
    (raise (ValueError "batch_idx is invalid")).

Definition set_batch_validator (batch_idx : Z) (validator : obj)
  : M (W * DataFrameBatch) unit :=
  if negb (callable validator)
  then raise (ValueError "validator must be callable!")
  else
    try_except
      (on_batch batch_idx (set_validator validator true))
      is_KeyError
      (raise (ValueError "invalid batch number!")).

(** The part of [generate_batch_lines] that follows the lookup. The
    progress bars are display only. *)
Definition generate_into (max_invalid : Z) : M (W * Batch) bool :=
  fun '(w, b) =>
    let batch := reset_gen_data b in
    let validator := get_validator batch in
    match generate_text (config batch) validator max_invalid w with
    | (w', (lines, stop)) =>
        let batch' := fold_left collect_line lines batch in
        match stop with
        | Some e => ((w', batch'), Raise e)
        | None =>
            ((w', batch'),
             Ok (gen_data_count batch' =? gen_lines (config batch'))%Z)
        end
    end.

Definition generate_batch_lines (batch_idx : Z) (max_invalid : Z)
  : M (W * DataFrameBatch) bool :=
  do _ <- try_except (batches_getitem batch_idx) is_KeyError
            (raise (ValueError "invalid batch index"));
  on_batch batch_idx (generate_into max_invalid).

Fixpoint concat_rest (accum_df : DataFrame) (batch_iter : list Batch)
  : result DataFrame :=
  match batch_iter with
  | [] => Ok accum_df
  | batch :: rest =>
      bind (synthetic_df batch)
           (fun df => concat_rest (concat_axis1 accum_df df) rest)
  end.

Definition batches_to_df (self : DataFrameBatch) : result DataFrame :=
  match dict_values (batches self) with
  | [] => Raise StopIteration
  | base_batch :: batch_iter =>
      bind (synthetic_df base_batch) (fun accum_df =>
      bind (concat_rest accum_df batch_iter) (fun accum_df =>
      getitem (master_header_list self) accum_df))
  end.

End Coordinator.

(** ** The remaining methods of [DataFrameBatch] *)

Section Loops.

Context {W : Type} `{Env W}.

(** [for idx in self.batches.keys(): self.train_batch(idx)] *)
Fixpoint train_each (keys : list Z) : M (W * DataFrameBatch) unit :=
  match keys with
  | [] => ret tt
  | idx :: rest => do _ <- train_batch idx; train_each rest
  end.

Definition train_all_batches : M (W * DataFrameBatch) unit :=
  fun s => train_each (dict_keys (batches (snd s))) s.

(** [for idx in self.batches.keys():
       batch_status[idx] = self.generate_batch_lines(idx, max_invalid=max_invalid)] *)
Fixpoint generate_each (max_invalid : Z) (keys : list Z) (batch_status : dict bool)
  : M (W * DataFrameBatch) (dict bool) :=
  match keys with
  | [] => ret batch_status
  | idx :: rest =>
      do reached <- generate_batch_lines idx max_invalid;
      generate_each max_invalid rest (dict_set idx reached batch_status)
  end.

Definition generate_all_batch_lines (max_invalid : Z)
  : M (W * DataFrameBatch) (dict bool) :=
  fun s => generate_each max_invalid (dict_keys (batches (snd s))) [] s.

Definition batch_to_df (batch_idx : Z) : M (W * DataFrameBatch) DataFrame :=
  try_except
    (do b <- batches_getitem batch_idx; lift_result (synthetic_df b))
    is_KeyError
    (raise (ValueError "batch_idx is invalid!")).

End Loops.

(** ** [create_training_data] *)

(** Modelled from the spec: [DataFrame.to_csv(path, header=False,
    index=False, sep=sep)], the persisting of a training subset, taken as
    a parameter over the world. *)
Class CsvWriter (W : Type) : Type := {
  to_csv : DataFrame -> string -> pyval -> M W unit
}.

Section Extract.

Context {W : Type} `{CsvWriter W} `{KeyErrorText}.

(** The state: the world, the caller's store, and the [training_df]
    attribute of the batches, by batch index (no table is set at first). *)
Definition extract_state : Type := (W * (heap * dict DataFrame))%type.

(** [self._source_df[batch.headers]]. The constructor leaves no other
    object than a frame under this reference; a dict, a list and [None]
    refuse a list of labels as Python does. *)
Definition source_getitem (source : nat) (hs : list string)
  : M extract_state DataFrame :=
  fun s =>
    match fst (snd s) !! source with
    | Some (HDataFrame frame) => (s, getitem hs frame)
    | Some (HDict _) => (s, Raise (OtherError "TypeError" "unhashable type: 'list'"))
    | Some (HList _) =>
        (s, Raise (OtherError "TypeError"
                     "list indices must be integers or slices, not list"))
    | None =>
        (s, Raise (OtherError "TypeError" "'NoneType' object is not subscriptable"))
    end.

(** [batch.training_df = out_df.copy(deep=True)] *)
Definition set_training_df (i : Z) (df : DataFrame) : M extract_state unit :=
  fun s => ((fst s, (fst (snd s), dict_set i df (snd (snd s)))), Ok tt).

(** [self.config[key]], on the dict shared with the caller. The
    constructor returns for no other object than a dict; a frame answers
    with what it holds under that label, if anything, and a list and [None]
    refuse a [str] key as Python does. *)
Definition shared_config_getitem (cfg : nat) (key : string)
  : M extract_state pyval :=
  fun s =>
    match fst (snd s) !! cfg with
    | Some (HDict d) => (s, config_getitem key d)
    | Some (HDataFrame frame) =>
        match select key frame with
        | [] => (s, Raise (KeyError key))
        | _ => (s, Ok (VOther "selection"))
        end
    | Some (HList _) =>
        (s, Raise (OtherError "TypeError"
                     "list indices must be integers or slices, not str"))
    | None =>
        (s, Raise (OtherError "TypeError" "'NoneType' object is not subscriptable"))
    end.

Fixpoint extract_each (self : DataFrameBatch) (items : list (Z * Batch))
  : M extract_state unit :=
  match items with
  | [] => ret tt
  | (i, batch) :: rest =>
      do out_df <- source_getitem (_source_df self) (headers batch);
      do _ <- set_training_df i out_df;
      do sep <- shared_config_getitem (self_config self) FIELD_DELIM;
      do _ <- in_world (to_csv out_df (input_data_path batch) sep);
      extract_each self rest
  end.

Definition create_training_data (self : DataFrameBatch) : M extract_state unit :=
  extract_each self (batches self).

End Extract.

(** ** A scripted environment

    An in-memory world in the manner of a test double: directories and
    pickled validators are kept in lists, training and generation answer
    what the world was scripted to answer, and the CSV reader handles
    plain, unquoted text. *)

Module Scripted.

Record world : Type := {
  dirs : list string;
  pickles : list (string * obj);
  train_script : result unit;
  gen_script : list gen_text * option exn
}.

Definition with_dirs (ds : list string) (w : world) : world :=
  {| dirs := ds; pickles := pickles w;
     train_script := train_script w; gen_script := gen_script w |}.

Definition with_pickles (ps : list (string * obj)) (w : world) : world :=
  {| dirs := dirs w; pickles := ps;
     train_script := train_script w; gen_script := gen_script w |}.

Definition has_dir (p : string) (w : world) : bool :=
  existsb (String.eqb p) (dirs w).

Definition make_dir (p : string) : M world unit :=
  fun w =>
    if has_dir p w
    then (w, Raise (OtherError "FileExistsError" p))
    else (with_dirs (dirs w ++ [p]) w, Ok tt).

Fixpoint find_pickle (p : string) (ps : list (string * obj)) : option obj :=
  match ps with
  | [] => None
  | (q, o) :: rest => if String.eqb p q then Some o else find_pickle p rest
  end.

Definition has_pickle (p : string) (w : world) : bool :=
  match find_pickle p (pickles w) with Some _ => true | None => false end.

Definition load_pickle (p : string) : M world obj :=
  fun w =>
    match find_pickle p (pickles w) with
    | Some o => (w, Ok o)
    | None => (w, Raise (OtherError "FileNotFoundError" p))
    end.

Definition dump_pickle (p : string) (o : obj) : M world unit :=
  fun w => (with_pickles ((p, o) :: pickles w) w, Ok tt).

Definition make_config (d : gmap string pyval) : M world LocalConfig :=
  fun w =>
    match d !! "field_delimiter", d !! "gen_lines",
          d !! "checkpoint_dir", d !! "input_data_path" with
    | Some (VStr delim), Some (VInt n), Some (VStr ckpt), Some (VStr input) =>
        (w, Ok {| field_delimiter := delim; gen_lines := n;
                  cfg_checkpoint_dir := ckpt; cfg_input_data_path := input |})
    | _, _, _, _ => (w, Raise (OtherError "TypeError" "bad config"))
    end.

(** The text before each ["\n"]. *)
Fixpoint lines_from (cur : string) (s : string) : list string :=
  match s with
  | EmptyString => match cur with EmptyString => [] | _ => [cur] end
  | String c rest =>
      if Ascii.eqb c LF
      then cur :: lines_from EmptyString rest
      else lines_from (cur ++ String c EmptyString) rest
  end.

Definition field_cell (j : nat) (fields : list string) : cell :=
  match nth_error fields j with
  | Some f => Str f
  | None => NaN
  end.

Definition plain_read_csv (content sep : string) : result DataFrame :=
  match lines_from EmptyString content with
  | [] => Raise (OtherError "EmptyDataError" "No columns to parse from file")
  | header :: rows =>
      bind (str_split header sep) (fun names =>
      bind (fold_right
              (fun row acc =>
                 bind (str_split row sep) (fun fs =>
                 bind acc (fun more => Ok (fs :: more))))
              (Ok []) rows) (fun table =>
      Ok {| nrows := length rows;
            columns :=
              map (fun jn => (snd jn, map (field_cell (fst jn)) table))
                  (combine (seq 0 (length names)) names) |}))
  end.

#[global] Instance scripted_env : Env world := {|
  is_dir := has_dir;
  mkdir := make_dir;
  path_exists := has_pickle;
  read_pickle_gz := load_pickle;
  write_pickle_gz := dump_pickle;
  LocalConfig_new := make_config;
  train_rnn := fun _ w => (w, train_script w);
  generate_text := fun _ _ _ w => (w, gen_script w);
  read_csv := plain_read_csv
|}.

(** The [KeyError] text in the wording of pandas 2, for labels that
    [repr] shows between single quotes as they are. *)
Definition quoted (l : string) : string := "'" ++ l ++ "'".

Definition bracketed (ls : list string) : string :=
  "[" ++ str_join ", " (map quoted ls) ++ "]".

Definition has_label (cols : list string) (l : string) : bool :=
  existsb (String.eqb l) cols.

(** First occurrences, in order. *)
Fixpoint unique_from (seen : list string) (ls : list string) : list string :=
  match ls with
  | [] => []
  | l :: rest =>
      if has_label seen l
      then unique_from seen rest
      else l :: unique_from (l :: seen) rest
  end.

Definition plain_not_in_index (ls cols : list string) : string :=
  let not_found := List.filter (fun l => negb (has_label cols l)) ls in
  if (length not_found =? length ls)%nat
  then "None of [Index(" ++ bracketed ls ++ ", dtype='object')] are in the [columns]"
  else bracketed (unique_from [] not_found) ++ " not in index".

#[global] Instance scripted_text : KeyErrorText := {|
  not_in_index := plain_not_in_index
|}.

#[global] Instance scripted_writer : CsvWriter world := {|
  to_csv := fun _ _ _ w => (w, Ok tt)
|}.

Definition quiet : world :=
  {| dirs := []; pickles := []; train_script := Ok tt; gen_script := ([], None) |}.

End Scripted.

(** ** A read-only environment

    A world without state whose file system holds every directory and no
    file, and refuses every write. *)

Module ReadOnly.

Definition refuse {A} (p : string) : M unit A :=
  fun w => (w, Raise (OtherError "PermissionError" p)).

#[global] Instance readonly_env : Env unit := {|
  is_dir := fun _ _ => true;
  mkdir := fun p => refuse p;
  path_exists := fun _ _ => false;
  read_pickle_gz := fun p w => (w, Raise (OtherError "FileNotFoundError" p));
  write_pickle_gz := fun p _ => refuse p;
  LocalConfig_new := fun d w =>
    match d !! "field_delimiter" with
    | Some (VStr delim) =>
        (w, Ok {| field_delimiter := delim; gen_lines := 0;
                  cfg_checkpoint_dir := ""; cfg_input_data_path := "" |})
    | _ => (w, Raise (OtherError "TypeError" "bad config"))
    end;
  train_rnn := fun _ w => (w, Ok tt);
  generate_text := fun _ _ _ w => (w, ([], None));
  read_csv := Scripted.plain_read_csv
|}.

End ReadOnly.

(** ** Sample data *)

Definition comma_config : LocalConfig :=
  {| field_delimiter := ","; gen_lines := 2;
     cfg_checkpoint_dir := "ckpt/batch_0";
     cfg_input_data_path := "ckpt/batch_0/train.csv" |}.

Definition sample_batch : Batch :=
  Batch_new "ckpt/batch_0" "ckpt/batch_0/train.csv" ["a"; "b"] comma_config 0.

Definition broken_header_batch : Batch :=
  Batch_new "ckpt/batch_0" "ckpt/batch_0/train.csv"
            [("a" ++ newline ++ "b")%string] comma_config 0.

Definition line_1_2 : gen_text := {| text := "1,2"; valid := Some true |}.
Definition line_3_4 : gen_text := {| text := "3,4"; valid := None |}.
Definition line_bad : gen_text := {| text := "oops"; valid := Some false |}.

Definition batch_ab : Batch :=
  Batch_new "ckpt/batch_0" "ckpt/batch_0/train.csv" ["a"; "b"]
    {| field_delimiter := ","; gen_lines := 3;
       cfg_checkpoint_dir := "ckpt/batch_0";
       cfg_input_data_path := "ckpt/batch_0/train.csv" |} 0.

Definition batch_cd : Batch :=
  Batch_new "ckpt/batch_1" "ckpt/batch_1/train.csv" ["c"; "d"]
    {| field_delimiter := ","; gen_lines := 3;
       cfg_checkpoint_dir := "ckpt/batch_1";
       cfg_input_data_path := "ckpt/batch_1/train.csv" |} 0.

Definition sample_self : DataFrameBatch :=
  {| _source_df := 0;
     batch_size := 2;
     self_config := 1;
     master_header_list := ["a"; "b"; "c"; "d"];
     batch_headers := [["a"; "b"]; ["c"; "d"]];
     batches := [(0%Z, batch_ab); (1%Z, batch_cd)] |}.

Definition sample_frame : DataFrame :=
  {| nrows := 3;
     columns := [("a", [Int 1; NaN; Int 3]);
                 ("b", [Str "x"; Str "y"; NaN]);
                 ("c", [NaN; NaN; NaN]);
                 ("d", [Int 7; Int 8; Int 9])] |}.

Definition sample_config : gmap string pyval :=
  <["checkpoint_dir" := VStr "ckpt"]> (<["field_delimiter" := VStr ","]> ∅).

Definition sample_heap : heap :=
  <[1 := HDict sample_config]> (<[0 := HDataFrame sample_frame]> ∅).

Definition always_valid : obj := PyCallable (fun _ => Ok (Some true)).

(** A world whose training call fails on a dictionary lookup of its own. *)
Definition failing_train_world : Scripted.world :=
  {| Scripted.dirs := ["ckpt"; "ckpt/batch_0"; "ckpt/batch_1"];
     Scripted.pickles := [];
     Scripted.train_script := Raise (KeyError "vocab_size");
     Scripted.gen_script := ([], None) |}.

(** A world whose generator gives up after two rejects, one valid line
    short of the three requested. *)
Definition short_gen_world : Scripted.world :=
  {| Scripted.dirs := ["ckpt"; "ckpt/batch_0"; "ckpt/batch_1"];
     Scripted.pickles := [];
     Scripted.train_script := Ok tt;
     Scripted.gen_script := ([line_1_2; line_bad; line_3_4; line_bad], None) |}.

(** The sample coordinator after each batch generated three rows. *)
Definition generated_ab : Batch :=
  run_ops [AddValidData {| text := "1,2"; valid := Some true |};
           AddValidData {| text := "3,4"; valid := Some true |};
           AddValidData {| text := "5,6"; valid := Some true |}] batch_ab.

Definition generated_cd : Batch :=
  run_ops [AddValidData {| text := "x,y"; valid := Some true |};
           AddValidData {| text := "z,w"; valid := Some true |};
           AddValidData {| text := "u,v"; valid := Some true |}] batch_cd.

Definition generated_self : DataFrameBatch :=
  with_batches [(0%Z, generated_ab); (1%Z, generated_cd)] sample_self.

Definition table_ab : DataFrame :=
  {| nrows := 3;
     columns := [("a", [Str "1"; Str "3"; Str "5"]);
                 ("b", [Str "2"; Str "4"; Str "6"])] |}.

Definition table_cd : DataFrame :=
  {| nrows := 3;
     columns := [("c", [Str "x"; Str "z"; Str "u"]);
                 ("d", [Str "y"; Str "w"; Str "v"])] |}.

(** A coordinator whose second batch generated one row only, and one
    whose master header list names a column no batch has. *)
Definition short_cd : Batch :=
  run_ops [AddValidData {| text := "x,y"; valid := Some true |}] batch_cd.

Definition ragged_self : DataFrameBatch :=
  with_batches [(0%Z, generated_ab); (1%Z, short_cd)] sample_self.

Definition table_cd_short : DataFrame :=
  {| nrows := 1; columns := [("c", [Str "x"]); ("d", [Str "y"])] |}.

Definition misnamed_self : DataFrameBatch :=
  {| _source_df := 0;
     batch_size := 2;
     self_config := 1;
     master_header_list := ["a"; "z"];
     batch_headers := [["a"; "b"]; ["c"; "d"]];
     batches := [(0%Z, generated_ab); (1%Z, generated_cd)] |}.

(** A store whose config lacks [checkpoint_dir]. *)
Definition config_no_ckpt : gmap string pyval :=
  <["field_delimiter" := VStr ","]> ∅.

Definition heap_no_ckpt : heap :=
  <[1 := HDict config_no_ckpt]> (<[0 := HDataFrame sample_frame]> ∅).

(** A world in which a validator was saved for the first sample batch. *)
Definition saved_world : Scripted.world :=
  Scripted.with_pickles [("ckpt/batch_0/validator.p.gz", always_valid)]
                        short_gen_world.

(** A store whose frame lacks the columns of the sample batches, and one
    whose config lost the field delimiter after construction. *)
Definition narrow_frame : DataFrame :=
  {| nrows := 1; columns := [("a", [Int 1])] |}.

Definition narrow_heap : heap :=
  <[1 := HDict sample_config]> (<[0 := HDataFrame narrow_frame]> ∅).

Definition stale_heap : heap :=
  <[1 := HDict (delete FIELD_DELIM sample_config)]> sample_heap.

(** Column names that end in a NUL character. *)
Definition padded_a : string := String "a" (String Numpy.NUL EmptyString).
Definition padded_id : string := ("id" ++ String Numpy.NUL EmptyString)%string.

(** The caller's store with a list in place of the config dict. *)
Definition heap_with_list (items : list pyval) : heap :=
  <[1 := HList items]> sample_heap.

(** * Properties *)

(** ** Strings *)

Lemma count_char_app (c : ascii) (s t : string) :
  count_char c (s ++ t) = count_char c s + count_char c t.
Proof.
  induction s as [|d s IH]; simpl; [reflexivity|].
  rewrite IH. lia.
Qed.

Lemma count_char_newline : count_char LF newline = 1.
Proof. reflexivity. Qed.

Example split_plain : str_split "a,b,,c" "," = Ok ["a"; "b"; ""; "c"].
Proof. reflexivity. Qed.

Example split_overlap : str_split "aaa" "aa" = Ok [""; "a"].
Proof. reflexivity. Qed.

Example split_trailing : str_split "ab" "ab" = Ok [""; ""].
Proof. reflexivity. Qed.

Example split_no_sep : str_split "a,b" "" = Raise (ValueError "empty separator").
Proof. reflexivity. Qed.

(** ** [Batch] *)

Lemma stream_lines_reset (b : Batch) :
  stream_lines (reset_gen_data b)
  = count_char LF (str_join (field_delimiter (config b)) (headers b)) + 1.
Proof.
  unfold stream_lines, reset_gen_data, header_line; simpl.
  rewrite count_char_app. reflexivity.
Qed.

Lemma stream_lines_add (data : gen_text) (b : Batch) :
  stream_lines (add_valid_data data b)
  = stream_lines b + count_char LF (text data) + 1.
Proof.
  unfold stream_lines, add_valid_data; simpl.
  rewrite !count_char_app, count_char_newline. lia.
Qed.

Lemma header_line_reset (b : Batch) : header_line (reset_gen_data b) = header_line b.
Proof. reflexivity. Qed.

Lemma header_line_add data (b : Batch) : header_line (add_valid_data data b) = header_line b.
Proof. reflexivity. Qed.

Lemma header_line_run_ops ops (b : Batch) : header_line (run_ops ops b) = header_line b.
Proof.
  revert b. induction ops as [|op ops IH]; intros b; simpl; [reflexivity|].
  unfold run_ops in *. simpl. rewrite IH. destruct op; reflexivity.
Qed.

Lemma reset_establishes (b : Batch) :
  no_newline (str_join (field_delimiter (config b)) (headers b)) ->
  count_invariant (reset_gen_data b).
Proof.
  unfold count_invariant, no_newline. intros Hh.
  rewrite stream_lines_reset, Hh. reflexivity.
Qed.

Lemma add_preserves (data : gen_text) (b : Batch) :
  no_newline (text data) ->
  count_invariant b -> count_invariant (add_valid_data data b).
Proof.
  unfold count_invariant, no_newline. intros Ht Hb.
  rewrite stream_lines_add, Ht. simpl gen_data_count. lia.
Qed.

Lemma run_ops_preserves (ops : list gen_op) (b : Batch) :
  no_newline (str_join (field_delimiter (config b)) (headers b)) ->
  Forall added_text_ok ops ->
  count_invariant b -> count_invariant (run_ops ops b).
Proof.
  intros Hh Hops. revert b Hh.
  induction Hops as [|op ops Hop _ IH]; intros b Hh Hb; [exact Hb|].
  unfold run_ops. simpl. apply IH.
  - destruct op; exact Hh.
  - destruct op; simpl.
    + apply reset_establishes, Hh.
    + apply add_preserves; assumption.
Qed.

(** C8. [reset_gen_data] leaves an empty invalid-record list, a stream
    holding exactly the headers joined by the field delimiter and one line
    terminator, and a count of 0, whatever the batch had accumulated; two
    batches with the same headers and config are reset to the same
    accumulators. *)
Theorem reset_gen_data_clears (b : Batch) :
  gen_data_invalid (reset_gen_data b) = []
  /\ gen_data_stream (reset_gen_data b)
     = (str_join (field_delimiter (config b)) (headers b) ++ newline)%string
  /\ gen_data_count (reset_gen_data b) = 0%Z
  /\ headers (reset_gen_data b) = headers b
  /\ config (reset_gen_data b) = config b
  /\ validator (reset_gen_data b) = validator b
  /\ forall ops,
       gen_data_invalid (reset_gen_data (run_ops ops b)) = []
       /\ gen_data_stream (reset_gen_data (run_ops ops b))
          = (str_join (field_delimiter (config b)) (headers b) ++ newline)%string
       /\ gen_data_count (reset_gen_data (run_ops ops b)) = 0%Z.
Proof.
  repeat split.
  change (gen_data_stream (reset_gen_data (run_ops ops b)))
    with (header_line (run_ops ops b)).
  rewrite header_line_run_ops. reflexivity.
Qed.

Example reset_sample :
  gen_data_stream (reset_gen_data (run_ops [AddValidData line_1_2] sample_batch))
  = ("a,b" ++ newline)%string.
Proof. reflexivity. Qed.

(** C9. With no validator installed, [get_validator] is the built-in
    validator; it answers [True] exactly when splitting the line on the
    field delimiter gives as many fields as the batch has headers, and
    [False] for a line that splits into any other number of fields. *)
Theorem get_validator_default (b : Batch) (Hunset : validator b = PyNone) :
  get_validator b = PyCallable (_basic_validator b)
  /\ forall raw_line,
       (_basic_validator b raw_line = Ok (Some true)
        <-> exists fields,
              str_split raw_line (field_delimiter (config b)) = Ok fields
              /\ length fields = length (headers b))
       /\ (forall fields,
             str_split raw_line (field_delimiter (config b)) = Ok fields ->
             length fields <> length (headers b) ->
             _basic_validator b raw_line = Ok (Some false)).
Proof.
  split.
  - unfold get_validator. rewrite Hunset. reflexivity.
  - intros raw_line. unfold _basic_validator. split.
    + split.
      * destruct (str_split raw_line (field_delimiter (config b))) as [fields|e];
          simpl; [|discriminate].
        intros Heq. exists fields. split; [reflexivity|].
        apply Nat.eqb_eq. congruence.
      * intros (fields & -> & Hlen). simpl.
        apply Nat.eqb_eq in Hlen. rewrite Hlen. reflexivity.
    + intros fields -> Hlen. simpl.
      apply Nat.eqb_neq in Hlen. rewrite Hlen. reflexivity.
Qed.

Lemma get_validator_default_witness :
  validator sample_batch = PyNone
  /\ get_validator sample_batch = PyCallable (_basic_validator sample_batch)
  /\ _basic_validator sample_batch "1,2" = Ok (Some true)
  /\ _basic_validator sample_batch "1,2,3" = Ok (Some false).
Proof.
  split; [reflexivity|].
  destruct (get_validator_default sample_batch eq_refl) as [Hget Hline].
  split; [exact Hget|].
  split.
  - apply (proj1 (Hline "1,2")). exists ["1"; "2"]. split; reflexivity.
  - apply (proj2 (Hline "1,2,3") ["1"; "2"; "3"]); [reflexivity|simpl; lia].
Defined.

Lemma get_validator_installed (b : Batch) (f : string -> result (option bool)) :
  validator b = PyCallable f -> get_validator b = PyCallable f.
Proof. intros Hv. unfold get_validator. rewrite Hv. reflexivity. Qed.

(** C5, as the source has it. For a batch whose header line (the headers
    joined by the field delimiter) holds no line terminator, and added
    lines whose text holds none: [reset_gen_data] establishes, and
    [add_valid_data] and every run of the two preserve, that
    [gen_data_count] is the number of lines of [gen_data_stream] minus
    one; it holds of a batch from its construction on. *)
Theorem count_matches_stream (b : Batch) (ops : list gen_op)
    (Hheader : no_newline (str_join (field_delimiter (config b)) (headers b)))
    (Hops : Forall added_text_ok ops) :
  count_invariant (reset_gen_data b)
  /\ (forall data, no_newline (text data) ->
        count_invariant b -> count_invariant (add_valid_data data b))
  /\ (count_invariant b -> count_invariant (run_ops ops b))
  /\ count_invariant
       (run_ops ops (Batch_new (checkpoint_dir b) (input_data_path b)
                               (headers b) (config b) (gen_data_count b))).
Proof.
  repeat split.
  - apply reset_establishes, Hheader.
  - intros data Ht Hb. apply add_preserves; assumption.
  - apply run_ops_preserves; assumption.
  - apply run_ops_preserves; [exact Hheader|exact Hops|].
    unfold Batch_new. apply reset_establishes. exact Hheader.
Qed.

Lemma count_matches_stream_witness :
  no_newline (str_join (field_delimiter (config sample_batch)) (headers sample_batch))
  /\ Forall added_text_ok [AddValidData line_1_2; ResetGenData; AddValidData line_3_4]
  /\ count_invariant
       (run_ops [AddValidData line_1_2; ResetGenData; AddValidData line_3_4]
                sample_batch).
Proof.
  assert (Hh : no_newline (str_join (field_delimiter (config sample_batch))
                                    (headers sample_batch))) by reflexivity.
  assert (Ho : Forall added_text_ok
                 [AddValidData line_1_2; ResetGenData; AddValidData line_3_4])
    by (repeat constructor).
  split; [exact Hh|]. split; [exact Ho|].
  exact (proj2 (proj2 (proj2 (count_matches_stream sample_batch _ Hh Ho)))).
Defined.

(** C5, as stated, fails: a header that holds a line terminator makes the
    stream one line longer than the count accounts for, from construction
    on and after any added line. *)
Lemma count_invariant_header_newline :
  Forall added_text_ok [AddValidData line_1_2]
  /\ ~ count_invariant (run_ops [] broken_header_batch)
  /\ ~ count_invariant (run_ops [AddValidData line_1_2] broken_header_batch)
  /\ ~ count_invariant (reset_gen_data broken_header_batch).
Proof.
  split; [repeat constructor|].
  repeat split; unfold count_invariant; vm_compute; discriminate.
Qed.

(** ** [np.array_split] *)

Section ArraySplit.

Context {A : Type}.
Implicit Types (l : list A) (sizes : list nat).

(** The slices between consecutive division points are the list cut by
    the section sizes. *)
Lemma slices_reshape sizes : forall acc l,
  map (fun i => slice (nth i (acc :: Numpy.cumsum_from acc sizes) 0)
                      (nth (S i) (acc :: Numpy.cumsum_from acc sizes) 0) l)
      (seq 0 (length sizes))
  = reshape sizes (drop acc l).
Proof.
  induction sizes as [|x sizes IH]; intros acc l; [reflexivity|].
  cbn [length seq map reshape Numpy.cumsum_from].
  f_equal.
  - unfold slice. cbn [nth]. f_equal. lia.
  - rewrite <- seq_shift, map_map.
    rewrite drop_drop, <- IH. apply map_ext. intros i. reflexivity.
Qed.

Lemma concat_reshape sizes : forall l,
  concat (reshape sizes l) = take (sum_list sizes) l.
Proof.
  induction sizes as [|x sizes IH]; intros l; [reflexivity|].
  simpl. rewrite IH.
  apply take_take_drop.
Qed.

Lemma sizes_reshape sizes : forall l,
  sum_list sizes <= length l ->
  map (@length A) (reshape sizes l) = sizes.
Proof.
  induction sizes as [|x sizes IH]; intros l Hsum; [reflexivity|].
  simpl in Hsum |- *. f_equal.
  - rewrite length_take. lia.
  - apply IH. rewrite length_drop. lia.
Qed.

Lemma section_sizes_sum (Ntotal Nsections : nat) :
  0 < Nsections ->
  sum_list (tl (Numpy.section_sizes Ntotal Nsections)) = Ntotal.
Proof.
  intros Hpos. unfold Numpy.section_sizes. cbn [tl].
  rewrite sum_list_with_app, !sum_list_replicate.
  pose proof (Nat.div_mod Ntotal Nsections ltac:(lia)) as Hdm.
  pose proof (Nat.mod_upper_bound Ntotal Nsections ltac:(lia)) as Hlt.
  nia.
Qed.

Lemma section_sizes_length (Ntotal Nsections : nat) :
  0 < Nsections ->
  length (tl (Numpy.section_sizes Ntotal Nsections)) = Nsections.
Proof.
  intros Hpos. unfold Numpy.section_sizes. cbn [tl].
  rewrite length_app, !length_replicate.
  pose proof (Nat.mod_upper_bound Ntotal Nsections ltac:(lia)). lia.
Qed.

End ArraySplit.

Lemma rstrip_nul_fixed (s : string) :
  Numpy.ends_in_nul s = false <-> Numpy.rstrip_nul s = s.
Proof.
  induction s as [|c rest IH]; [split; reflexivity|].
  destruct rest as [|c' rest'].
  - cbn [Numpy.ends_in_nul Numpy.rstrip_nul].
    destruct (Ascii.eqb c Numpy.NUL); split; intros Heq;
      try reflexivity; discriminate.
  - change (Numpy.ends_in_nul (String c (String c' rest')))
      with (Numpy.ends_in_nul (String c' rest')).
    change (Numpy.rstrip_nul (String c (String c' rest')))
      with (match Numpy.rstrip_nul (String c' rest') with
            | EmptyString =>
                if Ascii.eqb c Numpy.NUL then EmptyString else String c EmptyString
            | kept => String c kept
            end).
    split.
    + intros Hend. apply IH in Hend. rewrite Hend. reflexivity.
    + intros Hfix. apply IH.
      destruct (Numpy.rstrip_nul (String c' rest')) as [|k kept].
      * destruct (Ascii.eqb c Numpy.NUL); discriminate.
      * congruence.
Qed.

Lemma asarray_fixed (l : list string) :
  Forall (fun s => Numpy.ends_in_nul s = false) l -> Numpy.asarray l = l.
Proof.
  intros Hall. unfold Numpy.asarray.
  induction Hall as [|s l Hs _ IH]; [reflexivity|].
  cbn [map]. rewrite IH. f_equal. apply rstrip_nul_fixed, Hs.
Qed.

Lemma asarray_length (l : list string) : length (Numpy.asarray l) = length l.
Proof. apply length_map. Qed.

Lemma array_split_reshape (l : list string) (n : Z) :
  (0 < n)%Z ->
  Numpy.array_split l n
  = Ok (reshape (tl (Numpy.section_sizes (length l) (Z.to_nat n)))
                (Numpy.asarray l)).
Proof.
  intros Hn. unfold Numpy.array_split, Numpy.sub_arys.
  destruct (Z.leb_spec n 0) as [Hle|_]; [lia|].
  f_equal.
  pose proof (slices_reshape
                (tl (Numpy.section_sizes (length l) (Z.to_nat n))) 0
                (Numpy.asarray l)) as Hs.
  rewrite section_sizes_length in Hs by lia.
  exact Hs.
Qed.

Lemma array_split_nonpositive (l : list string) (n : Z) :
  (n <= 0)%Z ->
  Numpy.array_split l n
  = Raise (ValueError "number sections must be larger than 0.").
Proof.
  intros Hn. unfold Numpy.array_split.
  destruct (Z.leb_spec n 0) as [_|Hgt]; [reflexivity|lia].
Qed.

(** What a split into a positive number of sections gives: that many
    groups, which put end to end are the names as the string array holds
    them, the first [length l mod n] of them one longer than the
    others. *)
Lemma array_split_spec (l : list string) (n : Z) :
  (0 < n)%Z ->
  exists groups,
    Numpy.array_split l n = Ok groups
    /\ length groups = Z.to_nat n
    /\ concat groups = Numpy.asarray l
    /\ map (@length string) groups
       = replicate (length l mod Z.to_nat n) (length l / Z.to_nat n + 1)
         ++ replicate (Z.to_nat n - length l mod Z.to_nat n)
                      (length l / Z.to_nat n).
Proof.
  intros Hn. eexists. split; [apply array_split_reshape, Hn|].
  assert (Hpos : 0 < Z.to_nat n) by lia.
  pose proof (section_sizes_sum (length l) (Z.to_nat n) Hpos) as Hsum.
  pose proof (section_sizes_length (length l) (Z.to_nat n) Hpos) as Hlen.
  split; [|split].
  - rewrite length_reshape. exact Hlen.
  - rewrite concat_reshape, Hsum. apply firstn_all2.
    rewrite asarray_length. lia.
  - rewrite sizes_reshape by (rewrite asarray_length; lia). reflexivity.
Qed.


(** ** Groups of a concatenation *)

Section Groups.

Context {A : Type}.
Implicit Types (gs : list (list A)) (c : A).

Lemma elem_of_concat gs c :
  c ∈ concat gs <-> exists i g, gs !! i = Some g /\ c ∈ g.
Proof.
  rewrite list_elem_of_In, in_concat. split.
  - intros (g & Hg & Hc). apply list_elem_of_In, list_elem_of_lookup in Hg.
    destruct Hg as [i Hi]. exists i, g. split; [exact Hi|].
    apply list_elem_of_In, Hc.
  - intros (i & g & Hi & Hc). exists g. split.
    + apply list_elem_of_In, list_elem_of_lookup. exists i. exact Hi.
    + apply list_elem_of_In, Hc.
Qed.

(** In a concatenation without repetition no element sits in two
    groups. *)
Lemma group_unique gs :
  NoDup (concat gs) ->
  forall i j gi gj c,
    gs !! i = Some gi -> gs !! j = Some gj -> c ∈ gi -> c ∈ gj -> i = j.
Proof.
  induction gs as [|g gs IH]; intros Hnd i j gi gj c Hi Hj Hci Hcj.
  - discriminate.
  - simpl in Hnd. apply NoDup_app in Hnd as (_ & Hsep & Hrest).
    destruct i as [|i], j as [|j]; simpl in Hi, Hj.
    + reflexivity.
    + exfalso. injection Hi as <-. apply (Hsep c Hci).
      apply elem_of_concat. exists j, gj. split; assumption.
    + exfalso. injection Hj as <-. apply (Hsep c Hcj).
      apply elem_of_concat. exists i, gi. split; assumption.
    + f_equal. apply (IH Hrest i j gi gj c); assumption.
Qed.

End Groups.

(** ** The even split *)

Lemma floordiv_columns (columns : list string) (batch_size : Z) :
  batch_size <> 0%Z ->
  floordiv (Z.of_nat (length columns)) batch_size
  = Ok (Z.of_nat (length columns) / batch_size)%Z.
Proof.
  intros Hnz. unfold floordiv.
  destruct (Z.eqb_spec batch_size 0) as [Heq|_]; [contradiction|reflexivity].
Qed.

Lemma even_split_groups (columns : list string) (batch_size : Z) :
  (1 <= batch_size <= Z.of_nat (length columns))%Z ->
  exists groups,
    _create_header_batches columns batch_size = Ok groups
    /\ Z.of_nat (length groups) = (Z.of_nat (length columns) / batch_size)%Z
    /\ 1 <= length groups
    /\ concat groups = Numpy.asarray columns
    /\ map (@length string) groups
       = replicate (length columns mod length groups)
                   (length columns / length groups + 1)
         ++ replicate (length groups - length columns mod length groups)
                      (length columns / length groups).
Proof.
  intros [Hlo Hhi].
  assert (Hq : (0 < Z.of_nat (length columns) / batch_size)%Z)
    by (apply Z.div_str_pos; lia).
  destruct (array_split_spec columns _ Hq) as (groups & Hsplit & Hlen & Hcat & Hsizes).
  exists groups. unfold _create_header_batches.
  rewrite floordiv_columns by lia. simpl. rewrite Hsplit. simpl.
  split; [reflexivity|].
  split; [lia|]. split; [lia|]. split; [exact Hcat|].
  rewrite Hlen. exact Hsizes.
Qed.

Lemma even_split_too_few (columns : list string) (batch_size : Z) :
  (Z.of_nat (length columns) < batch_size)%Z ->
  _create_header_batches columns batch_size
  = Raise (ValueError "number sections must be larger than 0.").
Proof.
  intros Hlt. unfold _create_header_batches.
  rewrite floordiv_columns by lia. simpl.
  rewrite Z.div_small by lia.
  reflexivity.
Qed.

Lemma even_split_zero_size (columns : list string) :
  _create_header_batches columns 0
  = Raise (ZeroDivisionError "integer division or modulo by zero").
Proof. reflexivity. Qed.

Lemma even_split_negative_size (columns : list string) (batch_size : Z) :
  (batch_size < 0)%Z ->
  _create_header_batches columns batch_size
  = Raise (ValueError "number sections must be larger than 0.").
Proof.
  intros Hneg. unfold _create_header_batches.
  rewrite floordiv_columns by lia. simpl.
  rewrite array_split_nonpositive; [reflexivity|].
  pose proof (Z.div_mod (Z.of_nat (length columns)) batch_size ltac:(lia)) as Hdm.
  pose proof (Z.mod_neg_bound (Z.of_nat (length columns)) batch_size Hneg) as Hr.
  nia.
Qed.

Example split_abcd :
  _create_header_batches ["a"; "b"; "c"; "d"] 2 = Ok [["a"; "b"]; ["c"; "d"]].
Proof. reflexivity. Qed.

Example split_uneven :
  _create_header_batches ["a"; "b"; "c"; "d"; "e"; "f"; "g"] 3
  = Ok [["a"; "b"; "c"; "d"]; ["e"; "f"; "g"]].
Proof. reflexivity. Qed.

(** C1, as stated, fails: the chunks are cut from the string array that
    [np.array_split] makes of the column list, and a name that ends in a
    NUL character comes back without it, so the groups are not chunks of
    the column list. *)
Lemma even_split_drops_trailing_nul :
  (1 <= 1 <= Z.of_nat (length [padded_a; "b"]))%Z
  /\ _create_header_batches [padded_a; "b"] 1 = Ok [["a"]; ["b"]]
  /\ concat [["a"]; ["b"]] <> [padded_a; "b"]
  /\ ~ padded_a ∈ concat [["a"]; ["b"]].
Proof.
  split; [simpl; lia|]. split; [reflexivity|]. split; [discriminate|].
  intros Hin. apply list_elem_of_In in Hin.
  destruct Hin as [Heq|[Heq|[]]]; discriminate.
Qed.

(** C1, amended. In even-split mode the number of groups is
    [floor(total_columns / target_size)], which is at least 1 whenever
    groups are produced; the groups are contiguous chunks, in the original
    order, of the column names with their trailing NUL characters dropped
    (of the column list itself when no name ends in NUL), and nearly equal
    (the first [total mod num_groups] are one column longer than the
    others). When [total_columns < target_size], so that the quotient is
    zero, the call fails with the [ValueError] (the configuration error of
    the source) that the split raises. *)
Theorem create_header_batches_even_split (columns : list string) (batch_size : Z) :
  ((1 <= batch_size <= Z.of_nat (length columns))%Z ->
   exists groups,
     _create_header_batches columns batch_size = Ok groups
     /\ Z.of_nat (length groups) = (Z.of_nat (length columns) / batch_size)%Z
     /\ 1 <= length groups
     /\ concat groups = map Numpy.rstrip_nul columns
     /\ (Forall (fun c => Numpy.ends_in_nul c = false) columns ->
         concat groups = columns)
     /\ map (@length string) groups
        = replicate (length columns mod length groups)
                    (length columns / length groups + 1)
          ++ replicate (length groups - length columns mod length groups)
                       (length columns / length groups))
  /\ ((Z.of_nat (length columns) < batch_size)%Z ->
      (Z.of_nat (length columns) / batch_size = 0)%Z
      /\ _create_header_batches columns batch_size
         = Raise (ValueError "number sections must be larger than 0.")).
Proof.
  split.
  - intros Hsize.
    destruct (even_split_groups columns batch_size Hsize)
      as (groups & Hrun & Hlen & Hpos & Hcat & Hsizes).
    exists groups. split; [exact Hrun|]. split; [exact Hlen|].
    split; [exact Hpos|]. split; [exact Hcat|]. split; [|exact Hsizes].
    intros Hnul. rewrite Hcat. apply asarray_fixed, Hnul.
  - intros Hlt. split.
    + apply Z.div_small. lia.
    + apply even_split_too_few, Hlt.
Qed.

Lemma create_header_batches_even_split_witness :
  (exists groups,
     _create_header_batches ["a"; "b"; "c"; "d"; "e"] 2 = Ok groups
     /\ length groups = 2 /\ concat groups = ["a"; "b"; "c"; "d"; "e"]
     /\ map (@length string) groups = [3; 2])
  /\ _create_header_batches ["a"] 2
     = Raise (ValueError "number sections must be larger than 0.").
Proof.
  split.
  - destruct (proj1 (create_header_batches_even_split ["a"; "b"; "c"; "d"; "e"] 2))
      as (groups & Hrun & Hlen & _ & _ & Hcat & Hsizes); [simpl; lia|].
    exists groups.
    assert (Hl : length groups = 2).
    { replace (Z.of_nat (length ["a"; "b"; "c"; "d"; "e"]) / 2)%Z with 2%Z in Hlen
        by reflexivity.
      lia. }
    rewrite Hl in Hsizes.
    split; [exact Hrun|]. split; [exact Hl|].
    split; [apply Hcat; repeat constructor|exact Hsizes].
  - apply (proj2 (create_header_batches_even_split ["a"] 2)). simpl. lia.
Defined.

(** C2, as stated, fails: two distinct column names that differ by a
    trailing NUL character come out of the even split as the same name, so
    the groups put end to end are not the column list, hold a duplicate,
    and lack one of the original columns. *)
Lemma even_split_merges_padded_names :
  (1 <= 2 <= Z.of_nat (length ["id"; padded_id]))%Z
  /\ NoDup ["id"; padded_id]
  /\ _create_header_batches ["id"; padded_id] 2 = Ok [["id"; "id"]]
  /\ concat [["id"; "id"]] <> ["id"; padded_id]
  /\ ~ NoDup (concat [["id"; "id"]])
  /\ ~ padded_id ∈ concat [["id"; "id"]].
Proof.
  split; [simpl; lia|].
  split.
  { apply NoDup_cons. split; [|apply NoDup_singleton].
    intros Hin. apply list_elem_of_In in Hin.
    destruct Hin as [Heq|[]]; discriminate. }
  split; [reflexivity|]. split; [discriminate|]. split.
  - intros Hnd. apply NoDup_cons in Hnd as [Hnotin _].
    apply Hnotin. apply list_elem_of_In. left. reflexivity.
  - intros Hin. apply list_elem_of_In in Hin.
    destruct Hin as [Heq|[Heq|[]]]; discriminate.
Qed.

(** C2, amended. For a column list none of whose names ends in a NUL
    character, and [1 <= batch_size <= number of columns], the groups of
    the even split, put end to end in batch order, are the original column
    list: each column occurs as often as in the original, no column is
    added, and when the original names are distinct every column sits in
    exactly one group. *)
Theorem even_split_partitions (columns : list string) (batch_size : Z)
    (Hnul : Forall (fun c => Numpy.ends_in_nul c = false) columns)
    (Hsize : (1 <= batch_size <= Z.of_nat (length columns))%Z) :
  exists groups,
    _create_header_batches columns batch_size = Ok groups
    /\ concat groups = columns
    /\ (forall c, count_occ string_dec (concat groups) c
                  = count_occ string_dec columns c)
    /\ (forall c, c ∈ concat groups <-> c ∈ columns)
    /\ (NoDup columns ->
        NoDup (concat groups)
        /\ forall c, c ∈ columns ->
             exists i, (exists g, groups !! i = Some g /\ c ∈ g)
                       /\ forall j g, groups !! j = Some g -> c ∈ g -> j = i).
Proof.
  destruct (even_split_groups columns batch_size Hsize)
    as (groups & Hrun & _ & _ & Hcat & _).
  rewrite (asarray_fixed columns Hnul) in Hcat.
  exists groups. split; [exact Hrun|]. split; [exact Hcat|].
  split; [intros c; rewrite Hcat; reflexivity|].
  split; [intros c; rewrite Hcat; reflexivity|].
  intros Hnd. split; [rewrite Hcat; exact Hnd|].
  intros c Hc. rewrite <- Hcat in Hc, Hnd.
  destruct (proj1 (elem_of_concat groups c) Hc) as (i & g & Hi & Hg).
  exists i. split; [exists g; split; assumption|].
  intros j g' Hj Hg'. apply (group_unique groups Hnd j i g' g c); assumption.
Qed.

Lemma even_split_partitions_witness :
  Forall (fun c => Numpy.ends_in_nul c = false) ["a"; "b"; "c"; "d"; "e"]
  /\ (1 <= 2 <= Z.of_nat (length ["a"; "b"; "c"; "d"; "e"]))%Z
  /\ exists groups,
       _create_header_batches ["a"; "b"; "c"; "d"; "e"] 2 = Ok groups
       /\ concat groups = ["a"; "b"; "c"; "d"; "e"].
Proof.
  assert (Hnul : Forall (fun c => Numpy.ends_in_nul c = false)
                        ["a"; "b"; "c"; "d"; "e"])
    by (repeat constructor).
  assert (Hsize : (1 <= 2 <= Z.of_nat (length ["a"; "b"; "c"; "d"; "e"]))%Z)
    by (simpl; lia).
  split; [exact Hnul|]. split; [exact Hsize|].
  destruct (even_split_partitions ["a"; "b"; "c"; "d"; "e"] 2 Hnul Hsize)
    as (groups & Hrun & Hcat & _).
  exists groups. split; assumption.
Defined.

(** ** The [batches] dict *)

Section Dict.

Context {V : Type}.
Implicit Types (d : dict V) (k : Z) (v : V).

Lemma dict_get_set_eq d k v : dict_get k (dict_set k v d) = Some v.
Proof.
  induction d as [|[k' v'] d IH]; simpl.
  - rewrite Z.eqb_refl. reflexivity.
  - destruct (Z.eqb_spec k' k) as [->|Hne]; simpl.
    + rewrite Z.eqb_refl. reflexivity.
    + destruct (Z.eqb_spec k' k) as [Heq|_]; [contradiction|exact IH].
Qed.

Lemma dict_get_set_ne d k j v : j <> k -> dict_get j (dict_set k v d) = dict_get j d.
Proof.
  intros Hne. induction d as [|[k' v'] d IH]; simpl.
  - destruct (Z.eqb_spec k j) as [Heq|_]; [congruence|reflexivity].
  - destruct (Z.eqb_spec k' k) as [->|Hk]; simpl.
    + destruct (Z.eqb_spec k j) as [Heq|_]; [congruence|reflexivity].
    + destruct (Z.eqb_spec k' j); [reflexivity|exact IH].
Qed.

(** Assigning to a known key keeps the keys and their order. *)
Lemma dict_keys_set_known d k v :
  is_Some (dict_get k d) -> dict_keys (dict_set k v d) = dict_keys d.
Proof.
  induction d as [|[k' v'] d IH]; simpl; intros [x Hx]; [discriminate|].
  destruct (Z.eqb_spec k' k) as [->|Hk]; simpl; [reflexivity|].
  f_equal. apply IH. exists x. exact Hx.
Qed.

End Dict.

Lemma string_app_assoc (s t u : string) : ((s ++ t) ++ u = s ++ (t ++ u))%string.
Proof.
  induction s as [|c s IH]; [reflexivity|].
  change (String c ((s ++ t) ++ u) = String c (s ++ (t ++ u)))%string.
  f_equal. exact IH.
Qed.

Lemma string_app_empty_r (s : string) : (s ++ EmptyString = s)%string.
Proof.
  induction s as [|c s IH]; [reflexivity|].
  change (String c (s ++ EmptyString) = String c s)%string.
  f_equal. exact IH.
Qed.

(** ** The generation loop *)

Lemma collect_lines (lines : list gen_text) : forall b,
  let b' := fold_left collect_line lines b in
  gen_data_stream b'
  = (gen_data_stream b ++ lines_text (List.filter accepted lines))%string
  /\ gen_data_count b'
     = (gen_data_count b + Z.of_nat (length (List.filter accepted lines)))%Z
  /\ gen_data_invalid b' = gen_data_invalid b ++ List.filter rejected lines
  /\ config b' = config b
  /\ headers b' = headers b
  /\ validator b' = validator b
  /\ checkpoint_dir b' = checkpoint_dir b
  /\ input_data_path b' = input_data_path b.
Proof.
  induction lines as [|line lines IH]; intros b; simpl.
  - rewrite string_app_empty_r, Z.add_0_r, app_nil_r. repeat split.
  - destruct (IH (collect_line b line))
      as (Hs & Hc & Hi & Hcfg & Hh & Hv & Hck & Hin).
    unfold collect_line, rejected in *.
    destruct (accepted line) eqn:Hacc; simpl in *.
    + rewrite Hs, Hc, Hi, Hcfg, Hh, Hv, Hck, Hin.
      rewrite !string_app_assoc.
      repeat split. lia.
    + rewrite Hs, Hc, Hi, Hcfg, Hh, Hv, Hck, Hin.
      rewrite <- app_assoc. repeat split.
Qed.

Section CoordinatorFacts.

Context {W : Type} `{Env W}.
Implicit Types (self : DataFrameBatch) (w : W) (b : Batch).

(** *** [train_batch] *)

Lemma train_batch_unknown self w batch_idx :
  dict_get batch_idx (batches self) = None ->
  train_batch batch_idx (w, self)
  = ((w, self), Raise (ValueError "batch_idx is invalid")).
Proof.
  intros Hget.
  unfold train_batch, try_except, mbind_M, batches_getitem, dict_getitem, raise.
  simpl. rewrite Hget. reflexivity.
Qed.

Lemma train_batch_returns self w batch_idx b w' :
  dict_get batch_idx (batches self) = Some b ->
  train_rnn (config b) w = (w', Ok tt) ->
  train_batch batch_idx (w, self) = ((w', self), Ok tt).
Proof.
  intros Hget Htrain.
  unfold train_batch, try_except, mbind_M, batches_getitem, dict_getitem, in_world.
  simpl. rewrite Hget, Htrain. reflexivity.
Qed.

(** A failure of the training call that is not a [KeyError] reaches the
    caller as it is. *)
Lemma train_batch_propagates self w batch_idx b w' e :
  dict_get batch_idx (batches self) = Some b ->
  train_rnn (config b) w = (w', Raise e) ->
  is_KeyError e = false ->
  train_batch batch_idx (w, self) = ((w', self), Raise e).
Proof.
  intros Hget Htrain Hcls.
  unfold train_batch, try_except, mbind_M, batches_getitem, dict_getitem, in_world.
  simpl. rewrite Hget, Htrain, Hcls. reflexivity.
Qed.

(** A [KeyError] raised inside the training call is caught with the
    lookup's and reported as an invalid index, although the index is
    known. *)
Lemma train_batch_masks_KeyError self w batch_idx b w' msg :
  dict_get batch_idx (batches self) = Some b ->
  train_rnn (config b) w = (w', Raise (KeyError msg)) ->
  train_batch batch_idx (w, self)
  = ((w', self), Raise (ValueError "batch_idx is invalid")).
Proof.
  intros Hget Htrain.
  unfold train_batch, try_except, mbind_M, batches_getitem, dict_getitem,
    in_world, raise.
  simpl. rewrite Hget, Htrain. reflexivity.
Qed.

End CoordinatorFacts.

(** C6. The index 0 is known and the training call raises
    [KeyError("vocab_size")]: [train_batch] does not let it through but
    raises [ValueError("batch_idx is invalid")]. *)
Theorem train_batch_translates_external_KeyError :
  dict_get 0 (batches sample_self) = Some batch_ab
  /\ train_rnn (config batch_ab) failing_train_world
     = (failing_train_world, Raise (KeyError "vocab_size"))
  /\ train_batch 0 (failing_train_world, sample_self)
     = ((failing_train_world, sample_self),
        Raise (ValueError "batch_idx is invalid")).
Proof. repeat split. Qed.

Section ValidatorAndGeneration.

Context {W : Type} `{Env W}.
Implicit Types (self : DataFrameBatch) (w : W) (b : Batch).

Lemma set_batch_validator_run self w batch_idx (fn : obj) b :
  callable fn = true ->
  dict_get batch_idx (batches self) = Some b ->
  set_batch_validator batch_idx fn (w, self)
  = match write_pickle_gz (path_join (checkpoint_dir b) "validator.p.gz") fn w with
    | (w', r) =>
        ((w', with_batches (dict_set batch_idx (with_validator fn b) (batches self)) self),
         match r with
         | Raise (KeyError _) => Raise (ValueError "invalid batch number!")
         | _ => r
         end)
    end.
Proof.
  intros Hcall Hget.
  unfold set_batch_validator, try_except, on_batch, dict_getitem, set_validator, raise.
  rewrite Hcall. cbn [negb]. cbv beta iota. rewrite Hget. cbv beta iota.
  destruct (write_pickle_gz _ fn w) as [w' [[]|e]]; [reflexivity|].
  destruct e; reflexivity.
Qed.

(** C7. [set_batch_validator] raises [ValueError("validator must be
    callable!")] for a validator that is not callable, whatever the
    index; [ValueError("invalid batch number!")] for a callable one and
    an unknown index; and for a callable one and a known index the batch
    at that index holds the validator afterwards, the other batches
    being as before. *)
Theorem set_batch_validator_checks self w batch_idx (fn : obj) :
  (callable fn = false ->
   set_batch_validator batch_idx fn (w, self)
   = ((w, self), Raise (ValueError "validator must be callable!")))
  /\ (callable fn = true ->
      dict_get batch_idx (batches self) = None ->
      set_batch_validator batch_idx fn (w, self)
      = ((w, self), Raise (ValueError "invalid batch number!")))
  /\ (callable fn = true ->
      forall b, dict_get batch_idx (batches self) = Some b ->
      exists w' self' r b',
        set_batch_validator batch_idx fn (w, self) = ((w', self'), r)
        /\ dict_get batch_idx (batches self') = Some b'
        /\ validator b' = fn
        /\ get_validator b' = fn
        /\ b' = with_validator fn b
        /\ dict_keys (batches self') = dict_keys (batches self)
        /\ (forall j, j <> batch_idx ->
              dict_get j (batches self') = dict_get j (batches self))
        /\ (write_pickle_gz (path_join (checkpoint_dir b) "validator.p.gz") fn w
            = (w', Ok tt) -> r = Ok tt)).
Proof.
  split; [|split].
  - intros Hcall. unfold set_batch_validator. rewrite Hcall. reflexivity.
  - intros Hcall Hget.
    unfold set_batch_validator, try_except, on_batch, dict_getitem, raise.
    rewrite Hcall. cbn [negb]. cbv beta iota. rewrite Hget. reflexivity.
  - intros Hcall b Hget.
    rewrite (set_batch_validator_run self w batch_idx fn b Hcall Hget).
    destruct (write_pickle_gz _ fn w) as [w' r] eqn:Hwrite.
    eexists w', _, _, (with_validator fn b).
    split; [reflexivity|]. simpl.
    split; [apply dict_get_set_eq|].
    split; [reflexivity|].
    split; [destruct fn; try discriminate; reflexivity|].
    split; [reflexivity|].
    split; [apply dict_keys_set_known; rewrite Hget; eexists; reflexivity|].
    split; [intros j Hj; apply dict_get_set_ne, Hj|].
    intros Hok. injection Hok as ->. reflexivity.
Qed.

(** *** [generate_batch_lines] *)

Lemma generate_batch_lines_unknown self w batch_idx max_invalid :
  dict_get batch_idx (batches self) = None ->
  generate_batch_lines batch_idx max_invalid (w, self)
  = ((w, self), Raise (ValueError "invalid batch index")).
Proof.
  intros Hget.
  unfold generate_batch_lines, mbind_M, try_except, batches_getitem,
    dict_getitem, raise.
  simpl. rewrite Hget. reflexivity.
Qed.

Lemma generate_batch_lines_run self w batch_idx max_invalid b :
  dict_get batch_idx (batches self) = Some b ->
  generate_batch_lines batch_idx max_invalid (w, self)
  = match generate_text (config b) (get_validator (reset_gen_data b)) max_invalid w with
    | (w', (lines, stop)) =>
        let b' := fold_left collect_line lines (reset_gen_data b) in
        ((w', with_batches (dict_set batch_idx b' (batches self)) self),
         match stop with
         | Some e => Raise e
         | None => Ok (gen_data_count b' =? gen_lines (config b'))%Z
         end)
    end.
Proof.
  intros Hget.
  unfold generate_batch_lines, mbind_M, try_except, batches_getitem,
    on_batch, dict_getitem, generate_into.
  simpl. rewrite Hget. simpl. rewrite Hget.
  destruct (generate_text (config b) (get_validator (reset_gen_data b)) max_invalid w)
    as [w' [lines [e|]]]; reflexivity.
Qed.

(** C3. When the generator yields [lines] and stops, the batch holds,
    after its header line, the text of every line whose [valid] is
    [True] or [None], in order, and counts them; every other line is in
    its invalid-record list, in order; the boolean returned is true
    exactly when the count equals [gen_lines]. So when more than
    [max_invalid] lines were rejected and fewer than [gen_lines] were
    valid, the boolean is false and the count is below [gen_lines]. *)
Theorem generate_batch_lines_collects self w batch_idx max_invalid b lines w'
    (Hget : dict_get batch_idx (batches self) = Some b)
    (Hgen : generate_text (config b) (get_validator (reset_gen_data b)) max_invalid w
            = (w', (lines, None))) :
  exists self' b' reached,
    generate_batch_lines batch_idx max_invalid (w, self) = ((w', self'), Ok reached)
    /\ dict_get batch_idx (batches self') = Some b'
    /\ gen_data_stream b'
       = (header_line b ++ lines_text (List.filter accepted lines))%string
    /\ gen_data_count b' = Z.of_nat (length (List.filter accepted lines))
    /\ gen_data_invalid b' = List.filter rejected lines
    /\ (reached = true <-> gen_data_count b' = gen_lines (config b'))
    /\ config b' = config b
    /\ ((max_invalid < Z.of_nat (length (List.filter rejected lines)))%Z ->
        (Z.of_nat (length (List.filter accepted lines)) < gen_lines (config b))%Z ->
        reached = false /\ (gen_data_count b' < gen_lines (config b'))%Z).
Proof.
  rewrite (generate_batch_lines_run self w batch_idx max_invalid b Hget), Hgen.
  destruct (collect_lines lines (reset_gen_data b))
    as (Hs & Hc & Hi & Hcfg & _).
  cbv zeta.
  set (b' := fold_left collect_line lines (reset_gen_data b)) in *.
  exists (with_batches (dict_set batch_idx b' (batches self)) self), b',
         (gen_data_count b' =? gen_lines (config b'))%Z.
  split; [reflexivity|].
  split; [apply dict_get_set_eq|].
  split; [exact Hs|].
  split; [rewrite Hc; simpl; lia|].
  split; [exact Hi|].
  split; [apply Z.eqb_eq|].
  split; [exact Hcfg|].
  intros _ Hshort.
  assert (Hlt : (gen_data_count b' < gen_lines (config b'))%Z).
  { rewrite Hc, Hcfg. simpl. lia. }
  split; [apply Z.eqb_neq; lia|exact Hlt].
Qed.

(** When the generator ends with an exception, the lines it yielded
    before are kept and the exception reaches the caller. *)
Lemma generate_batch_lines_raises self w batch_idx max_invalid b lines w' e :
  dict_get batch_idx (batches self) = Some b ->
  generate_text (config b) (get_validator (reset_gen_data b)) max_invalid w
  = (w', (lines, Some e)) ->
  generate_batch_lines batch_idx max_invalid (w, self)
  = ((w', with_batches
            (dict_set batch_idx
               (fold_left collect_line lines (reset_gen_data b)) (batches self))
            self),
     Raise e).
Proof.
  intros Hget Hgen.
  rewrite (generate_batch_lines_run self w batch_idx max_invalid b Hget), Hgen.
  reflexivity.
Qed.

End ValidatorAndGeneration.

Lemma set_batch_validator_checks_witness :
  set_batch_validator 0 (PyData "42") (Scripted.quiet, sample_self)
  = ((Scripted.quiet, sample_self), Raise (ValueError "validator must be callable!"))
  /\ set_batch_validator 5 always_valid (Scripted.quiet, sample_self)
     = ((Scripted.quiet, sample_self), Raise (ValueError "invalid batch number!"))
  /\ exists w' self' r b',
       set_batch_validator 1 always_valid (Scripted.quiet, sample_self)
       = ((w', self'), r)
       /\ dict_get 1 (batches self') = Some b'
       /\ validator b' = always_valid.
Proof.
  split; [|split].
  - apply (proj1 (set_batch_validator_checks sample_self Scripted.quiet 0 (PyData "42"))).
    reflexivity.
  - apply (proj1 (proj2 (set_batch_validator_checks sample_self Scripted.quiet 5 always_valid)));
      reflexivity.
  - destruct (proj2 (proj2 (set_batch_validator_checks sample_self Scripted.quiet 1 always_valid))
                eq_refl batch_cd eq_refl)
      as (w' & self' & r & b' & Hrun & Hget & Hv & _).
    exists w', self', r, b'. split; [exact Hrun|]. split; [exact Hget|exact Hv].
Defined.

Lemma generate_batch_lines_collects_witness :
  exists self' b',
    generate_batch_lines 0 1 (short_gen_world, sample_self)
    = ((short_gen_world, self'), Ok false)
    /\ dict_get 0 (batches self') = Some b'
    /\ gen_data_count b' = 2%Z
    /\ gen_data_invalid b' = [line_bad; line_bad]
    /\ (gen_data_count b' < gen_lines (config b'))%Z.
Proof.
  assert (Hget0 : dict_get 0 (batches sample_self) = Some batch_ab) by reflexivity.
  assert (Hgen : generate_text (config batch_ab)
                   (get_validator (reset_gen_data batch_ab)) 1 short_gen_world
                 = (short_gen_world, ([line_1_2; line_bad; line_3_4; line_bad], None)))
    by reflexivity.
  destruct (generate_batch_lines_collects sample_self short_gen_world 0 1 batch_ab
              [line_1_2; line_bad; line_3_4; line_bad] short_gen_world Hget0 Hgen)
    as (self' & b' & reached & Hrun & Hget & _ & Hcount & Hinv & _ & _ & Hshort).
  destruct Hshort as [Hfalse Hlt]; [simpl; lia|simpl; lia|].
  exists self', b'. rewrite <- Hfalse.
  split; [exact Hrun|]. split; [exact Hget|].
  split; [exact Hcount|]. split; [exact Hinv|exact Hlt].
Defined.

(** ** [fillna] *)

Lemma fillna_shape (v : cell) (df : DataFrame) :
  labels (fillna v df) = labels df /\ nrows (fillna v df) = nrows df.
Proof.
  split; [|reflexivity].
  unfold labels, fillna. simpl. rewrite map_map. reflexivity.
Qed.

Lemma fill_cells (v : cell) (cells : list cell) :
  v <> NaN ->
  length (map (fill_cell v) cells) = length cells
  /\ (NaN ∉ map (fill_cell v) cells)
  /\ forall j c, cells !! j = Some c ->
       map (fill_cell v) cells !! j = Some (match c with NaN => v | _ => c end).
Proof.
  intros Hv. split; [apply length_map|]. split.
  - intros Hin. apply list_elem_of_In, in_map_iff in Hin.
    destruct Hin as (c & Hc & _). destruct c; simpl in Hc; congruence.
  - intros j c Hj.
    change (map (fill_cell v) cells) with (fill_cell v <$> cells).
    rewrite list_lookup_fmap, Hj. reflexivity.
Qed.

Lemma fillna_cells (v : cell) (df : DataFrame) :
  v <> NaN ->
  forall i label cells,
    columns df !! i = Some (label, cells) ->
    exists cells',
      columns (fillna v df) !! i = Some (label, cells')
      /\ length cells' = length cells
      /\ (NaN ∉ cells')
      /\ forall j c, cells !! j = Some c ->
           cells' !! j = Some (match c with NaN => v | _ => c end).
Proof.
  intros Hv i label cells Hi.
  exists (map (fill_cell v) cells). split.
  - unfold fillna. simpl.
    change (map ?f (columns df)) with (f <$> columns df).
    rewrite list_lookup_fmap, Hi. reflexivity.
  - apply fill_cells, Hv.
Qed.

Example fillna_sample :
  fillna (Str "") sample_frame
  = {| nrows := 3;
       columns := [("a", [Int 1; Str ""; Int 3]);
                   ("b", [Str "x"; Str "y"; Str ""]);
                   ("c", [Str ""; Str ""; Str ""]);
                   ("d", [Int 7; Int 8; Int 9])] |}.
Proof. reflexivity. Qed.

(** ** Construction *)

Section Construction.

Context {W : Type} `{Env W}.

(** What the constructor has done to the caller's store once the three
    argument checks have passed, whether or not it then succeeds. *)
Lemma init_store (w : W) (h : heap) (df cfg : nat) (size : Z)
    (given : option (list (list string))) (frame : DataFrame)
    (d : gmap string pyval) :
  h !! df = Some (HDataFrame frame) ->
  h !! cfg = Some (HDict d) ->
  is_Some (d !! FIELD_DELIM) ->
  exists w' r,
    __init__ df size given (Some cfg) (w, h)
    = ((w', <[df := HDataFrame (fillna (Str "") frame)]>
              (<[cfg := HDict (match d !! GEN_LINES with
                               | None => <[GEN_LINES := VInt (Z.of_nat (nrows frame))]> d
                               | Some _ => d
                               end)]> h)), r)
    /\ forall self, r = Ok self -> _source_df self = df /\ self_config self = cfg.
Proof.
  intros Hdf Hcfg [delim Hdelim].
  unfold __init__. rewrite Hcfg.
  assert (Hne : d <> ∅).
  { intros ->. rewrite lookup_empty in Hdelim. discriminate. }
  rewrite bool_decide_eq_false_2 by exact Hne.
  rewrite Hdf, Hdelim.
  set (d1 := match d !! GEN_LINES with
             | None => <[GEN_LINES := VInt (Z.of_nat (nrows frame))]> d
             | Some _ => d
             end).
  set (frame1 := fillna (Str "") frame).
  unfold mbind_M, heap_store, lift_result, in_world, ret.
  cbv beta iota.
  set (h' := <[df := HDataFrame frame1]> (<[cfg := HDict d1]> h)).
  assert (Hfinish : forall (groups : result (list (list string))),
             exists w' r,
               (match groups with
                | Ok gs =>
                    match config_getitem "checkpoint_dir" d1 with
                    | Ok base =>
                        match _build_batch_dirs base gs d1 w with
                        | (w1, Ok bs) =>
                            ((w1, h'),
                             Ok {| _source_df := df; batch_size := size;
                                   self_config := cfg;
                                   master_header_list := labels frame1;
                                   batch_headers := gs; batches := bs |})
                        | (w1, Raise e) => ((w1, h'), Raise e)
                        end
                    | Raise e => ((w, h'), Raise e)
                    end
                | Raise e => ((w, h'), Raise e)
                end) = ((w', h'), r)
               /\ forall self, r = Ok self ->
                    _source_df self = df /\ self_config self = cfg).
  { intros [gs|e]; [|exists w, (Raise e); split; [reflexivity|discriminate]].
    destruct (config_getitem "checkpoint_dir" d1) as [base|e];
      [|exists w, (Raise e); split; [reflexivity|discriminate]].
    destruct (_build_batch_dirs base gs d1 w) as [w1 [bs|e]].
    - eexists w1, _. split; [reflexivity|].
      intros self Hself. injection Hself as <-. split; reflexivity.
    - exists w1, (Raise e). split; [reflexivity|discriminate]. }
  destruct given as [[|g gs]|].
  - destruct (Hfinish (_create_header_batches (labels frame1) size))
      as (w' & r & Hrun & Hrefs).
    exists w', r. split; [|exact Hrefs]. rewrite <- Hrun.
    destruct (_create_header_batches (labels frame1) size); [|reflexivity].
    destruct (config_getitem "checkpoint_dir" d1); [|reflexivity].
    destruct (_build_batch_dirs _ _ d1 w) as [w1 [bs|e]]; reflexivity.
  - destruct (Hfinish (Ok (g :: gs))) as (w' & r & Hrun & Hrefs).
    exists w', r. split; [|exact Hrefs]. rewrite <- Hrun.
    destruct (config_getitem "checkpoint_dir" d1); [|reflexivity].
    destruct (_build_batch_dirs _ _ d1 w) as [w1 [bs|e]]; reflexivity.
  - destruct (Hfinish (_create_header_batches (labels frame1) size))
      as (w' & r & Hrun & Hrefs).
    exists w', r. split; [|exact Hrefs]. rewrite <- Hrun.
    destruct (_create_header_batches (labels frame1) size); [|reflexivity].
    destruct (config_getitem "checkpoint_dir" d1); [|reflexivity].
    destruct (_build_batch_dirs _ _ d1 w) as [w1 [bs|e]]; reflexivity.
Qed.

(** C10. Once its arguments pass the checks, the constructor has changed
    the caller's own objects: the frame behind [df] has every missing
    cell replaced by the empty string (the other cells as they were),
    and the dict behind [config] has gained [gen_lines], set to the
    number of rows of the frame, when it lacked the key, and is
    unchanged when it had it. The new object holds the same two
    references, and nothing else in the store is touched. *)
Theorem init_mutates_arguments (w : W) (h : heap) (df cfg : nat) (size : Z)
    (given : option (list (list string))) (frame : DataFrame)
    (d : gmap string pyval)
    (Hdf : h !! df = Some (HDataFrame frame))
    (Hcfg : h !! cfg = Some (HDict d))
    (Hdelim : is_Some (d !! FIELD_DELIM)) :
  exists w' h' r,
    __init__ df size given (Some cfg) (w, h) = ((w', h'), r)
    /\ h' !! df = Some (HDataFrame (fillna (Str "") frame))
    /\ (forall i label cells,
          columns frame !! i = Some (label, cells) ->
          exists cells',
            columns (fillna (Str "") frame) !! i = Some (label, cells')
            /\ length cells' = length cells
            /\ (NaN ∉ cells')
            /\ forall j c, cells !! j = Some c ->
                 cells' !! j = Some (match c with NaN => Str "" | _ => c end))
    /\ (d !! GEN_LINES = None ->
        exists d',
          h' !! cfg = Some (HDict d')
          /\ d' = <[GEN_LINES := VInt (Z.of_nat (nrows frame))]> d
          /\ d' !! GEN_LINES = Some (VInt (Z.of_nat (nrows frame)))
          /\ forall k, k <> GEN_LINES -> d' !! k = d !! k)
    /\ (is_Some (d !! GEN_LINES) -> h' !! cfg = Some (HDict d))
    /\ (forall l, l <> df -> l <> cfg -> h' !! l = h !! l)
    /\ (forall self, r = Ok self -> _source_df self = df /\ self_config self = cfg).
Proof.
  destruct (init_store w h df cfg size given frame d Hdf Hcfg Hdelim)
    as (w' & r & Hrun & Hrefs).
  assert (Hne : df <> cfg) by (intros ->; congruence).
  eexists w', _, r. split; [exact Hrun|].
  split; [apply lookup_insert_eq|].
  split; [apply fillna_cells; discriminate|].
  split; [|split; [|split]].
  - intros Hnone. eexists. split.
    + rewrite lookup_insert_ne by exact Hne. rewrite lookup_insert_eq, Hnone.
      reflexivity.
    + split; [reflexivity|]. split; [apply lookup_insert_eq|].
      intros k Hk. apply lookup_insert_ne. congruence.
  - intros [v Hv]. rewrite lookup_insert_ne by exact Hne.
    rewrite lookup_insert_eq, Hv. reflexivity.
  - intros l Hl1 Hl2. rewrite !lookup_insert_ne by congruence. reflexivity.
  - exact Hrefs.
Qed.

End Construction.

Example init_sample :
  snd (__init__ 0 2 None (Some 1) (Scripted.quiet, sample_heap)) = Ok sample_self.
Proof. vm_compute. reflexivity. Qed.

Lemma init_mutates_arguments_witness :
  sample_heap !! 0 = Some (HDataFrame sample_frame)
  /\ sample_heap !! 1 = Some (HDict sample_config)
  /\ is_Some (sample_config !! FIELD_DELIM)
  /\ exists w' h' r,
       __init__ 0 2 None (Some 1) (Scripted.quiet, sample_heap) = ((w', h'), r)
       /\ h' !! 0 = Some (HDataFrame (fillna (Str "") sample_frame))
       /\ h' !! 1 = Some (HDict (<[GEN_LINES := VInt 3]> sample_config)).
Proof.
  assert (Hdf : sample_heap !! 0 = Some (HDataFrame sample_frame)) by reflexivity.
  assert (Hcfg : sample_heap !! 1 = Some (HDict sample_config)) by reflexivity.
  assert (Hdelim : is_Some (sample_config !! FIELD_DELIM))
    by (exists (VStr ","); reflexivity).
  split; [exact Hdf|]. split; [exact Hcfg|]. split; [exact Hdelim|].
  destruct (init_mutates_arguments Scripted.quiet sample_heap 0 1 2 None
              sample_frame sample_config Hdf Hcfg Hdelim)
    as (w' & h' & r & Hrun & Hframe & _ & Hins & _).
  exists w', h', r. split; [exact Hrun|]. split; [exact Hframe|].
  destruct Hins as (d' & Hd' & -> & _); [reflexivity|].
  exact Hd'.
Defined.

(** ** Frames side by side, and column selection *)

Lemma reindex_full (n : nat) (col : string * list cell) :
  length (snd col) = n -> reindex n col = col.
Proof.
  intros Hlen. unfold reindex. rewrite Hlen, Nat.sub_diag. simpl.
  rewrite app_nil_r. destruct col; reflexivity.
Qed.

Lemma map_reindex_full (n : nat) (cols : list (string * list cell)) :
  Forall (fun col => length (snd col) = n) cols -> map (reindex n) cols = cols.
Proof.
  induction 1 as [|col cols Hcol _ IH]; simpl; [reflexivity|].
  rewrite reindex_full by exact Hcol. rewrite IH. reflexivity.
Qed.

(** Two well-formed frames of [R] rows side by side: no cell is added. *)
Lemma concat_axis1_same_rows (R : nat) (a b : DataFrame) :
  nrows a = R -> well_formed a -> nrows b = R -> well_formed b ->
  concat_axis1 a b = {| nrows := R; columns := columns a ++ columns b |}.
Proof.
  unfold well_formed, concat_axis1. intros Ha Hwa Hb Hwb.
  rewrite Ha, Hb in *. rewrite Nat.max_id.
  rewrite !map_reindex_full by assumption. reflexivity.
Qed.

Lemma select_absent (l : string) (cols : list (string * list cell)) :
  l ∉ map fst cols ->
  List.filter (fun col => String.eqb (fst col) l) cols = [].
Proof.
  induction cols as [|col cols IH]; simpl; intros Hl; [reflexivity|].
  apply not_elem_of_cons in Hl as [Hne Hl].
  destruct (String.eqb_spec (fst col) l) as [Heq|_]; [congruence|].
  apply IH, Hl.
Qed.

Lemma select_unique (col : string * list cell) (cols : list (string * list cell)) :
  NoDup (map fst cols) -> col ∈ cols ->
  List.filter (fun c => String.eqb (fst c) (fst col)) cols = [col].
Proof.
  induction cols as [|c cols IH]; simpl; intros Hnd Hin.
  - apply elem_of_nil in Hin. contradiction.
  - apply NoDup_cons in Hnd as [Hfresh Hnd].
    apply elem_of_cons in Hin as [->|Hin].
    + rewrite String.eqb_refl. f_equal. apply select_absent, Hfresh.
    + destruct (String.eqb_spec (fst c) (fst col)) as [Heq|_].
      * exfalso. apply Hfresh. rewrite Heq.
        apply list_elem_of_In, in_map, list_elem_of_In, Hin.
      * apply IH; assumption.
Qed.

(** Selecting the labels of columns the frame holds gives those columns,
    and none of the labels is missing. *)
Lemma getitem_columns_held (df : DataFrame) (cs : list (string * list cell)) :
  NoDup (labels df) ->
  (forall c, c ∈ cs -> c ∈ columns df) ->
  missing_labels (map fst cs) df = []
  /\ getitem_columns (map fst cs) df = cs.
Proof.
  intros Hnd. induction cs as [|c cs IH]; intros Hheld; [split; reflexivity|].
  destruct IH as [Hm Hc].
  { intros c' Hc'. apply Hheld. right. exact Hc'. }
  assert (Hsel : select (fst c) df = [c]).
  { unfold select. apply (select_unique c (columns df) Hnd). apply Hheld. left. }
  unfold missing_labels, getitem_columns in *.
  cbn [map List.filter flat_map]. rewrite Hsel, Hm, Hc. split; reflexivity.
Qed.

Lemma columns_for_labels (df : DataFrame) (ls : list string) :
  (forall l, l ∈ ls -> l ∈ labels df) ->
  exists cs, map fst cs = ls /\ forall c, c ∈ cs -> c ∈ columns df.
Proof.
  induction ls as [|l ls IH]; intros Hcover.
  - exists []. split; [reflexivity|]. intros c Hc. apply elem_of_nil in Hc. contradiction.
  - destruct IH as (cs & Hcs & Hheld).
    { intros l' Hl'. apply Hcover. right. exact Hl'. }
    assert (Hl : l ∈ labels df) by (apply Hcover; left).
    apply list_elem_of_In, in_map_iff in Hl. destruct Hl as (c & Hc & Hin).
    exists (c :: cs). split; [simpl; congruence|].
    intros c' Hc'. apply elem_of_cons in Hc' as [->|Hc'].
    + apply list_elem_of_In, Hin.
    + apply Hheld, Hc'.
Qed.

Section Selection.

Context `{KeyErrorText}.

(** [df[ls]] for distinct column labels and [ls] among them: the result
    bears exactly the labels [ls], in that order, over columns of [df]. *)
Lemma getitem_reorders (df : DataFrame) (ls : list string) :
  NoDup (labels df) ->
  (forall l, l ∈ ls -> l ∈ labels df) ->
  exists out,
    getitem ls df = Ok out
    /\ labels out = ls
    /\ nrows out = nrows df
    /\ (forall c, c ∈ columns out -> c ∈ columns df)
    /\ (ls = labels df -> columns out = columns df).
Proof.
  intros Hnd Hcover.
  destruct (columns_for_labels df ls Hcover) as (cs & Hcs & Hheld).
  destruct (getitem_columns_held df cs Hnd Hheld) as [Hm Hc].
  exists {| nrows := nrows df; columns := cs |}.
  unfold getitem. rewrite <- Hcs, Hm, Hc.
  split; [reflexivity|]. split; [reflexivity|]. split; [reflexivity|].
  split; [exact Hheld|].
  intros Hall.
  destruct (getitem_columns_held df (columns df) Hnd (fun c Hc => Hc)) as [_ H2].
  unfold labels in Hall. rewrite Hall in Hc. simpl. congruence.
Qed.

(** [df[ls]] when some label of [ls] is borne by no column: a [KeyError]
    whose text pandas makes of the request and of the frame's labels. *)
Lemma getitem_missing (df : DataFrame) (ls : list string) :
  (exists l, l ∈ ls /\ l ∉ labels df) ->
  getitem ls df = Raise (KeyError (not_in_index ls (labels df))).
Proof.
  intros (l & Hl & Hmiss). unfold getitem.
  assert (Hin : In l (missing_labels ls df)).
  { unfold missing_labels. apply filter_In. split; [apply list_elem_of_In, Hl|].
    unfold select. rewrite select_absent by exact Hmiss. reflexivity. }
  destruct (missing_labels ls df); [contradiction|reflexivity].
Qed.

End Selection.

Example getitem_duplicated_label :
  getitem ["a"; "b"]
    {| nrows := 1; columns := [("a", [Int 1]); ("a", [Int 2]); ("b", [Int 3])] |}
  = Ok {| nrows := 1; columns := [("a", [Int 1]); ("a", [Int 2]); ("b", [Int 3])] |}.
Proof. reflexivity. Qed.

Example getitem_missing_label :
  getitem ["a"; "z"] {| nrows := 1; columns := [("a", [Int 1])] |}
  = Raise (KeyError "['z'] not in index").
Proof. reflexivity. Qed.

Example getitem_no_label_present :
  getitem ["y"; "z"] {| nrows := 1; columns := [("a", [Int 1])] |}
  = Raise (KeyError "None of [Index(['y', 'z'], dtype='object')] are in the [columns]").
Proof. reflexivity. Qed.

Example concat_axis1_ragged :
  concat_axis1 {| nrows := 2; columns := [("a", [Int 1; Int 2])] |}
               {| nrows := 1; columns := [("b", [Int 3])] |}
  = {| nrows := 2; columns := [("a", [Int 1; Int 2]); ("b", [Int 3; NaN])] |}.
Proof. reflexivity. Qed.

(** ** Re-assembly *)

Lemma labels_concat (ts : list DataFrame) :
  map fst (concat (map columns ts)) = concat (map labels ts).
Proof.
  induction ts as [|t ts IH]; simpl; [reflexivity|].
  rewrite map_app, IH. reflexivity.
Qed.

Section Reassembly.

Context {W : Type} `{Env W} `{KeyErrorText}.

Lemma concat_rest_tables (R : nat) (bs : list Batch) (ts : list DataFrame) :
  Forall2 (fun b t => synthetic_df b = Ok t) bs ts ->
  Forall (fun t => nrows t = R /\ well_formed t) ts ->
  forall accum,
    nrows accum = R -> well_formed accum ->
    concat_rest accum bs
    = Ok {| nrows := R; columns := columns accum ++ concat (map columns ts) |}.
Proof.
  induction 1 as [|b t bs ts Hbt _ IH]; intros Hts accum Hrows Hwf; simpl.
  - rewrite app_nil_r. destruct accum; simpl in *; subst; reflexivity.
  - apply Forall_cons in Hts as [[Ht Hwt] Hts].
    rewrite Hbt. simpl.
    rewrite (concat_axis1_same_rows R accum t Hrows Hwf Ht Hwt).
    rewrite IH; [|exact Hts|reflexivity|].
    + simpl. rewrite <- app_assoc. reflexivity.
    + unfold well_formed in *. simpl. rewrite Hrows in Hwf. rewrite Ht in Hwt.
      apply Forall_app. split; assumption.
Qed.

Lemma concat_rest_fold (bs : list Batch) (ts : list DataFrame) :
  Forall2 (fun b t => synthetic_df b = Ok t) bs ts ->
  forall accum, concat_rest accum bs = Ok (fold_left concat_axis1 ts accum).
Proof.
  induction 1 as [|b t bs ts Hbt _ IH]; intros accum; simpl; [reflexivity|].
  rewrite Hbt. simpl. apply IH.
Qed.

(** With whatever row counts: the tables are joined left to right, in
    the order of the dict, and the join is indexed by the master header
    list. *)
Lemma batches_to_df_fold (self : DataFrameBatch) (tables : list DataFrame) :
  Forall2 (fun b t => synthetic_df b = Ok t) (dict_values (batches self)) tables ->
  tables <> [] ->
  batches_to_df self
  = getitem (master_header_list self)
            (fold_left concat_axis1 (tl tables) (hd empty_frame tables)).
Proof.
  intros Htables Hne. unfold batches_to_df.
  destruct Htables as [|b t bs ts Hbt Hrest]; [contradiction|].
  rewrite Hbt. simpl.
  rewrite (concat_rest_fold bs ts Hrest t). reflexivity.
Qed.

(** The frames of all batches, taken in the order of the dict and put
    side by side, then indexed by the master header list. *)
Lemma batches_to_df_tables (self : DataFrameBatch) (tables : list DataFrame) (R : nat) :
  Forall2 (fun b t => synthetic_df b = Ok t) (dict_values (batches self)) tables ->
  tables <> [] ->
  Forall (fun t => nrows t = R /\ well_formed t) tables ->
  batches_to_df self
  = getitem (master_header_list self)
            {| nrows := R; columns := concat (map columns tables) |}.
Proof.
  intros Htables Hne Hrows. unfold batches_to_df.
  destruct Htables as [|b t bs ts Hbt Hrest]; [contradiction|].
  apply Forall_cons in Hrows as [[Ht Hwt] Hrows].
  rewrite Hbt. simpl.
  rewrite (concat_rest_tables R bs ts Hrest Hrows t Ht Hwt). reflexivity.
Qed.

Lemma batches_to_df_general (self : DataFrameBatch) (tables : list DataFrame) (R : nat) :
  Forall2 (fun b t => synthetic_df b = Ok t) (dict_values (batches self)) tables ->
  tables <> [] ->
  Forall (fun t => nrows t = R /\ well_formed t) tables ->
  NoDup (concat (map labels tables)) ->
  (forall l, l ∈ master_header_list self -> l ∈ concat (map labels tables)) ->
  exists df,
    batches_to_df self = Ok df
    /\ labels df = master_header_list self
    /\ nrows df = R
    /\ (forall col, col ∈ columns df -> col ∈ concat (map columns tables))
    /\ (master_header_list self = concat (map labels tables) ->
        columns df = concat (map columns tables)).
Proof.
  intros Htables Hne Hrows Hnd Hcover.
  rewrite (batches_to_df_tables self tables R Htables Hne Hrows).
  set (accum := {| nrows := R; columns := concat (map columns tables) |}).
  assert (Hlabels : labels accum = concat (map labels tables))
    by apply labels_concat.
  destruct (getitem_reorders accum (master_header_list self))
    as (out & Hout & Hl & Hn & Hheld & Hall).
  { rewrite Hlabels. exact Hnd. }
  { rewrite Hlabels. exact Hcover. }
  exists out. split; [exact Hout|]. split; [exact Hl|]. split; [exact Hn|].
  split; [exact Hheld|].
  intros Hmaster. apply Hall. rewrite Hlabels. exact Hmaster.
Qed.

(** C4. [batches_to_df] takes the batches in the order of the dict,
    which is the order of their indices, reads each batch's generated
    table, puts the tables side by side in that order and selects the
    columns of the master header list, in its order. When every table
    has [R] rows and the tables' labels are distinct and cover the
    master header list, the result bears exactly the master header list
    and has [R] rows. In particular, for source columns [a, b, c, d]
    split with [batch_size = 2], batches 0 and 1 each having generated
    [R] rows, the result has the columns [a, b, c, d] in that order,
    with the cells of the two tables, and [R] rows. *)
Theorem batches_to_df_reassembles :
  (forall (self : DataFrameBatch) (tables : list DataFrame) (R : nat),
     Forall2 (fun b t => synthetic_df b = Ok t) (dict_values (batches self)) tables ->
     tables <> [] ->
     batches_to_df self
     = getitem (master_header_list self)
               (fold_left concat_axis1 (tl tables) (hd empty_frame tables))
     /\ (Forall (fun t => nrows t = R /\ well_formed t) tables ->
         NoDup (concat (map labels tables)) ->
         (forall l, l ∈ master_header_list self -> l ∈ concat (map labels tables)) ->
         exists df,
           batches_to_df self = Ok df
           /\ labels df = master_header_list self
           /\ nrows df = R
           /\ (forall col, col ∈ columns df -> col ∈ concat (map columns tables))
           /\ (master_header_list self = concat (map labels tables) ->
               columns df = concat (map columns tables))))
  /\ (forall (self : DataFrameBatch) (tables : list DataFrame) (R : nat),
        master_header_list self = ["a"; "b"; "c"; "d"] ->
        _create_header_batches (master_header_list self) 2
        = Ok (map headers (dict_values (batches self))) ->
        dict_keys (batches self) = [0; 1]%Z ->
        Forall2 (fun b t => synthetic_df b = Ok t /\ labels t = headers b
                            /\ nrows t = R /\ well_formed t)
                (dict_values (batches self)) tables ->
        exists df,
          batches_to_df self = Ok df
          /\ labels df = ["a"; "b"; "c"; "d"]
          /\ nrows df = R
          /\ columns df = concat (map columns tables)).
Proof.
  split.
  - intros self tables R Htables Hne. split.
    + apply batches_to_df_fold; assumption.
    + intros Hrows. apply batches_to_df_general; assumption.
  - intros self tables R Hmaster Hsplit Hkeys Htables.
    rewrite Hmaster in Hsplit.
    assert (Hheaders : map headers (dict_values (batches self))
                       = [["a"; "b"]; ["c"; "d"]])
      by (rewrite split_abcd in Hsplit; congruence).
    assert (Hlabels : map labels tables = [["a"; "b"]; ["c"; "d"]]).
    { rewrite <- Hheaders. clear -Htables.
      induction Htables as [|b t bs ts (_ & Hl & _) _ IH]; simpl; congruence. }
    destruct (batches_to_df_general self tables R)
      as (df & Hrun & Hl & Hn & _ & Hall).
    + eapply Forall2_impl; [exact Htables|]. intros b t (Hbt & _). exact Hbt.
    + intros ->. discriminate.
    + clear -Htables.
      induction Htables as [|b t bs ts (_ & _ & Hn & Hw) _ IH];
        constructor; [split; assumption|exact IH].
    + rewrite Hlabels. simpl. apply NoDup_ListNoDup.
      repeat (constructor; [simpl; intuition discriminate|]). constructor.
    + rewrite Hlabels, Hmaster. intros l Hl. exact Hl.
    + exists df. split; [exact Hrun|]. rewrite Hmaster in Hl.
      split; [exact Hl|]. split; [exact Hn|].
      apply Hall. rewrite Hlabels, Hmaster. reflexivity.
Qed.

End Reassembly.

Example reassemble_generated :
  batches_to_df generated_self
  = Ok {| nrows := 3;
          columns := [("a", [Str "1"; Str "3"; Str "5"]);
                      ("b", [Str "2"; Str "4"; Str "6"]);
                      ("c", [Str "x"; Str "z"; Str "u"]);
                      ("d", [Str "y"; Str "w"; Str "v"])] |}.
Proof. reflexivity. Qed.

Lemma batches_to_df_reassembles_witness :
  exists df,
    batches_to_df generated_self = Ok df
    /\ labels df = ["a"; "b"; "c"; "d"]
    /\ nrows df = 3
    /\ columns df = columns table_ab ++ columns table_cd.
Proof.
  assert (Hmaster : master_header_list generated_self = ["a"; "b"; "c"; "d"])
    by reflexivity.
  assert (Hsplit : _create_header_batches (master_header_list generated_self) 2
                   = Ok (map headers (dict_values (batches generated_self))))
    by reflexivity.
  assert (Hkeys : dict_keys (batches generated_self) = [0; 1]%Z) by reflexivity.
  assert (Htables :
            Forall2 (fun b t => synthetic_df b = Ok t /\ labels t = headers b
                                /\ nrows t = 3 /\ well_formed t)
                    (dict_values (batches generated_self)) [table_ab; table_cd]).
  { repeat constructor. }
  destruct (proj2 batches_to_df_reassembles generated_self [table_ab; table_cd] 3
              Hmaster Hsplit Hkeys Htables)
    as (df & Hrun & Hl & Hn & Hcols).
  exists df. split; [exact Hrun|]. split; [exact Hl|]. split; [exact Hn|].
  rewrite Hcols. reflexivity.
Defined.

(** ** The batches are built in index order *)

Lemma dict_set_fresh {V : Type} (k : Z) (v : V) (d : dict V) :
  k ∉ dict_keys d -> dict_set k v d = d ++ [(k, v)].
Proof.
  induction d as [|[k' v'] d IH]; simpl; intros Hk; [reflexivity|].
  apply not_elem_of_cons in Hk as [Hne Hk].
  destruct (Z.eqb_spec k' k) as [Heq|_]; [congruence|].
  rewrite IH by exact Hk. reflexivity.
Qed.

Lemma index_fresh (i : nat) : Z.of_nat i ∉ map Z.of_nat (seq 0 i).
Proof.
  intros Hin. apply list_elem_of_In, in_map_iff in Hin.
  destruct Hin as (j & Hj & Hin). apply in_seq in Hin. lia.
Qed.

Section BuildOrder.

Context {W : Type} `{Env W}.

Lemma load_validator_keeps_headers (b b' : Batch) (w w' : W) :
  load_validator_from_file b w = (w', Ok b') -> headers b' = headers b.
Proof.
  unfold load_validator_from_file, mbind_M, ret.
  destruct (path_exists _ w); [|intros [= _ <-]; reflexivity].
  destruct (read_pickle_gz _ w) as [w1 [v|e]]; [|discriminate].
  intros [= _ <-]. reflexivity.
Qed.

Lemma build_loop_order (base : pyval) (config : gmap string pyval)
    (groups : list (list string)) :
  forall (i : nat) (out : dict Batch) (w w' : W) (bs : dict Batch),
    build_loop base config i groups out w = (w', Ok bs) ->
    dict_keys out = map Z.of_nat (seq 0 i) ->
    dict_keys bs = map Z.of_nat (seq 0 (i + length groups))
    /\ map headers (dict_values bs) = map headers (dict_values out) ++ groups.
Proof.
  induction groups as [|hs groups IH]; intros i out w w' bs Hrun Hkeys.
  - injection Hrun as _ <-. rewrite Nat.add_0_r, app_nil_r. split; [exact Hkeys|reflexivity].
  - cbn [build_loop] in Hrun. unfold mbind_M, lift_result in Hrun.
    destruct (as_path base) as [root|e]; [|discriminate].
    destruct (ensure_dir _ w) as [w1 [[]|e]]; [|discriminate].
    destruct (LocalConfig_new _ w1) as [w2 [cfg|e]]; [|discriminate].
    destruct (load_validator_from_file _ w2) as [w3 [b|e]] eqn:Hload; [|discriminate].
    apply load_validator_keeps_headers in Hload. simpl in Hload.
    apply IH in Hrun.
    + destruct Hrun as [Hk Hh]. split.
      * rewrite Hk. f_equal. f_equal. simpl. lia.
      * rewrite Hh. rewrite dict_set_fresh by (rewrite Hkeys; apply index_fresh).
        unfold dict_values. rewrite map_app, map_app. simpl.
        rewrite Hload, <- app_assoc. reflexivity.
    + rewrite dict_set_fresh by (rewrite Hkeys; apply index_fresh).
      rewrite seq_S, map_app.
      unfold dict_keys in *. rewrite map_app, Hkeys. reflexivity.
Qed.

(** The dict returned by [_build_batch_dirs] has the keys [0 .. n-1] in
    that order, and the batch at [i] has the [i]-th group as headers:
    going through its values is going through the batches by index. *)
Lemma build_batch_dirs_order (base : pyval) (groups : list (list string))
    (config : gmap string pyval) (w w' : W) (bs : dict Batch) :
  _build_batch_dirs base groups config w = (w', Ok bs) ->
  dict_keys bs = map Z.of_nat (seq 0 (length groups))
  /\ map headers (dict_values bs) = groups.
Proof.
  unfold _build_batch_dirs, mbind_M, lift_result.
  destruct (config_getitem "checkpoint_dir" config) as [dir|e]; [|discriminate].
  destruct (as_path dir) as [root|e]; [|discriminate].
  destruct (ensure_dir _ w) as [w1 [[]|e]]; [|discriminate].
  intros Hrun. apply build_loop_order in Hrun; [exact Hrun|reflexivity].
Qed.

End BuildOrder.

(** ** From construction to re-assembly *)

Section ConstructedBatches.

Context {W : Type} `{Env W}.

(** A coordinator constructed without explicit groups: its master header
    list is the column list of the source, its groups are the even split
    of that list, and its batches carry the groups as headers, under the
    indices [0 .. n-1] in that order. *)
Lemma init_even_split (w w' : W) (h h' : heap) (df cfg : nat) (size : Z)
    (frame : DataFrame) (d : gmap string pyval) (self : DataFrameBatch) :
  h !! df = Some (HDataFrame frame) ->
  h !! cfg = Some (HDict d) ->
  __init__ df size None (Some cfg) (w, h) = ((w', h'), Ok self) ->
  master_header_list self = labels frame
  /\ _create_header_batches (labels frame) size = Ok (batch_headers self)
  /\ dict_keys (batches self)
     = map Z.of_nat (seq 0 (length (batch_headers self)))
  /\ map headers (dict_values (batches self)) = batch_headers self.
Proof.
  intros Hdf Hcfg. unfold __init__. rewrite Hcfg.
  destruct (bool_decide (d = ∅)); [discriminate|].
  rewrite Hdf.
  destruct (d !! FIELD_DELIM) as [delim|]; [|discriminate].
  unfold mbind_M, heap_store, lift_result, in_world, ret. cbv beta iota.
  rewrite (proj1 (fillna_shape (Str "") frame)).
  destruct (_create_header_batches (labels frame) size) as [groups|e];
    [|discriminate].
  destruct (config_getitem "checkpoint_dir" _) as [base|e]; [|discriminate].
  destruct (_build_batch_dirs base groups _ w) as [w1 [bs|e]] eqn:Hbuild;
    [|discriminate].
  intros [= _ _ <-]. simpl.
  apply build_batch_dirs_order in Hbuild as [Hkeys Hheaders].
  repeat split; assumption.
Qed.

(** The headers of the batches of such a coordinator, put end to end in
    index order, are the column names of the source as the string array of
    the split gives them back. *)
Lemma init_headers_partition (w w' : W) (h h' : heap) (df cfg : nat) (size : Z)
    (frame : DataFrame) (d : gmap string pyval) (self : DataFrameBatch) :
  h !! df = Some (HDataFrame frame) ->
  h !! cfg = Some (HDict d) ->
  __init__ df size None (Some cfg) (w, h) = ((w', h'), Ok self) ->
  concat (map headers (dict_values (batches self)))
  = Numpy.asarray (master_header_list self).
Proof.
  intros Hdf Hcfg Hrun.
  destruct (init_even_split w w' h h' df cfg size frame d self Hdf Hcfg Hrun)
    as (Hmaster & Hsplit & _ & Hheaders).
  rewrite Hheaders, Hmaster.
  unfold _create_header_batches in Hsplit.
  destruct (floordiv (Z.of_nat (length (labels frame))) size) as [n|e];
    [|discriminate].
  simpl in Hsplit.
  destruct (Z_le_gt_dec n 0) as [Hle|Hgt].
  - rewrite array_split_nonpositive in Hsplit by exact Hle. discriminate.
  - destruct (array_split_spec (labels frame) n ltac:(lia))
      as (groups & Hgroups & _ & Hcat & _).
    rewrite Hgroups in Hsplit. simpl in Hsplit. congruence.
Qed.

End ConstructedBatches.

(** * Further properties *)

(** ** Outcomes and group sizes of the even split *)

(** X1. [_create_header_batches] returns groups exactly when
    [1 <= batch_size <= number of columns]; a zero [batch_size] is a
    [ZeroDivisionError], and a negative one or one above the number of
    columns is the [ValueError] of the split. *)
Theorem create_header_batches_outcome (columns : list string) (batch_size : Z) :
  (batch_size = 0%Z ->
   _create_header_batches columns batch_size
   = Raise (ZeroDivisionError "integer division or modulo by zero"))
  /\ ((batch_size < 0 \/ Z.of_nat (length columns) < batch_size)%Z ->
      _create_header_batches columns batch_size
      = Raise (ValueError "number sections must be larger than 0."))
  /\ ((exists groups, _create_header_batches columns batch_size = Ok groups)
      <-> (1 <= batch_size <= Z.of_nat (length columns))%Z).
Proof.
  split; [|split].
  - intros ->. apply even_split_zero_size.
  - intros [Hneg|Hbig].
    + apply even_split_negative_size, Hneg.
    + apply even_split_too_few, Hbig.
  - split.
    + intros [groups Hrun].
      destruct (Z.eq_dec batch_size 0%Z) as [->|Hnz].
      { rewrite even_split_zero_size in Hrun. discriminate. }
      destruct (Z_lt_le_dec batch_size 0%Z) as [Hneg|Hpos].
      { rewrite even_split_negative_size in Hrun by exact Hneg. discriminate. }
      destruct (Z_lt_le_dec (Z.of_nat (length columns)) batch_size) as [Hbig|Hfit].
      { rewrite even_split_too_few in Hrun by exact Hbig. discriminate. }
      lia.
    + intros Hsize.
      destruct (even_split_groups columns batch_size Hsize) as (groups & Hrun & _).
      exists groups. exact Hrun.
Qed.

Lemma create_header_batches_outcome_witness :
  _create_header_batches ["a"; "b"; "c"] 0
  = Raise (ZeroDivisionError "integer division or modulo by zero")
  /\ _create_header_batches ["a"; "b"; "c"] (-2)
     = Raise (ValueError "number sections must be larger than 0.")
  /\ exists groups, _create_header_batches ["a"; "b"; "c"] 3 = Ok groups.
Proof.
  split; [|split].
  - apply (proj1 (create_header_batches_outcome ["a"; "b"; "c"] 0)). reflexivity.
  - apply (proj1 (proj2 (create_header_batches_outcome ["a"; "b"; "c"] (-2)))).
    left. lia.
  - apply (proj2 (proj2 (create_header_batches_outcome ["a"; "b"; "c"] 3))).
    simpl. lia.
Defined.

(** The arithmetic behind the group sizes: with [n = len / b] groups,
    the quotient [len / n] is at least [b], and no group reaches [2 b]. *)
Lemma even_split_size_bounds (len b n : nat) :
  1 <= b -> b <= len -> n = len / b ->
  b <= len / n
  /\ len / n <= 2 * b - 1
  /\ (len mod n <> 0 -> len / n + 1 <= 2 * b - 1).
Proof.
  intros Hb Hlen ->.
  assert (Hn : 1 <= len / b) by (apply Nat.div_le_lower_bound; lia).
  pose proof (Nat.div_mod len b ltac:(lia)) as Hdb.
  pose proof (Nat.mod_upper_bound len b ltac:(lia)) as Hsb.
  pose proof (Nat.div_mod len (len / b) ltac:(lia)) as Hdn.
  pose proof (Nat.mod_upper_bound len (len / b) ltac:(lia)) as Hrn.
  set (n := len / b) in *. set (s := len mod b) in *.
  set (q := len / n) in *. set (r := len mod n) in *.
  split; [nia|]. split; [nia|].
  intros Hr.
  destruct (Nat.eq_dec b 1) as [->|Hb1]; [nia|].
  assert (Hb2 : 2 <= b) by lia. nia.
Qed.

(** X2. Every group of a successful even split holds at least
    [batch_size] and at most [2 * batch_size - 1] columns: [batch_size]
    bounds the groups from below, and no group is empty. *)
Theorem even_split_group_sizes (columns : list string) (batch_size : Z)
    (groups : list (list string))
    (Hrun : _create_header_batches columns batch_size = Ok groups) :
  forall g, g ∈ groups ->
    (batch_size <= Z.of_nat (length g) <= 2 * batch_size - 1)%Z /\ g <> [].
Proof.
  assert (Hsize : (1 <= batch_size <= Z.of_nat (length columns))%Z).
  { destruct (Z.eq_dec batch_size 0%Z) as [->|Hnz].
    { rewrite even_split_zero_size in Hrun. discriminate. }
    destruct (Z_lt_le_dec batch_size 0%Z) as [Hneg|Hpos].
    { rewrite even_split_negative_size in Hrun by exact Hneg. discriminate. }
    destruct (Z_lt_le_dec (Z.of_nat (length columns)) batch_size) as [Hbig|Hfit].
    { rewrite even_split_too_few in Hrun by exact Hbig. discriminate. }
    lia. }
  destruct (even_split_groups columns batch_size Hsize)
    as (groups' & Hrun' & Hn & _ & _ & Hsizes).
  rewrite Hrun in Hrun'. injection Hrun' as <-.
  assert (Hnat : length groups = length columns / Z.to_nat batch_size).
  { apply Nat2Z.inj. rewrite Hn, Nat2Z.inj_div, Z2Nat.id by lia. reflexivity. }
  destruct (even_split_size_bounds (length columns) (Z.to_nat batch_size)
              (length groups) ltac:(lia) ltac:(lia) Hnat) as (Hlo & Hhi & Hhi').
  intros g Hg.
  assert (Hlen : length g ∈ map (@length string) groups).
  { apply list_elem_of_In, in_map, list_elem_of_In, Hg. }
  rewrite Hsizes in Hlen. apply elem_of_app in Hlen.
  assert (Hbounds : (batch_size <= Z.of_nat (length g) <= 2 * batch_size - 1)%Z).
  { destruct Hlen as [Hin|Hin]; apply elem_of_replicate in Hin as [-> Hcount].
    - specialize (Hhi' Hcount). lia.
    - lia. }
  split; [exact Hbounds|].
  intros ->. simpl in Hbounds. lia.
Qed.

Lemma even_split_group_sizes_witness :
  _create_header_batches ["a"; "b"; "c"; "d"; "e"; "f"; "g"] 3
  = Ok [["a"; "b"; "c"; "d"]; ["e"; "f"; "g"]]
  /\ (3 <= Z.of_nat (length ["a"; "b"; "c"; "d"]) <= 2 * 3 - 1)%Z.
Proof.
  split; [reflexivity|].
  apply (even_split_group_sizes ["a"; "b"; "c"; "d"; "e"; "f"; "g"] 3
           [["a"; "b"; "c"; "d"]; ["e"; "f"; "g"]] eq_refl).
  left.
Defined.

(** ** The built-in validator and one-character delimiters *)

Lemma prefix_empty (s : string) : String.prefix EmptyString s = true.
Proof. destruct s; reflexivity. Qed.

Lemma prefix_char (c d : ascii) (s : string) :
  String.prefix (String c EmptyString) (String d s) = Ascii.eqb c d.
Proof.
  simpl. destruct (ascii_dec c d) as [->|Hne].
  - rewrite prefix_empty, Ascii.eqb_refl. reflexivity.
  - symmetry. apply Ascii.eqb_neq, Hne.
Qed.

Lemma split_from_nonempty (sep : string) (s : string) :
  forall skip cur, 1 <= length (split_from sep skip cur s).
Proof.
  induction s as [|d s IH]; intros skip cur; [simpl; lia|].
  cbn [split_from]. destruct skip as [|k]; [|apply IH].
  destruct (String.prefix sep (String d s)); [simpl; lia|apply IH].
Qed.

(** Splitting on one character gives one field more than the string has
    occurrences of it. *)
Lemma split_from_char_length (c : ascii) (s : string) :
  forall cur,
    length (split_from (String c EmptyString) 0 cur s) = count_char c s + 1.
Proof.
  induction s as [|d s IH]; intros cur; [reflexivity|].
  cbn [split_from count_char]. rewrite prefix_char.
  destruct (Ascii.eqb c d); cbn [String.length Nat.sub length]; rewrite IH; lia.
Qed.

Lemma split_from_free (c : ascii) (p : string) :
  count_char c p = 0 ->
  forall cur s,
    split_from (String c EmptyString) 0 cur (p ++ s)
    = split_from (String c EmptyString) 0 (cur ++ p) s.
Proof.
  induction p as [|d p IH]; intros Hfree cur s.
  - rewrite string_app_empty_r. reflexivity.
  - change (String d p ++ s)%string with (String d (p ++ s)%string).
    cbn [split_from]. rewrite prefix_char.
    cbn [count_char] in Hfree.
    destruct (Ascii.eqb c d); [discriminate|].
    rewrite IH by (simpl in Hfree; exact Hfree).
    rewrite string_app_assoc. reflexivity.
Qed.

(** Fields free of the delimiter, joined by it, split back into the same
    fields. *)
Lemma split_join_char (c : ascii) (fields : list string) :
  fields <> [] ->
  Forall (fun f => count_char c f = 0) fields ->
  forall cur f0 rest,
    fields = f0 :: rest ->
    split_from (String c EmptyString) 0 cur
               (str_join (String c EmptyString) fields)
    = (cur ++ f0)%string :: rest.
Proof.
  intros _ Hfree. unfold str_join.
  induction Hfree as [|f fs Hf Hfs IH]; intros cur f0 rest Heq;
    [discriminate|].
  injection Heq as -> ->. cbn [String.concat].
  destruct rest as [|f1 rest].
  - rewrite <- (string_app_empty_r f0) at 1.
    rewrite split_from_free by exact Hf. reflexivity.
  - rewrite split_from_free by exact Hf.
    change (String c EmptyString ++ ?t)%string with (String c t).
    cbn [split_from]. rewrite prefix_char, Ascii.eqb_refl.
    cbn [String.length Nat.sub]. f_equal.
    rewrite (IH EmptyString f1 rest eq_refl). reflexivity.
Qed.

(** X3. With a one-character field delimiter the built-in validator
    accepts exactly the lines that hold one delimiter less than the batch
    has headers. *)
Theorem basic_validator_counts_delimiters (b : Batch) (c : ascii)
    (raw_line : string)
    (Hdelim : field_delimiter (config b) = String c EmptyString) :
  _basic_validator b raw_line
  = Ok (Some (count_char c raw_line + 1 =? length (headers b))%nat).
Proof.
  unfold _basic_validator. rewrite Hdelim. simpl.
  rewrite split_from_char_length. reflexivity.
Qed.

Lemma basic_validator_counts_delimiters_witness :
  _basic_validator sample_batch "1,2" = Ok (Some true)
  /\ _basic_validator sample_batch "1,2," = Ok (Some false)
  /\ _basic_validator sample_batch "12" = Ok (Some false).
Proof.
  split; [|split].
  - apply (basic_validator_counts_delimiters sample_batch ","%char "1,2" eq_refl).
  - apply (basic_validator_counts_delimiters sample_batch ","%char "1,2," eq_refl).
  - apply (basic_validator_counts_delimiters sample_batch ","%char "12" eq_refl).
Defined.

(** X4. With a one-character field delimiter, a record made by joining
    fields that do not hold the delimiter splits back into those fields,
    and the built-in validator accepts it exactly when there are as many
    fields as headers. *)
Theorem basic_validator_joined_fields (b : Batch) (c : ascii)
    (fields : list string)
    (Hdelim : field_delimiter (config b) = String c EmptyString)
    (Hfields : fields <> [])
    (Hfree : Forall (fun f => count_char c f = 0) fields) :
  str_split (str_join (field_delimiter (config b)) fields)
            (field_delimiter (config b)) = Ok fields
  /\ _basic_validator b (str_join (field_delimiter (config b)) fields)
     = Ok (Some (length fields =? length (headers b))%nat).
Proof.
  assert (Hsplit : str_split (str_join (field_delimiter (config b)) fields)
                             (field_delimiter (config b)) = Ok fields).
  { rewrite Hdelim. destruct fields as [|f0 rest]; [contradiction|].
    cbn [str_split]. f_equal.
    apply (split_join_char c (f0 :: rest) Hfields Hfree EmptyString f0 rest eq_refl). }
  split; [exact Hsplit|].
  unfold _basic_validator. rewrite Hsplit. reflexivity.
Qed.

Lemma basic_validator_joined_fields_witness :
  str_split (str_join "," ["a"; "b"]) "," = Ok ["a"; "b"]
  /\ _basic_validator sample_batch (str_join "," (headers sample_batch))
     = Ok (Some true).
Proof.
  assert (Hfree : Forall (fun f => count_char ","%char f = 0) ["a"; "b"])
    by (repeat constructor).
  assert (Hne : ["a"; "b"] <> []) by discriminate.
  exact (basic_validator_joined_fields sample_batch ","%char ["a"; "b"]
           eq_refl Hne Hfree).
Defined.

(** X5. The built-in validator at its edges: with an empty field
    delimiter it raises [ValueError("empty separator")] on every line,
    and for a batch without headers (and a non-empty delimiter) it rejects
    every line. *)
Theorem basic_validator_edges (b : Batch) (raw_line : string) :
  (field_delimiter (config b) = EmptyString ->
   _basic_validator b raw_line = Raise (ValueError "empty separator"))
  /\ (field_delimiter (config b) <> EmptyString ->
      headers b = [] ->
      _basic_validator b raw_line = Ok (Some false)).
Proof.
  unfold _basic_validator. split.
  - intros ->. reflexivity.
  - intros Hdelim ->.
    destruct (field_delimiter (config b)) as [|c sep]; [contradiction|].
    cbn [str_split bind].
    pose proof (split_from_nonempty (String c sep) raw_line 0 EmptyString) as Hlen.
    destruct (split_from (String c sep) 0 EmptyString raw_line); simpl in *;
      [lia|reflexivity].
Qed.

Lemma basic_validator_edges_witness :
  _basic_validator
    (Batch_new "ckpt" "ckpt/train.csv" ["a"]
       {| field_delimiter := ""; gen_lines := 1;
          cfg_checkpoint_dir := "ckpt"; cfg_input_data_path := "ckpt/train.csv" |} 0)
    "1" = Raise (ValueError "empty separator")
  /\ _basic_validator
       (Batch_new "ckpt" "ckpt/train.csv" [] comma_config 0) ""
     = Ok (Some false).
Proof.
  split.
  - apply (proj1 (basic_validator_edges _ "1")). reflexivity.
  - apply (proj2 (basic_validator_edges _ "")); [discriminate|reflexivity].
Defined.

(** ** The generated stream *)

Lemma stream_lines_run_ops (ops : list gen_op) : forall b,
  1 <= stream_lines b -> 1 <= stream_lines (run_ops ops b).
Proof.
  induction ops as [|op ops IH]; intros b Hb; [exact Hb|].
  unfold run_ops. simpl. apply IH. destruct op; simpl.
  - rewrite stream_lines_reset. lia.
  - rewrite stream_lines_add. lia.
Qed.

Lemma stream_lines_nonempty (b : Batch) :
  1 <= stream_lines b -> exists c rest, gen_data_stream b = String c rest.
Proof.
  unfold stream_lines. destruct (gen_data_stream b) as [|c rest]; simpl; [lia|].
  intros _. exists c, rest. reflexivity.
Qed.

Section StreamFacts.

Context {W : Type} `{Env W}.

(** X6. A batch that went through [reset_gen_data] (its constructor calls
    it) never has an empty stream, whatever is added or reset afterwards:
    [synthetic_df] never takes its empty-table branch and always parses
    the stream with the batch's delimiter. *)
Theorem synthetic_df_reads_stream (b : Batch) (ops : list gen_op) :
  (exists c rest, gen_data_stream (run_ops ops (reset_gen_data b)) = String c rest)
  /\ synthetic_df (run_ops ops (reset_gen_data b))
     = read_csv (gen_data_stream (run_ops ops (reset_gen_data b)))
                (field_delimiter (config b))
  /\ forall ckpt input hs cfg count,
       synthetic_df (run_ops ops (Batch_new ckpt input hs cfg count))
       = read_csv (gen_data_stream (run_ops ops (Batch_new ckpt input hs cfg count)))
                  (field_delimiter cfg).
Proof.
  assert (Hcfg : forall ops' b', config (run_ops ops' b') = config b').
  { induction ops' as [|op ops' IH]; intros b'; [reflexivity|].
    unfold run_ops in *. simpl. rewrite IH. destruct op; reflexivity. }
  assert (Hgen : forall b0,
             (exists c rest,
                 gen_data_stream (run_ops ops (reset_gen_data b0)) = String c rest)
             /\ synthetic_df (run_ops ops (reset_gen_data b0))
                = read_csv (gen_data_stream (run_ops ops (reset_gen_data b0)))
                           (field_delimiter (config b0))).
  { intros b0.
    assert (Hpos : 1 <= stream_lines (run_ops ops (reset_gen_data b0))).
    { apply stream_lines_run_ops. rewrite stream_lines_reset. lia. }
    destruct (stream_lines_nonempty _ Hpos) as (c & rest & Hstream).
    split; [exists c, rest; exact Hstream|].
    unfold synthetic_df. rewrite Hstream, Hcfg. reflexivity. }
  split; [apply Hgen|]. split; [apply Hgen|].
  intros ckpt input hs cfg count. unfold Batch_new.
  exact (proj2 (Hgen {| checkpoint_dir := ckpt; input_data_path := input;
                        headers := hs; config := cfg; gen_data_count := count;
                        gen_data_stream := EmptyString; gen_data_invalid := [];
                        validator := PyNone |})).
Qed.

End StreamFacts.

(** ** What a generation run leaves behind *)

Lemma dict_set_set {V : Type} (k : Z) (v v' : V) (d : dict V) :
  dict_set k v (dict_set k v' d) = dict_set k v d.
Proof.
  induction d as [|[k0 v0] d IH]; simpl.
  - rewrite Z.eqb_refl. reflexivity.
  - destruct (Z.eqb_spec k0 k) as [->|Hne]; simpl.
    + rewrite Z.eqb_refl. reflexivity.
    + destruct (Z.eqb_spec k0 k) as [Heq|_]; [contradiction|].
      rewrite IH. reflexivity.
Qed.

Lemma count_char_lines_text (lines : list gen_text) :
  Forall (fun line => no_newline (text line)) lines ->
  count_char LF (lines_text lines) = length lines.
Proof.
  induction 1 as [|line lines Hline _ IH]; [reflexivity|].
  cbn [lines_text fold_right length].
  rewrite !count_char_app, count_char_newline, Hline.
  fold (lines_text lines). rewrite IH. lia.
Qed.

Lemma reset_after_collect (lines : list gen_text) (b : Batch) :
  reset_gen_data (fold_left collect_line lines b) = reset_gen_data b.
Proof.
  destruct (collect_lines lines b) as (_ & _ & _ & Hcfg & Hh & Hv & Hck & Hin).
  cbv zeta in *. unfold reset_gen_data, header_line.
  rewrite Hcfg, Hh, Hv, Hck, Hin. reflexivity.
Qed.

Section GenerationFacts.

Context {W : Type} `{Env W}.
Implicit Types (self : DataFrameBatch) (w : W) (b : Batch).

(** X7. However the generator ends, every line it yielded is accounted
    for once: the count of valid lines and the number of invalid records
    of the batch add up to the number of lines yielded. *)
Theorem generate_batch_lines_accounts self w batch_idx max_invalid b lines stop w'
    (Hget : dict_get batch_idx (batches self) = Some b)
    (Hgen : generate_text (config b) (get_validator (reset_gen_data b)) max_invalid w
            = (w', (lines, stop))) :
  exists self' r b',
    generate_batch_lines batch_idx max_invalid (w, self) = ((w', self'), r)
    /\ dict_get batch_idx (batches self') = Some b'
    /\ (gen_data_count b' + Z.of_nat (length (gen_data_invalid b'))
        = Z.of_nat (length lines))%Z
    /\ (0 <= gen_data_count b' <= Z.of_nat (length lines))%Z
    /\ (stop = None -> exists reached, r = Ok reached)
    /\ (forall e, stop = Some e -> r = Raise e).
Proof.
  rewrite (generate_batch_lines_run self w batch_idx max_invalid b Hget), Hgen.
  destruct (collect_lines lines (reset_gen_data b)) as (_ & Hc & Hi & _).
  cbv zeta in *.
  set (b' := fold_left collect_line lines (reset_gen_data b)) in *.
  eexists _, _, b'. split; [reflexivity|].
  split; [apply dict_get_set_eq|].
  pose proof (filter_length accepted lines) as Hlen.
  assert (Hrej : List.filter rejected lines
                 = List.filter (fun x => negb (accepted x)) lines) by reflexivity.
  rewrite Hc, Hi, Hrej. simpl.
  split; [lia|]. split; [lia|]. split.
  - intros ->. eexists. reflexivity.
  - intros e ->. reflexivity.
Qed.

(** X8. A generation run touches nothing but the addressed batch's
    accumulators: the indices and their order, every other batch, the
    header lists, and the addressed batch's headers, config, validator
    and paths are as before, whether the run returns or raises. *)
Theorem generate_batch_lines_frame self w batch_idx max_invalid :
  let self' := snd (fst (generate_batch_lines batch_idx max_invalid (w, self))) in
  dict_keys (batches self') = dict_keys (batches self)
  /\ (forall j, j <> batch_idx ->
        dict_get j (batches self') = dict_get j (batches self))
  /\ master_header_list self' = master_header_list self
  /\ batch_headers self' = batch_headers self
  /\ (forall b, dict_get batch_idx (batches self) = Some b ->
        exists b', dict_get batch_idx (batches self') = Some b'
                   /\ headers b' = headers b
                   /\ config b' = config b
                   /\ validator b' = validator b
                   /\ checkpoint_dir b' = checkpoint_dir b
                   /\ input_data_path b' = input_data_path b).
Proof.
  cbv zeta.
  destruct (dict_get batch_idx (batches self)) as [b|] eqn:Hget.
  - rewrite (generate_batch_lines_run self w batch_idx max_invalid b Hget).
    destruct (generate_text (config b) (get_validator (reset_gen_data b)) max_invalid w)
      as [w' [lines stop]].
    cbv zeta. cbn [fst snd batches with_batches master_header_list batch_headers].
    split; [apply dict_keys_set_known; rewrite Hget; eexists; reflexivity|].
    split; [intros j Hj; apply dict_get_set_ne, Hj|].
    split; [reflexivity|]. split; [reflexivity|].
    intros b0 [= <-].
    destruct (collect_lines lines (reset_gen_data b))
      as (_ & _ & _ & Hcfg & Hh & Hv & Hck & Hin).
    eexists. split; [apply dict_get_set_eq|].
    repeat split; assumption.
  - rewrite (generate_batch_lines_unknown self w batch_idx max_invalid Hget).
    simpl. repeat split. intros b0 Hb0. discriminate.
Qed.

(** X9. Generation keeps the count in step with the stream: when the
    header line and the text of the accepted lines hold no line
    terminator, the batch has, after the run and however it ended, as
    many counted lines as its stream has lines after the header. *)
Theorem generation_keeps_count_invariant self w batch_idx max_invalid b lines stop w'
    (Hget : dict_get batch_idx (batches self) = Some b)
    (Hgen : generate_text (config b) (get_validator (reset_gen_data b)) max_invalid w
            = (w', (lines, stop)))
    (Hheader : no_newline (str_join (field_delimiter (config b)) (headers b)))
    (Hlines : Forall (fun line => no_newline (text line))
                     (List.filter accepted lines)) :
  exists self' r b',
    generate_batch_lines batch_idx max_invalid (w, self) = ((w', self'), r)
    /\ dict_get batch_idx (batches self') = Some b'
    /\ count_invariant b'
    /\ stream_lines b' = S (length (List.filter accepted lines)).
Proof.
  rewrite (generate_batch_lines_run self w batch_idx max_invalid b Hget), Hgen.
  destruct (collect_lines lines (reset_gen_data b)) as (Hs & Hc & _).
  cbv zeta in *.
  set (b' := fold_left collect_line lines (reset_gen_data b)) in *.
  eexists _, _, b'. split; [reflexivity|].
  split; [apply dict_get_set_eq|].
  assert (Hn : stream_lines b' = S (length (List.filter accepted lines))).
  { unfold stream_lines. rewrite Hs. simpl gen_data_stream.
    unfold header_line.
    rewrite !count_char_app, count_char_newline, count_char_lines_text by exact Hlines.
    unfold no_newline in Hheader. rewrite Hheader. lia. }
  split; [|exact Hn].
  unfold count_invariant. rewrite Hc, Hn. simpl. lia.
Qed.

(** X10. A generation run starts from scratch: run after an earlier
    attempt on the same batch, it gives the very result and state it
    gives without that attempt. *)
Theorem generate_batch_lines_retry self w1 w2 batch_idx max1 max2 :
  generate_batch_lines batch_idx max2
    (w2, snd (fst (generate_batch_lines batch_idx max1 (w1, self))))
  = generate_batch_lines batch_idx max2 (w2, self).
Proof.
  destruct (dict_get batch_idx (batches self)) as [b|] eqn:Hget.
  - rewrite (generate_batch_lines_run self w1 batch_idx max1 b Hget).
    destruct (generate_text (config b) (get_validator (reset_gen_data b)) max1 w1)
      as [w1' [lines1 stop1]].
    cbv zeta. cbn [fst snd].
    set (b1 := fold_left collect_line lines1 (reset_gen_data b)).
    assert (Hget1 : dict_get batch_idx
                      (batches (with_batches (dict_set batch_idx b1 (batches self)) self))
                    = Some b1) by apply dict_get_set_eq.
    rewrite (generate_batch_lines_run _ w2 batch_idx max2 b1 Hget1).
    rewrite (generate_batch_lines_run self w2 batch_idx max2 b Hget).
    assert (Hreset : reset_gen_data b1 = reset_gen_data b)
      by (unfold b1; rewrite reset_after_collect; reflexivity).
    assert (Hcfg : config b1 = config b).
    { destruct (collect_lines lines1 (reset_gen_data b)) as (_ & _ & _ & Hcfg & _).
      exact Hcfg. }
    rewrite Hreset, Hcfg.
    destruct (generate_text (config b) (get_validator (reset_gen_data b)) max2 w2)
      as [w2' [lines2 stop2]].
    cbv zeta. cbn [batches with_batches].
    rewrite dict_set_set. reflexivity.
  - rewrite (generate_batch_lines_unknown self w1 batch_idx max1 Hget).
    reflexivity.
Qed.

End GenerationFacts.

Lemma generate_batch_lines_accounts_witness :
  exists self' r b',
    generate_batch_lines 0 1 (short_gen_world, sample_self)
    = ((short_gen_world, self'), r)
    /\ dict_get 0 (batches self') = Some b'
    /\ (gen_data_count b' + Z.of_nat (length (gen_data_invalid b')) = 4)%Z.
Proof.
  assert (Hget0 : dict_get 0 (batches sample_self) = Some batch_ab) by reflexivity.
  assert (Hgen : generate_text (config batch_ab)
                   (get_validator (reset_gen_data batch_ab)) 1 short_gen_world
                 = (short_gen_world, ([line_1_2; line_bad; line_3_4; line_bad], None)))
    by reflexivity.
  destruct (generate_batch_lines_accounts sample_self short_gen_world 0 1 batch_ab
              _ _ short_gen_world Hget0 Hgen)
    as (self' & r & b' & Hrun & Hget & Hsum & _).
  exists self', r, b'. split; [exact Hrun|]. split; [exact Hget|exact Hsum].
Defined.

Lemma generation_keeps_count_invariant_witness :
  exists self' r b',
    generate_batch_lines 0 1 (short_gen_world, sample_self)
    = ((short_gen_world, self'), r)
    /\ dict_get 0 (batches self') = Some b'
    /\ count_invariant b'.
Proof.
  assert (Hget0 : dict_get 0 (batches sample_self) = Some batch_ab) by reflexivity.
  assert (Hgen : generate_text (config batch_ab)
                   (get_validator (reset_gen_data batch_ab)) 1 short_gen_world
                 = (short_gen_world, ([line_1_2; line_bad; line_3_4; line_bad], None)))
    by reflexivity.
  assert (Hheader : no_newline (str_join (field_delimiter (config batch_ab))
                                         (headers batch_ab))) by reflexivity.
  assert (Hlines : Forall (fun line => no_newline (text line))
                          (List.filter accepted [line_1_2; line_bad; line_3_4; line_bad]))
    by (repeat constructor).
  destruct (generation_keeps_count_invariant sample_self short_gen_world 0 1 batch_ab
              _ _ short_gen_world Hget0 Hgen Hheader Hlines)
    as (self' & r & b' & Hrun & Hget & Hinv & _).
  exists self', r, b'. split; [exact Hrun|]. split; [exact Hget|exact Hinv].
Defined.

(** ** Loops over all batches *)

Lemma dict_get_key {V : Type} (k : Z) (d : dict V) :
  k ∈ dict_keys d <-> is_Some (dict_get k d).
Proof.
  induction d as [|[k0 v0] d IH]; simpl.
  - split; [intros Hin; apply elem_of_nil in Hin; contradiction|].
    intros [v Hv]. discriminate.
  - destruct (Z.eqb_spec k0 k) as [->|Hne].
    + split; [intros _; eexists; reflexivity|intros _; left].
    + rewrite elem_of_cons, IH. split; [intros [Heq|Hin]; [congruence|exact Hin]|].
      intros Hin. right. exact Hin.
Qed.

Section LoopFacts.

Context {W : Type} `{Env W}.
Implicit Types (self : DataFrameBatch) (w : W) (b : Batch).

Lemma train_batch_outcome self w batch_idx b :
  dict_get batch_idx (batches self) = Some b ->
  train_batch batch_idx (w, self)
  = ((fst (train_rnn (config b) w), self),
     match snd (train_rnn (config b) w) with
     | Raise (KeyError _) => Raise (ValueError "batch_idx is invalid")
     | r => r
     end).
Proof.
  intros Hget.
  destruct (train_rnn (config b) w) as [w' [[]|e]] eqn:Htrain; cbn [fst snd].
  - apply (train_batch_returns self w batch_idx b w' Hget Htrain).
  - destruct e;
      try (apply (train_batch_propagates self w batch_idx b w' _ Hget Htrain);
           reflexivity).
    apply (train_batch_masks_KeyError self w batch_idx b w' _ Hget Htrain).
Qed.

Lemma train_each_outcome (steady : W -> Prop) (keys : list Z) : forall self w,
  snd (fst (train_each keys (w, self))) = self
  /\ (forall msg, snd (train_each keys (w, self)) <> Raise (KeyError msg))
  /\ ((forall k, k ∈ keys -> is_Some (dict_get k (batches self))) ->
      steady w ->
      (forall cfg w0, steady w0 ->
         snd (train_rnn cfg w0) = Ok tt /\ steady (fst (train_rnn cfg w0))) ->
      snd (train_each keys (w, self)) = Ok tt).
Proof.
  induction keys as [|k keys IH]; intros self w.
  - simpl. split; [reflexivity|]. split; [discriminate|reflexivity].
  - cbn [train_each]. unfold mbind_M.
    destruct (dict_get k (batches self)) as [b|] eqn:Hget.
    + rewrite (train_batch_outcome self w k b Hget).
      destruct (train_rnn (config b) w) as [w' [[]|e]] eqn:Htrain; cbn [fst snd].
      * destruct (IH self w') as (Hself & Hno & Hok).
        split; [exact Hself|]. split; [exact Hno|].
        intros Hkeys Hw Htrainer. apply Hok; [| |exact Htrainer].
        { intros k' Hk'. apply Hkeys. right. exact Hk'. }
        { pose proof (proj2 (Htrainer (config b) w Hw)) as Hw'.
          rewrite Htrain in Hw'. exact Hw'. }
      * destruct e; cbn [fst snd];
          (split; [reflexivity|]; split; [discriminate|];
           intros _ Hw Htrainer;
           pose proof (proj1 (Htrainer (config b) w Hw)) as Hbad;
           rewrite Htrain in Hbad; discriminate).
    + rewrite (train_batch_unknown self w k Hget). cbn [fst snd].
      split; [reflexivity|]. split; [discriminate|].
      intros Hkeys _ _. destruct (Hkeys k) as [v Hv]; [left|]. congruence.
Qed.

(** X11. [train_all_batches] never changes the coordinator and never
    lets a [KeyError] out; it returns when the training call returns in
    every world it is reached in ([steady] being any property of worlds
    that training keeps), and when the call fails for the first batch
    that failure ends the loop at once (a [KeyError] turned into the
    invalid-index [ValueError]), the world being as the failing call left
    it. *)
Theorem train_all_batches_outcome (steady : W -> Prop) self w :
  snd (fst (train_all_batches (w, self))) = self
  /\ (forall msg, snd (train_all_batches (w, self)) <> Raise (KeyError msg))
  /\ (steady w ->
      (forall cfg w0, steady w0 ->
         snd (train_rnn cfg w0) = Ok tt /\ steady (fst (train_rnn cfg w0))) ->
      snd (train_all_batches (w, self)) = Ok tt)
  /\ (forall k b rest w' e,
        batches self = (k, b) :: rest ->
        train_rnn (config b) w = (w', Raise e) ->
        train_all_batches (w, self)
        = ((w', self),
           Raise (if is_KeyError e then ValueError "batch_idx is invalid" else e))).
Proof.
  unfold train_all_batches. cbn [snd].
  destruct (train_each_outcome steady (dict_keys (batches self)) self w)
    as (Hself & Hno & Hok).
  split; [exact Hself|]. split; [exact Hno|]. split.
  - intros Hw Htrainer. apply Hok; [|exact Hw|exact Htrainer].
    intros k Hk. apply dict_get_key, Hk.
  - intros k b rest w' e Hbatches Htrain. rewrite Hbatches.
    cbn [dict_keys map fst train_each]. unfold mbind_M.
    assert (Hget : dict_get k (batches self) = Some b).
    { rewrite Hbatches. simpl. rewrite Z.eqb_refl. reflexivity. }
    rewrite (train_batch_outcome self w k b Hget), Htrain. cbn [fst snd].
    destruct e; reflexivity.
Qed.

Lemma generate_each_outcome (steady : W -> Prop) (max_invalid : Z) (keys : list Z) :
  forall (status : dict bool) w self,
    NoDup keys ->
    (forall k, k ∈ keys -> is_Some (dict_get k (batches self))) ->
    (forall k, k ∈ keys -> k ∉ dict_keys status) ->
    steady w ->
    (forall cfg v m w0, steady w0 ->
       snd (snd (generate_text cfg v m w0)) = None
       /\ steady (fst (generate_text cfg v m w0))) ->
    exists w' self' status',
      generate_each max_invalid keys status (w, self) = ((w', self'), Ok status')
      /\ dict_keys status' = dict_keys status ++ keys
      /\ dict_keys (batches self') = dict_keys (batches self)
      /\ (forall j, j ∉ keys ->
            dict_get j (batches self') = dict_get j (batches self)
            /\ dict_get j status' = dict_get j status)
      /\ (forall k, k ∈ keys ->
            exists b', dict_get k (batches self') = Some b'
                       /\ dict_get k status'
                          = Some (gen_data_count b' =? gen_lines (config b'))%Z).
Proof.
  induction keys as [|k keys IH]; intros status w self Hnd Hknown Hfresh Hw Hstops.
  - exists w, self, status. split; [reflexivity|].
    split; [rewrite app_nil_r; reflexivity|]. split; [reflexivity|].
    split; [intros j _; split; reflexivity|].
    intros k Hk. apply elem_of_nil in Hk. contradiction.
  - apply NoDup_cons in Hnd as [Hk Hnd].
    destruct (Hknown k) as [b Hget]; [left|].
    cbn [generate_each]. unfold mbind_M.
    rewrite (generate_batch_lines_run self w k max_invalid b Hget).
    pose proof (Hstops (config b) (get_validator (reset_gen_data b)) max_invalid w Hw)
      as [Hstop Hw1].
    destruct (generate_text (config b) (get_validator (reset_gen_data b)) max_invalid w)
      as [w1 [lines stop]].
    cbn [fst snd] in Hstop, Hw1. subst stop. cbv zeta.
    set (b1 := fold_left collect_line lines (reset_gen_data b)).
    set (self1 := with_batches (dict_set k b1 (batches self)) self).
    set (status1 := dict_set k (gen_data_count b1 =? gen_lines (config b1))%Z status).
    assert (Hkeys1 : dict_keys status1 = dict_keys status ++ [k]).
    { unfold status1. rewrite dict_set_fresh by (apply Hfresh; left).
      unfold dict_keys. rewrite map_app. reflexivity. }
    destruct (IH status1 w1 self1 Hnd) as (w' & self' & status' & Hrun & Hks & Hkb & Hframe & Hdone).
    + intros k' Hk'. unfold self1. cbn [batches with_batches].
      rewrite dict_get_set_ne by (intros ->; contradiction).
      apply Hknown. right. exact Hk'.
    + intros k' Hk'. rewrite Hkeys1. intros Hin. apply elem_of_app in Hin as [Hin|Hin].
      * apply (Hfresh k'); [right; exact Hk'|exact Hin].
      * apply list_elem_of_singleton in Hin. subst k'. contradiction.
    + exact Hw1.
    + exact Hstops.
    + exists w', self', status'. split; [exact Hrun|].
      split; [rewrite Hks, Hkeys1, <- app_assoc; reflexivity|].
      split.
      { rewrite Hkb. unfold self1. cbn [batches with_batches].
        apply dict_keys_set_known. rewrite Hget. eexists. reflexivity. }
      split.
      { intros j Hj. apply not_elem_of_cons in Hj as [Hjk Hj].
        destruct (Hframe j Hj) as [Hb Hs]. rewrite Hb, Hs.
        unfold self1, status1. cbn [batches with_batches].
        rewrite !dict_get_set_ne by exact Hjk. split; reflexivity. }
      intros k' Hk'. apply elem_of_cons in Hk' as [->|Hk'].
      * destruct (Hframe k Hk) as [Hb Hs]. exists b1.
        rewrite Hb, Hs. unfold self1, status1. cbn [batches with_batches].
        rewrite !dict_get_set_eq. split; reflexivity.
      * apply Hdone, Hk'.
Qed.

(** X12. When the generator stops without raising in every world it is
    reached in ([steady] being any property of worlds that generation
    keeps), [generate_all_batch_lines] returns a status for exactly the
    indices of the batches, in their order, and the status of an index
    tells whether the batch at that index ended with [gen_lines] valid
    lines; the indices of the batches are unchanged. *)
Theorem generate_all_batch_lines_status (steady : W -> Prop) self w max_invalid
    (Hkeys : NoDup (dict_keys (batches self)))
    (Hw : steady w)
    (Hstops : forall cfg v m w0, steady w0 ->
                snd (snd (generate_text cfg v m w0)) = None
                /\ steady (fst (generate_text cfg v m w0))) :
  exists w' self' status,
    generate_all_batch_lines max_invalid (w, self) = ((w', self'), Ok status)
    /\ dict_keys status = dict_keys (batches self)
    /\ dict_keys (batches self') = dict_keys (batches self)
    /\ (forall idx, idx ∈ dict_keys (batches self) ->
          exists b', dict_get idx (batches self') = Some b'
                     /\ (dict_get idx status = Some true
                         <-> gen_data_count b' = gen_lines (config b'))).
Proof.
  unfold generate_all_batch_lines. cbn [snd].
  destruct (generate_each_outcome steady max_invalid (dict_keys (batches self)) [] w self Hkeys)
    as (w' & self' & status & Hrun & Hks & Hkb & _ & Hdone).
  - intros k Hk. apply dict_get_key, Hk.
  - intros k _ Hin. apply elem_of_nil in Hin. contradiction.
  - exact Hw.
  - exact Hstops.
  - exists w', self', status. split; [exact Hrun|].
    split; [exact Hks|]. split; [exact Hkb|].
    intros idx Hidx. destruct (Hdone idx Hidx) as (b' & Hb' & Hs).
    exists b'. split; [exact Hb'|]. rewrite Hs. split.
    + intros [= Heq]. apply Z.eqb_eq, Heq.
    + intros Heq. f_equal. apply Z.eqb_eq, Heq.
Qed.

(** X13. [batch_to_df] leaves the state alone; an unknown index is
    [ValueError("batch_idx is invalid!")], and for a known one the outcome
    is that of reading the batch's stream, except that a [KeyError] from
    the read is reported as the same invalid-index error. *)
Theorem batch_to_df_outcome self w batch_idx :
  (dict_get batch_idx (batches self) = None ->
   batch_to_df batch_idx (w, self)
   = ((w, self), Raise (ValueError "batch_idx is invalid!")))
  /\ (forall b, dict_get batch_idx (batches self) = Some b ->
        batch_to_df batch_idx (w, self)
        = ((w, self),
           match synthetic_df b with
           | Raise (KeyError _) => Raise (ValueError "batch_idx is invalid!")
           | r => r
           end))
  /\ (forall msg, snd (batch_to_df batch_idx (w, self)) <> Raise (KeyError msg)).
Proof.
  unfold batch_to_df, try_except, mbind_M, batches_getitem, dict_getitem,
    lift_result, raise.
  cbn [snd].
  destruct (dict_get batch_idx (batches self)) as [b|].
  - split; [discriminate|]. split.
    + intros b0 [= <-]. destruct (synthetic_df b) as [df|[]]; reflexivity.
    + intros msg. destruct (synthetic_df b) as [df|[]]; discriminate.
  - split; [reflexivity|]. split; [discriminate|]. intros msg. discriminate.
Qed.

End LoopFacts.

Lemma train_all_batches_outcome_witness :
  train_all_batches (failing_train_world, sample_self)
  = ((failing_train_world, sample_self), Raise (ValueError "batch_idx is invalid"))
  /\ snd (train_all_batches (Scripted.quiet, sample_self)) = Ok tt.
Proof.
  split.
  - apply (proj2 (proj2 (proj2 (train_all_batches_outcome (fun _ => True)
                                  sample_self failing_train_world)))
             0%Z batch_ab [(1%Z, batch_cd)] failing_train_world (KeyError "vocab_size"));
      reflexivity.
  - apply (proj1 (proj2 (proj2 (train_all_batches_outcome
                                  (fun w => Scripted.train_script w = Ok tt)
                                  sample_self Scripted.quiet))));
      [reflexivity|].
    intros cfg w0 Hw0. split; [exact Hw0|exact Hw0].
Defined.

Lemma generate_all_batch_lines_status_witness :
  exists w' self' status,
    generate_all_batch_lines 1 (short_gen_world, sample_self)
    = ((w', self'), Ok status)
    /\ dict_keys status = [0; 1]%Z.
Proof.
  assert (Hkeys : NoDup (dict_keys (batches sample_self))).
  { apply NoDup_ListNoDup. repeat (constructor; [simpl; intuition discriminate|]).
    constructor. }
  destruct (generate_all_batch_lines_status
              (fun w => snd (Scripted.gen_script w) = None)
              sample_self short_gen_world 1 Hkeys eq_refl)
    as (w' & self' & status & Hrun & Hks & _).
  - intros cfg v m w0 Hw0. split; exact Hw0.
  - exists w', self', status. split; [exact Hrun|exact Hks].
Defined.

Lemma batch_to_df_outcome_witness :
  batch_to_df 7 (Scripted.quiet, generated_self)
  = ((Scripted.quiet, generated_self), Raise (ValueError "batch_idx is invalid!"))
  /\ batch_to_df 0 (Scripted.quiet, generated_self)
     = ((Scripted.quiet, generated_self), Ok table_ab).
Proof.
  split.
  - apply (proj1 (batch_to_df_outcome generated_self Scripted.quiet 7)). reflexivity.
  - rewrite (proj1 (proj2 (batch_to_df_outcome generated_self Scripted.quiet 0))
               generated_ab eq_refl).
    reflexivity.
Defined.

(** ** Re-assembly at its edges *)

Lemma labels_reindex (n : nat) (cols : list (string * list cell)) :
  map fst (map (reindex n) cols) = map fst cols.
Proof. rewrite map_map. apply map_ext. intros col. reflexivity. Qed.

Lemma labels_concat_axis1 (a b : DataFrame) :
  labels (concat_axis1 a b) = labels a ++ labels b.
Proof.
  unfold labels, concat_axis1. simpl.
  rewrite map_app, !labels_reindex. reflexivity.
Qed.

Lemma labels_fold_concat (ts : list DataFrame) : forall t0,
  labels (fold_left concat_axis1 ts t0) = labels t0 ++ concat (map labels ts).
Proof.
  induction ts as [|t ts IH]; intros t0; simpl.
  - rewrite app_nil_r. reflexivity.
  - rewrite IH, labels_concat_axis1, <- app_assoc. reflexivity.
Qed.

Lemma select_present (l : string) (cols : list (string * list cell)) :
  List.filter (fun col => String.eqb (fst col) l) cols = [] -> l ∉ map fst cols.
Proof.
  induction cols as [|col cols IH]; simpl; intros Hsel.
  - apply not_elem_of_nil.
  - destruct (String.eqb_spec (fst col) l) as [Heq|Hne]; [discriminate|].
    apply not_elem_of_cons. split; [congruence|]. apply IH, Hsel.
Qed.

Lemma reindex_pads (n : nat) (col : string * list cell) :
  length (snd col) <= n -> length (snd (reindex n col)) = n.
Proof.
  intros Hlen. unfold reindex. simpl. rewrite length_app, repeat_length. lia.
Qed.

Lemma reindex_reindex (m n : nat) (col : string * list cell) :
  length (snd col) <= m -> m <= n -> reindex n (reindex m col) = reindex n col.
Proof.
  intros Hlen Hmn. unfold reindex. simpl. f_equal.
  rewrite length_app, repeat_length, <- app_assoc, <- repeat_app.
  f_equal. f_equal. lia.
Qed.

(** Joining well-formed frames, whatever their row counts: the join has
    the rows of the longest, and its columns are the frames' columns,
    in order, each brought to that length. *)
Lemma fold_concat_pads (ts : list DataFrame) :
  Forall well_formed ts ->
  forall (accum : DataFrame) (seen : list (string * list cell)),
    columns accum = map (reindex (nrows accum)) seen ->
    Forall (fun col => length (snd col) <= nrows accum) seen ->
    let df := fold_left concat_axis1 ts accum in
    columns df = map (reindex (nrows df)) (seen ++ concat (map columns ts))
    /\ Forall (fun col => length (snd col) <= nrows df)
              (seen ++ concat (map columns ts))
    /\ nrows accum <= nrows df
    /\ Forall (fun t => nrows t <= nrows df) ts
    /\ (nrows df = nrows accum \/ exists t, t ∈ ts /\ nrows t = nrows df).
Proof.
  induction 1 as [|t ts Ht _ IH]; intros accum seen Hcols Hseen; cbv zeta.
  - simpl. rewrite !app_nil_r. repeat split; try assumption; [lia|constructor|left; reflexivity].
  - cbn [fold_left map concat].
    set (n := Nat.max (nrows accum) (nrows t)).
    assert (Hacc : columns (concat_axis1 accum t)
                   = map (reindex (nrows (concat_axis1 accum t))) (seen ++ columns t)).
    { unfold concat_axis1. cbn [columns nrows]. fold n.
      rewrite Hcols, map_app, map_map. f_equal.
      apply map_ext_in. intros col Hin.
      apply reindex_reindex; [|lia].
      eapply Forall_forall in Hseen; [exact Hseen|]. apply list_elem_of_In, Hin. }
    assert (Hlen : Forall (fun col => length (snd col) <= nrows (concat_axis1 accum t))
                          (seen ++ columns t)).
    { unfold concat_axis1. cbn [nrows]. fold n. apply Forall_app. split.
      - eapply Forall_impl; [exact Hseen|]. intros col Hc. simpl in Hc. lia.
      - unfold well_formed in Ht. eapply Forall_impl; [exact Ht|].
        intros col Hc. simpl in Hc. lia. }
    destruct (IH (concat_axis1 accum t) (seen ++ columns t) Hacc Hlen)
      as (Hc & Hl & Hn & Hts & Hmax).
    cbv zeta in *. rewrite <- !app_assoc in Hc, Hl.
    assert (Hn' : nrows (concat_axis1 accum t) = n) by reflexivity.
    split; [exact Hc|]. split; [exact Hl|]. split; [lia|].
    split; [constructor; [lia|exact Hts]|].
    destruct Hmax as [Heq|(t' & Ht' & Heq)].
    + destruct (Nat.max_spec (nrows accum) (nrows t)) as [[_ Hm]|[_ Hm]].
      * right. exists t. split; [left|]. fold n in Hm. lia.
      * left. fold n in Hm. lia.
    + right. exists t'. split; [right; exact Ht'|exact Heq].
Qed.

Section ReassemblyEdges.

Context {W : Type} `{Env W} `{KeyErrorText}.

Lemma concat_rest_raise (bs1 : list Batch) (ts : list DataFrame) (b : Batch)
    (bs2 : list Batch) (e : exn) :
  Forall2 (fun b t => synthetic_df b = Ok t) bs1 ts ->
  synthetic_df b = Raise e ->
  forall accum, concat_rest accum (bs1 ++ b :: bs2) = Raise e.
Proof.
  intros Hread Hfail. induction Hread as [|b1 t1 bs1 ts Hb1 _ IH]; intros accum; simpl.
  - rewrite Hfail. reflexivity.
  - rewrite Hb1. simpl. apply IH.
Qed.

(** X14. What makes [batches_to_df] fail: with no batch at all it raises
    [StopIteration]; the first batch whose stream cannot be read ends it
    with that error; and when a label of the master header list is borne
    by no table, indexing the join raises the [KeyError] of pandas, whose
    text is made of the master header list and of the labels of the
    tables. *)
Theorem batches_to_df_failures (self : DataFrameBatch) :
  (batches self = [] -> batches_to_df self = Raise StopIteration)
  /\ (forall bs1 ts b bs2 e,
        dict_values (batches self) = bs1 ++ b :: bs2 ->
        Forall2 (fun b t => synthetic_df b = Ok t) bs1 ts ->
        synthetic_df b = Raise e ->
        batches_to_df self = Raise e)
  /\ (forall tables l,
        Forall2 (fun b t => synthetic_df b = Ok t) (dict_values (batches self)) tables ->
        tables <> [] ->
        l ∈ master_header_list self ->
        l ∉ concat (map labels tables) ->
        batches_to_df self
        = Raise (KeyError (not_in_index (master_header_list self)
                                        (concat (map labels tables))))).
Proof.
  split; [|split].
  - intros Hnone. unfold batches_to_df. rewrite Hnone. reflexivity.
  - intros bs1 ts b bs2 e Hvalues Hread Hfail. unfold batches_to_df.
    rewrite Hvalues. destruct Hread as [|b1 t1 bs1 ts Hb1 Hread]; simpl.
    + rewrite Hfail. reflexivity.
    + rewrite Hb1. simpl.
      rewrite (concat_rest_raise bs1 ts b bs2 e Hread Hfail). reflexivity.
  - intros tables l Hread Hne Hl Hmiss.
    rewrite (batches_to_df_fold self tables Hread Hne).
    destruct tables as [|t0 ts]; [contradiction|]. cbn [hd tl].
    assert (Hlabels : labels (fold_left concat_axis1 ts t0)
                      = concat (map labels (t0 :: ts)))
      by apply labels_fold_concat.
    rewrite <- Hlabels. apply getitem_missing.
    exists l. split; [exact Hl|]. rewrite Hlabels. exact Hmiss.
Qed.

(** X15. Unequal row counts do not stop [batches_to_df]: for well-formed
    tables with distinct labels covering the master header list, the
    result has the master header list as labels and as many rows as the
    longest table, and each of its columns is a column of some table with
    missing values appended up to that length. *)
Theorem batches_to_df_pads_short_tables (self : DataFrameBatch)
    (tables : list DataFrame)
    (Hread : Forall2 (fun b t => synthetic_df b = Ok t)
                     (dict_values (batches self)) tables)
    (Hne : tables <> [])
    (Hwf : Forall well_formed tables)
    (Hnd : NoDup (concat (map labels tables)))
    (Hcover : forall l, l ∈ master_header_list self ->
                        l ∈ concat (map labels tables)) :
  exists df,
    batches_to_df self = Ok df
    /\ labels df = master_header_list self
    /\ Forall (fun t => nrows t <= nrows df) tables
    /\ (exists t, t ∈ tables /\ nrows t = nrows df)
    /\ well_formed df
    /\ (forall col, col ∈ columns df ->
          exists t c, t ∈ tables /\ c ∈ columns t
                      /\ col = (fst c, snd c ++ repeat NaN (nrows df - nrows t))).
Proof.
  rewrite (batches_to_df_fold self tables Hread Hne).
  destruct tables as [|t0 ts]; [contradiction|]. cbn [hd tl].
  apply Forall_cons in Hwf as [Hwf0 Hwf].
  destruct (fold_concat_pads ts Hwf t0 (columns t0)) as (Hc & Hl & Hn & Hts & Hmax).
  { symmetry. apply map_reindex_full. exact Hwf0. }
  { unfold well_formed in Hwf0. eapply Forall_impl; [exact Hwf0|].
    intros col Hcol. simpl in Hcol. lia. }
  cbv zeta in *.
  set (joined := fold_left concat_axis1 ts t0) in *.
  assert (Hlabels : labels joined = concat (map labels (t0 :: ts)))
    by apply labels_fold_concat.
  destruct (getitem_reorders joined (master_header_list self))
    as (out & Hout & Hlo & Hno & Hheld & _).
  { rewrite Hlabels. exact Hnd. }
  { rewrite Hlabels. exact Hcover. }
  exists out. split; [exact Hout|]. split; [exact Hlo|]. rewrite Hno.
  split; [constructor; [exact Hn|exact Hts]|].
  split.
  { destruct Hmax as [Heq|(t & Ht & Heq)].
    - exists t0. split; [left|]. symmetry. exact Heq.
    - exists t. split; [right; exact Ht|exact Heq]. }
  assert (Hsrc : forall col, col ∈ columns joined ->
             exists t c, t ∈ t0 :: ts /\ c ∈ columns t
                         /\ col = (fst c, snd c ++ repeat NaN (nrows joined - nrows t))).
  { intros col Hcol. rewrite Hc in Hcol.
    apply list_elem_of_In, in_map_iff in Hcol. destruct Hcol as (c & <- & Hin).
    change (columns t0 ++ concat (map columns ts))
      with (concat (map columns (t0 :: ts))) in Hin.
    apply in_concat in Hin. destruct Hin as (cs & Hcs & Hin).
    apply in_map_iff in Hcs. destruct Hcs as (t & <- & Ht).
    exists t, c. split; [apply list_elem_of_In, Ht|].
    split; [apply list_elem_of_In, Hin|].
    unfold reindex. f_equal. f_equal. f_equal.
    assert (Hwft : well_formed t).
    { destruct Ht as [<-|Ht]; [exact Hwf0|].
      eapply Forall_forall in Hwf; [exact Hwf|]. apply list_elem_of_In, Ht. }
    unfold well_formed in Hwft.
    eapply Forall_forall in Hwft; [|apply list_elem_of_In, Hin].
    simpl in Hwft. lia. }
  split.
  - unfold well_formed. apply Forall_forall. intros col Hcol. rewrite Hno.
    apply Hheld in Hcol. rewrite Hc in Hcol.
    apply list_elem_of_In, in_map_iff in Hcol. destruct Hcol as (c & <- & Hin).
    apply reindex_pads.
    eapply Forall_forall in Hl; [exact Hl|]. apply list_elem_of_In, Hin.
  - intros col Hcol. apply Hsrc, Hheld, Hcol.
Qed.

End ReassemblyEdges.

Lemma batches_to_df_failures_witness :
  batches_to_df misnamed_self = Raise (KeyError "['z'] not in index").
Proof.
  assert (Hread : Forall2 (fun b t => synthetic_df b = Ok t)
                          (dict_values (batches misnamed_self)) [table_ab; table_cd])
    by (repeat constructor).
  assert (Hne : [table_ab; table_cd] <> []) by discriminate.
  assert (Hl : "z" ∈ master_header_list misnamed_self) by (right; left).
  assert (Hmiss : "z" ∉ concat (map labels [table_ab; table_cd])).
  { intros Hin. apply list_elem_of_In in Hin. simpl in Hin. intuition discriminate. }
  rewrite (proj2 (proj2 (batches_to_df_failures misnamed_self))
             [table_ab; table_cd] "z" Hread Hne Hl Hmiss).
  reflexivity.
Defined.

Lemma batches_to_df_pads_short_tables_witness :
  exists df,
    batches_to_df ragged_self = Ok df
    /\ labels df = ["a"; "b"; "c"; "d"]
    /\ well_formed df.
Proof.
  assert (Hread : Forall2 (fun b t => synthetic_df b = Ok t)
                          (dict_values (batches ragged_self)) [table_ab; table_cd_short])
    by (repeat constructor).
  assert (Hne : [table_ab; table_cd_short] <> []) by discriminate.
  assert (Hwf : Forall well_formed [table_ab; table_cd_short])
    by (repeat constructor).
  assert (Hnd : NoDup (concat (map labels [table_ab; table_cd_short]))).
  { apply NoDup_ListNoDup. simpl.
    repeat (constructor; [simpl; intuition discriminate|]). constructor. }
  assert (Hcover : forall l, l ∈ master_header_list ragged_self ->
                             l ∈ concat (map labels [table_ab; table_cd_short]))
    by (intros l Hl; exact Hl).
  destruct (batches_to_df_pads_short_tables ragged_self [table_ab; table_cd_short]
              Hread Hne Hwf Hnd Hcover)
    as (df & Hrun & Hl & _ & _ & Hw & _).
  exists df. split; [exact Hrun|]. split; [exact Hl|exact Hw].
Defined.

Example reassemble_ragged :
  batches_to_df ragged_self
  = Ok {| nrows := 3;
          columns := [("a", [Str "1"; Str "3"; Str "5"]);
                      ("b", [Str "2"; Str "4"; Str "6"]);
                      ("c", [Str "x"; NaN; NaN]);
                      ("d", [Str "y"; NaN; NaN])] |}.
Proof. reflexivity. Qed.

(** ** The constructor, further *)

Section ConstructionFacts.

Context {W : Type} `{Env W}.

(** The constructor past its argument checks, step by step. *)
Lemma init_run (w : W) (h : heap) (df cfg : nat) (size : Z)
    (given : option (list (list string))) (frame : DataFrame)
    (d : gmap string pyval) :
  h !! df = Some (HDataFrame frame) ->
  h !! cfg = Some (HDict d) ->
  is_Some (d !! FIELD_DELIM) ->
  let d1 := match d !! GEN_LINES with
            | None => <[GEN_LINES := VInt (Z.of_nat (nrows frame))]> d
            | Some _ => d
            end in
  let h' := <[df := HDataFrame (fillna (Str "") frame)]> (<[cfg := HDict d1]> h) in
  __init__ df size given (Some cfg) (w, h)
  = match (match given with
           | None | Some [] => _create_header_batches (labels frame) size
           | Some groups => Ok groups
           end) with
    | Raise e => ((w, h'), Raise e)
    | Ok groups =>
        match config_getitem "checkpoint_dir" d1 with
        | Raise e => ((w, h'), Raise e)
        | Ok base =>
            match _build_batch_dirs base groups d1 w with
            | (w1, Ok bs) =>
                ((w1, h'),
                 Ok {| _source_df := df; batch_size := size; self_config := cfg;
                       master_header_list := labels frame;
                       batch_headers := groups; batches := bs |})
            | (w1, Raise e) => ((w1, h'), Raise e)
            end
        end
    end.
Proof.
  intros Hdf Hcfg [delim Hdelim]. cbv zeta.
  unfold __init__. rewrite Hcfg.
  assert (Hne : d <> ∅).
  { intros ->. rewrite lookup_empty in Hdelim. discriminate. }
  rewrite bool_decide_eq_false_2 by exact Hne.
  rewrite Hdf, Hdelim.
  unfold mbind_M, heap_store, lift_result, in_world, ret. cbv beta iota.
  rewrite (proj1 (fillna_shape (Str "") frame)).
  destruct given as [[|g gs]|].
  - destruct (_create_header_batches (labels frame) size); [|reflexivity].
    destruct (config_getitem "checkpoint_dir" _); [|reflexivity].
    destruct (_build_batch_dirs _ _ _ w) as [w1 [bs|e]]; reflexivity.
  - destruct (config_getitem "checkpoint_dir" _); [|reflexivity].
    destruct (_build_batch_dirs _ _ _ w) as [w1 [bs|e]]; reflexivity.
  - destruct (_create_header_batches (labels frame) size); [|reflexivity].
    destruct (config_getitem "checkpoint_dir" _); [|reflexivity].
    destruct (_build_batch_dirs _ _ _ w) as [w1 [bs|e]]; reflexivity.
Qed.

(** X16. The argument checks of the constructor, in their order, each
    leaving the world and the caller's objects untouched: an absent or
    empty config is [ValueError("config is required!")] whatever [df] is;
    then a [df] that is not a frame is [ValueError("df must be a Data
    Frame")]; then a config without the field delimiter is
    [ValueError("field_delimiter must be in config")]. *)
Theorem init_rejects_arguments (w : W) (h : heap) (df : nat) (size : Z)
    (given : option (list (list string))) :
  __init__ df size given None (w, h)
  = ((w, h), Raise (ValueError "config is required!"))
  /\ (forall cfg,
        h !! cfg = Some (HDict ∅) ->
        __init__ df size given (Some cfg) (w, h)
        = ((w, h), Raise (ValueError "config is required!")))
  /\ (forall cfg d,
        h !! cfg = Some (HDict d) -> d <> ∅ ->
        (forall frame, h !! df <> Some (HDataFrame frame)) ->
        __init__ df size given (Some cfg) (w, h)
        = ((w, h), Raise (ValueError "df must be a Data Frame")))
  /\ (forall cfg d frame,
        h !! cfg = Some (HDict d) -> d <> ∅ ->
        h !! df = Some (HDataFrame frame) ->
        d !! FIELD_DELIM = None ->
        __init__ df size given (Some cfg) (w, h)
        = ((w, h), Raise (ValueError "field_delimiter must be in config"))).
Proof.
  split; [reflexivity|]. split; [|split].
  - intros cfg Hcfg. unfold __init__. rewrite Hcfg.
    rewrite bool_decide_eq_true_2 by reflexivity. reflexivity.
  - intros cfg d Hcfg Hne Hdf. unfold __init__. rewrite Hcfg.
    rewrite bool_decide_eq_false_2 by exact Hne.
    destruct (h !! df) as [[frame|d'|items]|] eqn:Hlook; try reflexivity.
    exfalso. apply (Hdf frame). reflexivity.
  - intros cfg d frame Hcfg Hne Hdf Hdelim. unfold __init__. rewrite Hcfg.
    rewrite bool_decide_eq_false_2 by exact Hne.
    rewrite Hdf, Hdelim. reflexivity.
Qed.

(** A config that is a list and not a dict goes through the same checks:
    an empty list is refused like a missing config, a list that does not
    hold the delimiter key is refused by the membership test, and a list
    that holds it but not the line-count key cannot be assigned to by
    key. Nothing has been changed by then. *)
Lemma init_list_config (w : W) (h : heap) (df cfg : nat) (size : Z)
    (given : option (list (list string))) :
  (h !! cfg = Some (HList []) ->
   __init__ df size given (Some cfg) (w, h)
   = ((w, h), Raise (ValueError "config is required!")))
  /\ (forall items frame,
        h !! cfg = Some (HList items) -> items <> [] ->
        h !! df = Some (HDataFrame frame) ->
        str_in FIELD_DELIM items = false ->
        __init__ df size given (Some cfg) (w, h)
        = ((w, h), Raise (ValueError "field_delimiter must be in config")))
  /\ (forall items frame,
        h !! cfg = Some (HList items) ->
        h !! df = Some (HDataFrame frame) ->
        str_in FIELD_DELIM items = true ->
        str_in GEN_LINES items = false ->
        __init__ df size given (Some cfg) (w, h)
        = ((w, h),
           Raise (OtherError "TypeError"
                    "list indices must be integers or slices, not str"))).
Proof.
  split; [|split].
  - intros Hcfg. unfold __init__. rewrite Hcfg. reflexivity.
  - intros items frame Hcfg Hne Hdf Hdelim. unfold __init__. rewrite Hcfg.
    destruct items as [|v items]; [contradiction|].
    rewrite Hdf, Hdelim. reflexivity.
  - intros items frame Hcfg Hdf Hdelim Hlines. unfold __init__. rewrite Hcfg.
    destruct items as [|v items]; [discriminate|].
    rewrite Hdf, Hdelim, Hlines. reflexivity.
Qed.

(** X17. A config without [checkpoint_dir] is not caught by the argument
    checks: once the groups are known the constructor raises
    [KeyError("checkpoint_dir")], the world being untouched but the
    caller's frame and dict already changed. *)
Theorem init_missing_checkpoint_dir (w : W) (h : heap) (df cfg : nat) (size : Z)
    (given : option (list (list string))) (frame : DataFrame)
    (d : gmap string pyval) (groups : list (list string))
    (Hdf : h !! df = Some (HDataFrame frame))
    (Hcfg : h !! cfg = Some (HDict d))
    (Hdelim : is_Some (d !! FIELD_DELIM))
    (Hgroups : match given with
               | None | Some [] => _create_header_batches (labels frame) size
               | Some gs => Ok gs
               end = Ok groups)
    (Hmissing : d !! "checkpoint_dir" = None) :
  exists h',
    __init__ df size given (Some cfg) (w, h)
    = ((w, h'), Raise (KeyError "checkpoint_dir"))
    /\ h' !! df = Some (HDataFrame (fillna (Str "") frame))
    /\ (d !! GEN_LINES = None ->
        h' !! cfg = Some (HDict (<[GEN_LINES := VInt (Z.of_nat (nrows frame))]> d))).
Proof.
  pose proof (init_run w h df cfg size given frame d Hdf Hcfg Hdelim) as Hrun.
  cbv zeta in Hrun. rewrite Hgroups in Hrun.
  assert (Hne : df <> cfg) by (intros ->; congruence).
  assert (Hd1 : config_getitem "checkpoint_dir"
                  (match d !! GEN_LINES with
                   | None => <[GEN_LINES := VInt (Z.of_nat (nrows frame))]> d
                   | Some _ => d
                   end) = Raise (KeyError "checkpoint_dir")).
  { unfold config_getitem. destruct (d !! GEN_LINES).
    - rewrite Hmissing. reflexivity.
    - rewrite lookup_insert_ne by discriminate. rewrite Hmissing. reflexivity. }
  rewrite Hd1 in Hrun.
  eexists. split; [exact Hrun|].
  split; [apply lookup_insert_eq|].
  intros Hnone. rewrite lookup_insert_ne by exact Hne.
  rewrite lookup_insert_eq, Hnone. reflexivity.
Qed.

(** X18. Explicit groups are taken as they are, without any check
    against the columns of the source: a constructed coordinator has them
    as [batch_headers], one batch per group under the indices
    [0 .. n-1] in order, each with its group as headers; its master
    header list is still the source's column list. An empty list of
    groups is treated as none given. *)
Theorem init_explicit_groups (w w' : W) (h h' : heap) (df cfg : nat) (size : Z)
    (g : list string) (gs : list (list string)) (frame : DataFrame)
    (d : gmap string pyval) (self : DataFrameBatch)
    (Hdf : h !! df = Some (HDataFrame frame))
    (Hcfg : h !! cfg = Some (HDict d))
    (Hrun : __init__ df size (Some (g :: gs)) (Some cfg) (w, h) = ((w', h'), Ok self)) :
  batch_headers self = g :: gs
  /\ map headers (dict_values (batches self)) = g :: gs
  /\ dict_keys (batches self) = map Z.of_nat (seq 0 (S (length gs)))
  /\ master_header_list self = labels frame
  /\ __init__ df size (Some []) (Some cfg) (w, h)
     = __init__ df size None (Some cfg) (w, h).
Proof.
  assert (Hdelim : is_Some (d !! FIELD_DELIM)).
  { unfold __init__ in Hrun. rewrite Hcfg in Hrun.
    destruct (bool_decide (d = ∅)); [discriminate|].
    rewrite Hdf in Hrun.
    destruct (d !! FIELD_DELIM) as [v|]; [eexists; reflexivity|discriminate]. }
  rewrite (init_run w h df cfg size (Some (g :: gs)) frame d Hdf Hcfg Hdelim) in Hrun.
  cbv zeta in Hrun.
  destruct (config_getitem "checkpoint_dir" _) as [base|e]; [|discriminate].
  destruct (_build_batch_dirs base (g :: gs) _ w) as [w1 [bs|e]] eqn:Hbuild;
    [|discriminate].
  injection Hrun as _ _ <-. cbn [batch_headers batches master_header_list].
  apply build_batch_dirs_order in Hbuild as [Hkeys Hheaders].
  split; [reflexivity|]. split; [exact Hheaders|]. split; [exact Hkeys|].
  split; reflexivity.
Qed.

(** X19. A coordinator constructed without explicit groups partitions the
    source's columns: its groups are the even split of the column list,
    its batches stand under the indices [0 .. n-1] in order with the
    groups as headers, and the headers of the batches put end to end in
    index order are the names of the master header list (which is the
    source's column list) with their trailing NUL characters dropped: the
    master header list itself when no column name ends in NUL. *)
Theorem init_partitions_columns (w w' : W) (h h' : heap) (df cfg : nat) (size : Z)
    (frame : DataFrame) (d : gmap string pyval) (self : DataFrameBatch)
    (Hdf : h !! df = Some (HDataFrame frame))
    (Hcfg : h !! cfg = Some (HDict d))
    (Hrun : __init__ df size None (Some cfg) (w, h) = ((w', h'), Ok self)) :
  master_header_list self = labels frame
  /\ _create_header_batches (labels frame) size = Ok (batch_headers self)
  /\ dict_keys (batches self)
     = map Z.of_nat (seq 0 (length (batch_headers self)))
  /\ map headers (dict_values (batches self)) = batch_headers self
  /\ concat (map headers (dict_values (batches self)))
     = map Numpy.rstrip_nul (master_header_list self)
  /\ (Forall (fun c => Numpy.ends_in_nul c = false) (labels frame) ->
      concat (map headers (dict_values (batches self))) = master_header_list self)
  /\ (1 <= size <= Z.of_nat (length (labels frame)))%Z.
Proof.
  destruct (init_even_split w w' h h' df cfg size frame d self Hdf Hcfg Hrun)
    as (Hmaster & Hsplit & Hkeys & Hheaders).
  pose proof (init_headers_partition w w' h h' df cfg size frame d self
                Hdf Hcfg Hrun) as Hcat.
  split; [exact Hmaster|]. split; [exact Hsplit|]. split; [exact Hkeys|].
  split; [exact Hheaders|]. split; [exact Hcat|]. split.
  - intros Hnul. rewrite Hcat. apply asarray_fixed. rewrite Hmaster. exact Hnul.
  - destruct (Z.eq_dec size 0%Z) as [->|Hnz].
    { rewrite even_split_zero_size in Hsplit. discriminate. }
    destruct (Z_lt_le_dec size 0%Z) as [Hneg|Hpos].
    { rewrite even_split_negative_size in Hsplit by exact Hneg. discriminate. }
    destruct (Z_lt_le_dec (Z.of_nat (length (labels frame))) size) as [Hbig|Hfit].
    { rewrite even_split_too_few in Hsplit by exact Hbig. discriminate. }
    lia.
Qed.

End ConstructionFacts.

Lemma init_rejects_arguments_witness :
  __init__ 0 2 None None (Scripted.quiet, sample_heap)
  = ((Scripted.quiet, sample_heap), Raise (ValueError "config is required!"))
  /\ __init__ 1 2 None (Some 1) (Scripted.quiet, sample_heap)
     = ((Scripted.quiet, sample_heap), Raise (ValueError "df must be a Data Frame")).
Proof.
  split.
  - apply (proj1 (init_rejects_arguments Scripted.quiet sample_heap 0 2 None)).
  - apply (proj1 (proj2 (proj2 (init_rejects_arguments Scripted.quiet sample_heap 1 2 None)))
             1 sample_config).
    + reflexivity.
    + intros Hempty.
      assert (Hlook : sample_config !! "checkpoint_dir" = Some (VStr "ckpt"))
        by reflexivity.
      rewrite Hempty, lookup_empty in Hlook. discriminate.
    + intros frame Hframe.
      assert (Hlook : sample_heap !! 1 = Some (HDict sample_config)) by reflexivity.
      rewrite Hlook in Hframe. discriminate.
Defined.

Example init_empty_list_config :
  __init__ 0 2 None (Some 1) (Scripted.quiet, heap_with_list [])
  = ((Scripted.quiet, heap_with_list []), Raise (ValueError "config is required!")).
Proof. reflexivity. Qed.

Example init_list_config_with_keys :
  exists h',
    __init__ 0 2 None (Some 1)
      (Scripted.quiet, heap_with_list [VStr FIELD_DELIM; VStr GEN_LINES])
    = ((Scripted.quiet, h'),
       Raise (OtherError "TypeError"
                "list indices must be integers or slices, not str"))
    /\ h' !! 0 = Some (HDataFrame (fillna (Str "") sample_frame)).
Proof. eexists. split; reflexivity. Qed.

Lemma init_missing_checkpoint_dir_witness :
  exists h',
    __init__ 0 2 None (Some 1) (Scripted.quiet, heap_no_ckpt)
    = ((Scripted.quiet, h'), Raise (KeyError "checkpoint_dir"))
    /\ h' !! 0 = Some (HDataFrame (fillna (Str "") sample_frame)).
Proof.
  assert (Hdf : heap_no_ckpt !! 0 = Some (HDataFrame sample_frame)) by reflexivity.
  assert (Hcfg : heap_no_ckpt !! 1 = Some (HDict config_no_ckpt)) by reflexivity.
  assert (Hdelim : is_Some (config_no_ckpt !! FIELD_DELIM))
    by (exists (VStr ","); reflexivity).
  assert (Hgroups : _create_header_batches (labels sample_frame) 2
                    = Ok [["a"; "b"]; ["c"; "d"]]) by reflexivity.
  assert (Hmissing : config_no_ckpt !! "checkpoint_dir" = None) by reflexivity.
  destruct (init_missing_checkpoint_dir Scripted.quiet heap_no_ckpt 0 1 2 None
              sample_frame config_no_ckpt _ Hdf Hcfg Hdelim Hgroups Hmissing)
    as (h' & Hrun & Hframe & _).
  exists h'. split; [exact Hrun|exact Hframe].
Defined.

Lemma init_explicit_groups_witness :
  exists w' h' self,
    __init__ 0 2 (Some [["d"]; ["a"; "b"; "c"]]) (Some 1) (Scripted.quiet, sample_heap)
    = ((w', h'), Ok self)
    /\ batch_headers self = [["d"]; ["a"; "b"; "c"]]
    /\ map headers (dict_values (batches self)) = [["d"]; ["a"; "b"; "c"]]
    /\ master_header_list self = ["a"; "b"; "c"; "d"].
Proof.
  assert (Hdf : sample_heap !! 0 = Some (HDataFrame sample_frame)) by reflexivity.
  assert (Hcfg : sample_heap !! 1 = Some (HDict sample_config)) by reflexivity.
  destruct (__init__ 0 2 (Some [["d"]; ["a"; "b"; "c"]]) (Some 1)
              (Scripted.quiet, sample_heap)) as [[w' h'] [self|e]] eqn:Hrun;
    [|vm_compute in Hrun; discriminate].
  destruct (init_explicit_groups Scripted.quiet w' sample_heap h' 0 1 2 ["d"]
              [["a"; "b"; "c"]] sample_frame sample_config self Hdf Hcfg Hrun)
    as (Hgroups & Hheaders & _ & Hmaster & _).
  exists w', h', self. split; [reflexivity|].
  split; [exact Hgroups|]. split; [exact Hheaders|exact Hmaster].
Defined.

Lemma init_partitions_columns_witness :
  exists w' h' self,
    __init__ 0 2 None (Some 1) (Scripted.quiet, sample_heap) = ((w', h'), Ok self)
    /\ concat (map headers (dict_values (batches self))) = ["a"; "b"; "c"; "d"].
Proof.
  assert (Hdf : sample_heap !! 0 = Some (HDataFrame sample_frame)) by reflexivity.
  assert (Hcfg : sample_heap !! 1 = Some (HDict sample_config)) by reflexivity.
  destruct (__init__ 0 2 None (Some 1) (Scripted.quiet, sample_heap))
    as [[w' h'] [self|e]] eqn:Hrun; [|vm_compute in Hrun; discriminate].
  destruct (init_partitions_columns Scripted.quiet w' sample_heap h' 0 1 2
              sample_frame sample_config self Hdf Hcfg Hrun)
    as (Hmaster & _ & _ & _ & Hcat & _).
  exists w', h', self. split; [reflexivity|].
  rewrite Hcat, Hmaster. reflexivity.
Defined.

(** ** The batches as built *)

(** Joining under a root normalises it: a trailing slash, repeated
    slashes and ["."] segments are dropped, an empty root gives a relative
    path, and exactly two leading slashes are kept. *)
Example path_join_plain : path_join "ckpt" "batch_0" = "ckpt/batch_0".
Proof. reflexivity. Qed.

Example path_join_trailing_slash : path_join "ckpt/" "batch_0" = "ckpt/batch_0".
Proof. reflexivity. Qed.

Example path_join_empty_root : path_join "" "batch_0" = "batch_0".
Proof. reflexivity. Qed.

Example path_join_dot_root : path_join "./ckpt" "batch_0" = "ckpt/batch_0".
Proof. reflexivity. Qed.

Example path_join_absolute :
  path_join "/var//ckpt/." "batch_0" = "/var/ckpt/batch_0".
Proof. reflexivity. Qed.

Example path_join_two_slashes : path_join "//srv" "batch_0" = "//srv/batch_0".
Proof. reflexivity. Qed.

Example path_join_three_slashes : path_join "///srv" "batch_0" = "/srv/batch_0".
Proof. reflexivity. Qed.

Example path_join_rooted_child : path_join "ckpt" "/tmp" = "/tmp".
Proof. reflexivity. Qed.

Example path_join_nested :
  path_join (path_join "ckpt/" "batch_0") "train.csv" = "ckpt/batch_0/train.csv".
Proof. reflexivity. Qed.

Example path_str_empty : path_str "" = ".".
Proof. reflexivity. Qed.

Lemma dict_get_lookup {V : Type} (d : dict V) :
  NoDup (dict_keys d) ->
  forall i k v, d !! i = Some (k, v) -> dict_get k d = Some v.
Proof.
  induction d as [|[k0 v0] d IH]; intros Hnd i k v Hi; [discriminate|].
  simpl in Hnd. apply NoDup_cons in Hnd as [Hfresh Hnd].
  destruct i as [|i]; simpl in Hi.
  - injection Hi as -> ->. simpl. rewrite Z.eqb_refl. reflexivity.
  - simpl. destruct (Z.eqb_spec k0 k) as [->|Hne].
    + exfalso. apply Hfresh.
      apply list_elem_of_lookup. exists i.
      unfold dict_keys. change (map fst d) with (fst <$> d).
      rewrite list_lookup_fmap, Hi. reflexivity.
    + apply (IH Hnd i k v Hi).
Qed.

Lemma NoDup_indices (n : nat) : NoDup (map Z.of_nat (seq 0 n)).
Proof.
  change (map Z.of_nat (seq 0 n)) with (Z.of_nat <$> seq 0 n).
  apply NoDup_fmap_2; [|apply NoDup_seq].
  intros a b Hab. lia.
Qed.

Section BuiltBatches.

Context {W : Type} `{Env W}.

Lemma load_validator_keeps (b0 b : Batch) (w w' : W) :
  load_validator_from_file b0 w = (w', Ok b) ->
  headers b = headers b0
  /\ config b = config b0
  /\ checkpoint_dir b = checkpoint_dir b0
  /\ input_data_path b = input_data_path b0
  /\ gen_data_count b = gen_data_count b0
  /\ gen_data_invalid b = gen_data_invalid b0
  /\ gen_data_stream b = gen_data_stream b0.
Proof.
  unfold load_validator_from_file, mbind_M, ret.
  destruct (path_exists _ w); [|intros [= _ <-]; repeat split].
  destruct (read_pickle_gz _ w) as [w1 [v|e]]; [|discriminate].
  intros [= _ <-]. repeat split.
Qed.

Lemma build_loop_batches (root : string) (config : gmap string pyval)
    (groups : list (list string)) :
  forall (i : nat) (out : dict Batch) (w w' : W) (bs : dict Batch),
    build_loop (VStr root) config i groups out w = (w', Ok bs) ->
    dict_keys out = map Z.of_nat (seq 0 i) ->
    exists news,
      bs = out ++ news
      /\ forall j hs, groups !! j = Some hs ->
           exists b,
             news !! j = Some (Z.of_nat (i + j), b)
             /\ headers b = hs
             /\ checkpoint_dir b = path_join root ("batch_" ++ pretty (i + j))
             /\ input_data_path b
                = path_join (path_join root ("batch_" ++ pretty (i + j))) "train.csv"
             /\ gen_data_count b = 0%Z
             /\ gen_data_invalid b = []
             /\ gen_data_stream b = header_line b.
Proof.
  induction groups as [|hs groups IH]; intros i out w w' bs Hrun Hkeys.
  - injection Hrun as _ <-. exists []. split; [rewrite app_nil_r; reflexivity|].
    intros j hs Hj. discriminate.
  - cbn [build_loop] in Hrun. unfold mbind_M, lift_result in Hrun.
    cbn [as_path] in Hrun.
    destruct (ensure_dir _ w) as [w1 [[]|e]]; [|discriminate].
    destruct (LocalConfig_new _ w1) as [w2 [cfg|e]]; [|discriminate].
    destruct (load_validator_from_file _ w2) as [w3 [b|e]] eqn:Hload; [|discriminate].
    apply load_validator_keeps in Hload.
    destruct Hload as (Hh & Hc & Hck & Hin & Hcount & Hinv & Hstream).
    simpl in Hh, Hc, Hck, Hin, Hcount, Hinv, Hstream.
    rewrite dict_set_fresh in Hrun by (rewrite Hkeys; apply index_fresh).
    apply IH in Hrun.
    + destruct Hrun as (news & -> & Hnews).
      exists ((Z.of_nat i, b) :: news).
      split; [rewrite <- app_assoc; reflexivity|].
      intros [|j] hs' Hj; simpl in Hj.
      * injection Hj as <-. exists b. rewrite Nat.add_0_r.
        split; [reflexivity|]. split; [exact Hh|]. split; [exact Hck|].
        split; [exact Hin|]. split; [exact Hcount|]. split; [exact Hinv|].
        rewrite Hstream. unfold header_line. rewrite Hh, Hc. reflexivity.
      * destruct (Hnews j hs' Hj) as (b' & Hb' & Hrest).
        exists b'. replace (i + S j) with (S i + j) by lia.
        split; [exact Hb'|exact Hrest].
    + unfold dict_keys in *. rewrite map_app, Hkeys, seq_S, map_app. reflexivity.
Qed.

(** X20. What [_build_batch_dirs] returns for the groups it is given: one
    batch per group, the [i]-th under the index [i], with that group as
    headers, the path [Path(root) / "batch_<i>"] as checkpoint directory
    and that path joined with ["train.csv"] as input path (both as
    [pathlib] renders them), and with clean accumulators: no valid line
    counted, no invalid record, a stream holding the header line only. *)
Theorem build_batch_dirs_batches (root : string) (groups : list (list string))
    (config : gmap string pyval) (w w' : W) (bs : dict Batch)
    (Hrun : _build_batch_dirs (VStr root) groups config w = (w', Ok bs)) :
  length bs = length groups
  /\ forall i hs, groups !! i = Some hs ->
       exists b,
         bs !! i = Some (Z.of_nat i, b)
         /\ dict_get (Z.of_nat i) bs = Some b
         /\ headers b = hs
         /\ checkpoint_dir b = path_join root ("batch_" ++ pretty i)
         /\ input_data_path b
            = path_join (path_join root ("batch_" ++ pretty i)) "train.csv"
         /\ gen_data_count b = 0%Z
         /\ gen_data_invalid b = []
         /\ gen_data_stream b = header_line b.
Proof.
  pose proof (build_batch_dirs_order (VStr root) groups config w w' bs Hrun)
    as [Hkeys Hheaders].
  assert (Hnd : NoDup (dict_keys bs)) by (rewrite Hkeys; apply NoDup_indices).
  unfold _build_batch_dirs, mbind_M, lift_result in Hrun.
  destruct (config_getitem "checkpoint_dir" config) as [dir|e]; [|discriminate].
  destruct (as_path dir) as [base|e]; [|discriminate].
  destruct (ensure_dir _ w) as [w1 [[]|e]]; [|discriminate].
  apply build_loop_batches in Hrun; [|reflexivity].
  destruct Hrun as (news & -> & Hnews). simpl in *.
  split.
  - rewrite <- Hheaders. unfold dict_values. rewrite !length_map. reflexivity.
  - intros i hs Hi. destruct (Hnews i hs Hi) as (b & Hb & Hrest).
    exists b. split; [exact Hb|].
    split; [apply (dict_get_lookup news Hnd i), Hb|exact Hrest].
Qed.

End BuiltBatches.

Lemma build_batch_dirs_batches_witness :
  exists w' bs b,
    _build_batch_dirs (VStr "./ckpt/") [["a"; "b"]; ["c"; "d"]]
                      (<[GEN_LINES := VInt 3]> sample_config) Scripted.quiet
    = (w', Ok bs)
    /\ dict_get 1 bs = Some b
    /\ headers b = ["c"; "d"]
    /\ checkpoint_dir b = "ckpt/batch_1"
    /\ input_data_path b = "ckpt/batch_1/train.csv".
Proof.
  destruct (_build_batch_dirs (VStr "./ckpt/") [["a"; "b"]; ["c"; "d"]]
              (<[GEN_LINES := VInt 3]> sample_config) Scripted.quiet)
    as [w' [bs|e]] eqn:Hrun; [|vm_compute in Hrun; discriminate].
  destruct (proj2 (build_batch_dirs_batches "./ckpt/" [["a"; "b"]; ["c"; "d"]]
                     (<[GEN_LINES := VInt 3]> sample_config) Scripted.quiet w' bs Hrun)
              1 ["c"; "d"] eq_refl)
    as (b & _ & Hget & Hh & Hck & Hin & _).
  exists w', bs, b. split; [reflexivity|]. split; [exact Hget|].
  split; [exact Hh|]. split; [rewrite Hck; reflexivity|rewrite Hin; reflexivity].
Defined.

(** ** Validators: saving, loading, and use by the generator *)

Section ValidatorFacts.

Context {W : Type} `{Env W}.
Implicit Types (self : DataFrameBatch) (w : W) (b : Batch).

(** X21. Saving and loading a validator use the same file,
    [<checkpoint_dir>/validator.p.gz]: when [set_validator] has written
    there what the world then reads back, [load_validator_from_file] on a
    batch with the same checkpoint directory installs that validator;
    without such a file the batch is returned as it is; and
    [set_validator] with [save=False] leaves the world alone. *)
Theorem validator_save_then_load (fn : obj) b w w1 w2 (fresh : Batch)
    (Hdir : checkpoint_dir fresh = checkpoint_dir b)
    (Hwrite : write_pickle_gz (path_join (checkpoint_dir b) "validator.p.gz") fn w
              = (w1, Ok tt))
    (Hexists : path_exists (path_join (checkpoint_dir b) "validator.p.gz") w1 = true)
    (Hread : read_pickle_gz (path_join (checkpoint_dir b) "validator.p.gz") w1
             = (w2, Ok fn)) :
  set_validator fn true (w, b) = ((w1, with_validator fn b), Ok tt)
  /\ load_validator_from_file fresh w1 = (w2, Ok (with_validator fn fresh))
  /\ validator (with_validator fn fresh) = fn
  /\ (forall w0,
        path_exists (path_join (checkpoint_dir fresh) "validator.p.gz") w0 = false ->
        load_validator_from_file fresh w0 = (w0, Ok fresh))
  /\ set_validator fn false (w, b) = ((w, with_validator fn b), Ok tt).
Proof.
  split; [|split; [|split; [|split]]].
  - unfold set_validator. cbn [checkpoint_dir with_validator].
    rewrite Hwrite. reflexivity.
  - unfold load_validator_from_file, mbind_M, ret.
    rewrite Hdir, Hexists, Hread. reflexivity.
  - reflexivity.
  - intros w0 Hnone. unfold load_validator_from_file. rewrite Hnone. reflexivity.
  - reflexivity.
Qed.

(** X22. When saving the validator fails, [set_batch_validator] raises
    but the validator stays installed on the batch; a [KeyError] raised
    by the saving is reported as [ValueError("invalid batch number!")]
    although the index is known, any other error as it is. *)
Theorem set_batch_validator_save_fails self w batch_idx (fn : obj) b w' e
    (Hcall : callable fn = true)
    (Hget : dict_get batch_idx (batches self) = Some b)
    (Hwrite : write_pickle_gz (path_join (checkpoint_dir b) "validator.p.gz") fn w
              = (w', Raise e)) :
  exists self',
    set_batch_validator batch_idx fn (w, self)
    = ((w', self'),
       Raise (if is_KeyError e then ValueError "invalid batch number!" else e))
    /\ dict_get batch_idx (batches self') = Some (with_validator fn b)
    /\ get_validator (with_validator fn b) = fn.
Proof.
  rewrite (set_batch_validator_run self w batch_idx fn b Hcall Hget), Hwrite.
  eexists. split; [destruct e; reflexivity|].
  split; [apply dict_get_set_eq|].
  destruct fn; try discriminate. reflexivity.
Qed.

(** X23. The generator is handed the validator of the batch: after a
    callable was installed with [set_batch_validator], the next
    [generate_batch_lines] on that index calls the generator with that
    callable; with no validator installed it calls it with the built-in
    one. *)
Theorem generator_receives_validator self w batch_idx (fn : obj) b max_invalid
    (Hget : dict_get batch_idx (batches self) = Some b) :
  (callable fn = true ->
   forall w2,
     let self' := snd (fst (set_batch_validator batch_idx fn (w, self))) in
     generate_batch_lines batch_idx max_invalid (w2, self')
     = match generate_text (config b) fn max_invalid w2 with
       | (w', (lines, stop)) =>
           let b' := fold_left collect_line lines
                       (reset_gen_data (with_validator fn b)) in
           ((w', with_batches (dict_set batch_idx b' (batches self)) self),
            match stop with
            | Some e => Raise e
            | None => Ok (gen_data_count b' =? gen_lines (config b'))%Z
            end)
       end)
  /\ (validator b = PyNone ->
      fst (fst (generate_batch_lines batch_idx max_invalid (w, self)))
      = fst (generate_text (config b) (PyCallable (_basic_validator b)) max_invalid w)).
Proof.
  split.
  - intros Hcall w2. cbv zeta.
    rewrite (set_batch_validator_run self w batch_idx fn b Hcall Hget).
    destruct (write_pickle_gz _ fn w) as [w1 r]. cbn [fst snd].
    set (self1 := with_batches (dict_set batch_idx (with_validator fn b) (batches self)) self).
    assert (Hget1 : dict_get batch_idx (batches self1) = Some (with_validator fn b))
      by apply dict_get_set_eq.
    rewrite (generate_batch_lines_run self1 w2 batch_idx max_invalid _ Hget1).
    assert (Hv : get_validator (reset_gen_data (with_validator fn b)) = fn).
    { destruct fn; try discriminate. reflexivity. }
    rewrite Hv. cbn [config with_validator].
    destruct (generate_text (config b) fn max_invalid w2) as [w' [lines stop]].
    cbv zeta. unfold self1. cbn [batches with_batches].
    rewrite dict_set_set. reflexivity.
  - intros Hnone.
    rewrite (generate_batch_lines_run self w batch_idx max_invalid b Hget).
    assert (Hv : get_validator (reset_gen_data b) = PyCallable (_basic_validator b)).
    { unfold get_validator. cbn [validator reset_gen_data]. rewrite Hnone. reflexivity. }
    rewrite Hv.
    destruct (generate_text (config b) _ max_invalid w) as [w' [lines stop]].
    reflexivity.
Qed.

End ValidatorFacts.

Lemma validator_save_then_load_witness :
  set_validator always_valid true (short_gen_world, batch_ab)
  = ((saved_world, with_validator always_valid batch_ab), Ok tt)
  /\ load_validator_from_file batch_ab saved_world
     = (saved_world, Ok (with_validator always_valid batch_ab)).
Proof.
  assert (Hwrite : write_pickle_gz (path_join (checkpoint_dir batch_ab) "validator.p.gz")
                     always_valid short_gen_world = (saved_world, Ok tt))
    by reflexivity.
  assert (Hexists : path_exists (path_join (checkpoint_dir batch_ab) "validator.p.gz")
                      saved_world = true) by reflexivity.
  assert (Hread : read_pickle_gz (path_join (checkpoint_dir batch_ab) "validator.p.gz")
                    saved_world = (saved_world, Ok always_valid)) by reflexivity.
  destruct (validator_save_then_load always_valid batch_ab short_gen_world
              saved_world saved_world batch_ab eq_refl Hwrite Hexists Hread)
    as (Hset & Hload & _).
  split; [exact Hset|exact Hload].
Defined.

Lemma generator_receives_validator_witness :
  fst (fst (generate_batch_lines 0 1 (short_gen_world, sample_self)))
  = fst (generate_text (config batch_ab) (PyCallable (_basic_validator batch_ab))
                       1 short_gen_world).
Proof.
  apply (proj2 (generator_receives_validator sample_self short_gen_world 0
                  PyNone batch_ab 1 eq_refl)).
  reflexivity.
Defined.

Lemma set_batch_validator_save_fails_witness :
  exists self',
    set_batch_validator 0 always_valid (tt, sample_self)
    = ((tt, self'),
       Raise (OtherError "PermissionError" "ckpt/batch_0/validator.p.gz"))
    /\ dict_get 0 (batches self') = Some (with_validator always_valid batch_ab).
Proof.
  assert (Hget : dict_get 0 (batches sample_self) = Some batch_ab) by reflexivity.
  assert (Hwrite : write_pickle_gz (path_join (checkpoint_dir batch_ab) "validator.p.gz")
                     always_valid tt
                   = (tt, Raise (OtherError "PermissionError"
                                            "ckpt/batch_0/validator.p.gz")))
    by reflexivity.
  destruct (set_batch_validator_save_fails sample_self tt 0 always_valid batch_ab
              tt _ eq_refl Hget Hwrite)
    as (self' & Hrun & Hinst & _).
  exists self'. split; [exact Hrun|exact Hinst].
Defined.

(** ** [create_training_data] *)

Lemma dict_get_elem {V : Type} (d : dict V) (k : Z) (v : V) :
  dict_get k d = Some v -> (k, v) ∈ d.
Proof.
  induction d as [|[k0 v0] d IH]; simpl; [discriminate|].
  destruct (Z.eqb_spec k0 k) as [->|Hne].
  - intros [= ->]. left.
  - intros Hget. right. apply IH, Hget.
Qed.

Section ExtractFacts.

Context {W : Type} `{CsvWriter W} `{KeyErrorText}.

Lemma extract_step (self : DataFrameBatch) (frame : DataFrame)
    (d : gmap string pyval) (h : heap) (i : Z) (b : Batch)
    (rest : list (Z * Batch)) (t : dict DataFrame) (w : W) :
  h !! _source_df self = Some (HDataFrame frame) ->
  h !! self_config self = Some (HDict d) ->
  extract_each self ((i, b) :: rest) (w, (h, t))
  = match getitem (headers b) frame with
    | Raise e => ((w, (h, t)), Raise e)
    | Ok out =>
        match config_getitem FIELD_DELIM d with
        | Raise e => ((w, (h, dict_set i out t)), Raise e)
        | Ok sep =>
            match to_csv out (input_data_path b) sep w with
            | (w', Ok _) => extract_each self rest (w', (h, dict_set i out t))
            | (w', Raise e) => ((w', (h, dict_set i out t)), Raise e)
            end
        end
    end.
Proof.
  intros Hdf Hcfg. cbn [extract_each].
  unfold mbind_M, source_getitem, set_training_df, shared_config_getitem, in_world.
  cbn [fst snd]. rewrite Hdf.
  destruct (getitem (headers b) frame) as [out|e]; [|reflexivity].
  cbn [fst snd]. rewrite Hcfg.
  destruct (config_getitem FIELD_DELIM d) as [sep|e]; [|reflexivity].
  destruct (to_csv out (input_data_path b) sep w) as [w' [[]|e]]; reflexivity.
Qed.

Lemma extract_each_ok (steady : W -> Prop) (self : DataFrameBatch)
    (frame : DataFrame) (d : gmap string pyval) (sep : pyval) (h : heap) :
  h !! _source_df self = Some (HDataFrame frame) ->
  h !! self_config self = Some (HDict d) ->
  d !! FIELD_DELIM = Some sep ->
  NoDup (labels frame) ->
  (forall df p s w0, steady w0 ->
     snd (to_csv df p s w0) = Ok tt /\ steady (fst (to_csv df p s w0))) ->
  forall (items : list (Z * Batch)) (t : dict DataFrame) (w : W),
    NoDup (map fst items) ->
    (forall k, k ∈ map fst items -> k ∉ dict_keys t) ->
    (forall i b l, (i, b) ∈ items -> l ∈ headers b -> l ∈ labels frame) ->
    steady w ->
    exists w' t',
      extract_each self items (w, (h, t)) = ((w', (h, t')), Ok tt)
      /\ dict_keys t' = dict_keys t ++ map fst items
      /\ (forall j, j ∉ map fst items -> dict_get j t' = dict_get j t)
      /\ (forall i b, (i, b) ∈ items ->
            exists out, dict_get i t' = Some out
                        /\ getitem (headers b) frame = Ok out).
Proof.
  intros Hdf Hcfg Hsep Hnd Hwriter.
  induction items as [|[i b] items IH]; intros t w Hkeys Hfresh Hcols Hw.
  - exists w, t. split; [reflexivity|]. split; [rewrite app_nil_r; reflexivity|].
    split; [reflexivity|]. intros i b Hin. apply elem_of_nil in Hin. contradiction.
  - simpl in Hkeys. apply NoDup_cons in Hkeys as [Hi Hkeys].
    rewrite (extract_step self frame d h i b items t w Hdf Hcfg).
    destruct (getitem_reorders frame (headers b) Hnd) as (out & Hout & _).
    { intros l Hl. apply (Hcols i b l); [left|exact Hl]. }
    rewrite Hout. unfold config_getitem at 1. rewrite Hsep.
    destruct (Hwriter out (input_data_path b) sep w Hw) as [Hok Hw1].
    destruct (to_csv out (input_data_path b) sep w) as [w1 r].
    cbn [fst snd] in Hok, Hw1. subst r.
    assert (Hkeys1 : dict_keys (dict_set i out t) = dict_keys t ++ [i]).
    { rewrite dict_set_fresh by (apply Hfresh; left).
      unfold dict_keys. rewrite map_app. reflexivity. }
    destruct (IH (dict_set i out t) w1 Hkeys) as (w' & t' & Hrun & Hks & Hframe & Hdone).
    + intros k Hk. rewrite Hkeys1. intros Hin. apply elem_of_app in Hin as [Hin|Hin].
      * apply (Hfresh k); [right; exact Hk|exact Hin].
      * apply list_elem_of_singleton in Hin. subst k. contradiction.
    + intros i' b' l Hin Hl. apply (Hcols i' b' l); [right; exact Hin|exact Hl].
    + exact Hw1.
    + exists w', t'. split; [exact Hrun|].
      split; [rewrite Hks, Hkeys1, <- app_assoc; reflexivity|].
      split.
      { intros j Hj. simpl in Hj. apply not_elem_of_cons in Hj as [Hji Hj].
        rewrite (Hframe j Hj). apply dict_get_set_ne, Hji. }
      intros i' b' Hin. apply elem_of_cons in Hin as [[= -> ->]|Hin].
      * exists out. rewrite (Hframe i Hi), dict_get_set_eq. split; [reflexivity|exact Hout].
      * apply Hdone, Hin.
Qed.

(** X24. For a coordinator whose batches' headers are columns of the
    source (distinct column names, distinct batch indices), a delimiter in
    the shared config, and a writer that does not fail,
    [create_training_data] returns, leaves the caller's store as it was,
    and gives every batch a training table that has exactly the batch's
    headers as labels, in that order, the source's number of rows, and
    columns of the source. *)
Theorem create_training_data_extracts (steady : W -> Prop)
    (self : DataFrameBatch) (frame : DataFrame) (d : gmap string pyval)
    (sep : pyval) (h : heap) (w : W)
    (Hdf : h !! _source_df self = Some (HDataFrame frame))
    (Hcfg : h !! self_config self = Some (HDict d))
    (Hsep : d !! FIELD_DELIM = Some sep)
    (Hnd : NoDup (labels frame))
    (Hkeys : NoDup (dict_keys (batches self)))
    (Hcols : forall i b l, (i, b) ∈ batches self -> l ∈ headers b -> l ∈ labels frame)
    (Hw : steady w)
    (Hwriter : forall df p s w0, steady w0 ->
                 snd (to_csv df p s w0) = Ok tt /\ steady (fst (to_csv df p s w0))) :
  exists w' training,
    create_training_data self (w, (h, [])) = ((w', (h, training)), Ok tt)
    /\ dict_keys training = dict_keys (batches self)
    /\ forall i b, dict_get i (batches self) = Some b ->
         exists out,
           dict_get i training = Some out
           /\ labels out = headers b
           /\ nrows out = nrows frame
           /\ (forall c, c ∈ columns out -> c ∈ columns frame).
Proof.
  unfold create_training_data.
  destruct (extract_each_ok steady self frame d sep h Hdf Hcfg Hsep Hnd Hwriter
              (batches self) [] w Hkeys)
    as (w' & training & Hrun & Hks & _ & Hdone).
  - intros k _ Hin. apply elem_of_nil in Hin. contradiction.
  - exact Hcols.
  - exact Hw.
  - exists w', training. split; [exact Hrun|]. split; [exact Hks|].
    intros i b Hget. apply dict_get_elem in Hget.
    destruct (Hdone i b Hget) as (out & Hout & Hitem).
    exists out. split; [exact Hout|].
    destruct (getitem_reorders frame (headers b) Hnd) as (out' & Hitem' & Hl & Hn & Hheld & _).
    { intros l Hl. apply (Hcols i b l Hget Hl). }
    rewrite Hitem in Hitem'. injection Hitem' as <-.
    split; [exact Hl|]. split; [exact Hn|exact Hheld].
Qed.

(** X25. How [create_training_data] fails on its first batch: headers
    naming a column the source lacks raise the [KeyError] of pandas (its
    text made of the batch's headers and of the source's labels) before
    anything is set or written; a shared config that no longer has the field
    delimiter raises [KeyError("field_delimiter")] after the batch's
    training table was set and before any file is written. The caller's
    store is untouched in both cases. *)
Theorem create_training_data_failures (self : DataFrameBatch) (frame : DataFrame)
    (d : gmap string pyval) (h : heap) (w : W) (t : dict DataFrame)
    (i : Z) (b : Batch) (rest : list (Z * Batch))
    (Hdf : h !! _source_df self = Some (HDataFrame frame))
    (Hcfg : h !! self_config self = Some (HDict d))
    (Hfirst : batches self = (i, b) :: rest) :
  ((exists l, l ∈ headers b /\ l ∉ labels frame) ->
   create_training_data self (w, (h, t))
   = ((w, (h, t)), Raise (KeyError (not_in_index (headers b) (labels frame)))))
  /\ (forall out,
        getitem (headers b) frame = Ok out ->
        d !! FIELD_DELIM = None ->
        create_training_data self (w, (h, t))
        = ((w, (h, dict_set i out t)), Raise (KeyError FIELD_DELIM))).
Proof.
  unfold create_training_data. rewrite Hfirst.
  rewrite (extract_step self frame d h i b rest t w Hdf Hcfg).
  split.
  - intros Hmiss. rewrite (getitem_missing frame (headers b) Hmiss). reflexivity.
  - intros out Hout Hnone. rewrite Hout.
    unfold config_getitem. rewrite Hnone. reflexivity.
Qed.

End ExtractFacts.

Lemma create_training_data_extracts_witness :
  exists w' training out,
    create_training_data sample_self (Scripted.quiet, (sample_heap, []))
    = ((w', (sample_heap, training)), Ok tt)
    /\ dict_get 1 training = Some out
    /\ labels out = ["c"; "d"].
Proof.
  assert (Hdf : sample_heap !! _source_df sample_self = Some (HDataFrame sample_frame))
    by reflexivity.
  assert (Hcfg : sample_heap !! self_config sample_self = Some (HDict sample_config))
    by reflexivity.
  assert (Hsep : sample_config !! FIELD_DELIM = Some (VStr ",")) by reflexivity.
  assert (Hnd : NoDup (labels sample_frame)).
  { apply NoDup_ListNoDup. simpl.
    repeat (constructor; [simpl; intuition discriminate|]). constructor. }
  assert (Hkeys : NoDup (dict_keys (batches sample_self))).
  { apply NoDup_ListNoDup. simpl.
    repeat (constructor; [simpl; intuition discriminate|]). constructor. }
  assert (Hcols : forall i b l, (i, b) ∈ batches sample_self -> l ∈ headers b ->
                                l ∈ labels sample_frame).
  { intros i b l Hin Hl. apply list_elem_of_In in Hin. apply list_elem_of_In.
    apply list_elem_of_In in Hl.
    simpl in Hin. destruct Hin as [[= <- <-]|[[= <- <-]|[]]]; simpl in *; tauto. }
  destruct (create_training_data_extracts (fun _ => True) sample_self sample_frame
              sample_config (VStr ",") sample_heap Scripted.quiet
              Hdf Hcfg Hsep Hnd Hkeys Hcols I)
    as (w' & training & Hrun & _ & Hall).
  { intros df p s w0 _. split; [reflexivity|exact I]. }
  destruct (Hall 1%Z batch_cd eq_refl) as (out & Hout & Hl & _).
  exists w', training, out. split; [exact Hrun|]. split; [exact Hout|exact Hl].
Defined.

Lemma create_training_data_failures_witness :
  create_training_data sample_self (Scripted.quiet, (narrow_heap, []))
  = ((Scripted.quiet, (narrow_heap, [])), Raise (KeyError "['b'] not in index"))
  /\ exists out,
       create_training_data sample_self (Scripted.quiet, (stale_heap, []))
       = ((Scripted.quiet, (stale_heap, [(0%Z, out)])), Raise (KeyError FIELD_DELIM)).
Proof.
  assert (Hfirst : batches sample_self = (0%Z, batch_ab) :: [(1%Z, batch_cd)])
    by reflexivity.
  split.
  - assert (Hdf : narrow_heap !! _source_df sample_self = Some (HDataFrame narrow_frame))
      by reflexivity.
    assert (Hcfg : narrow_heap !! self_config sample_self = Some (HDict sample_config))
      by reflexivity.
    assert (Hmiss : exists l, l ∈ headers batch_ab /\ l ∉ labels narrow_frame).
    { exists "b". split; [right; left|].
      intros Hin. apply list_elem_of_In in Hin. simpl in Hin. intuition discriminate. }
    rewrite (proj1 (create_training_data_failures sample_self narrow_frame
                      sample_config narrow_heap Scripted.quiet [] 0%Z batch_ab
                      [(1%Z, batch_cd)] Hdf Hcfg Hfirst) Hmiss).
    reflexivity.
  - assert (Hdf : stale_heap !! _source_df sample_self = Some (HDataFrame sample_frame))
      by reflexivity.
    assert (Hcfg : stale_heap !! self_config sample_self
                   = Some (HDict (delete FIELD_DELIM sample_config)))
      by reflexivity.
    destruct (getitem (headers batch_ab) sample_frame) as [out|e] eqn:Hout;
      [|vm_compute in Hout; discriminate].
    exists out.
    apply (proj2 (create_training_data_failures sample_self sample_frame
                    (delete FIELD_DELIM sample_config) stale_heap Scripted.quiet []
                    0%Z batch_ab [(1%Z, batch_cd)] Hdf Hcfg Hfirst) out Hout).
    reflexivity.
Defined.
